(** * Systems-One ingest: the MQTT decoder, the signal stores and the
      message dispatcher of [mqtt_ingest], embedded in Rocq.

    Python values are modelled as the code sees them:
    - a [str] is the list of its Unicode code points ([pystr]);
    - a value returned by [json.loads] is a [json] tree, where JSON
      [null] and Python [None] coincide ([JNull]) and an object keeps
      its items in order;
    - an [int] is a [Z], a [float] is an IEEE-754 binary64 value
      ([spec_float] at precision 53, exponent bound 1024);
    - a raised exception is the [Raise] case of [result]; [try]/[except
      Exception] is [try_except];
    - a database table is the list of its rows, in insertion order, with
      the next identity value beside it; the connection itself never
      fails in this model, so a store raises only where its own Python
      code does. *)

From Stdlib Require Import ZArith NArith List String Ascii Bool Lia.
From Stdlib Require Import Floats.SpecFloat.
Import ListNotations.

Local Open Scope Z_scope.

(* ------------------------------------------------------------------ *)
(** * Python strings *)

Module PyStr.

Definition pystr := list N.

(** An ASCII literal as a [pystr]. *)
Definition u (s : string) : pystr :=
  map N_of_ascii (list_ascii_of_string s).

Fixpoint eqb (a b : pystr) : bool :=
  match a, b with
  | [], [] => true
  | x :: a', y :: b' => N.eqb x y && eqb a' b'
  | _, _ => false
  end.

(** [bool(s)]: a string is truthy when it is not empty. *)
Definition truthy (s : pystr) : bool :=
  match s with [] => false | _ :: _ => true end.

(** [str.isspace] on one code point (the Unicode whitespace set that
    [str.strip()] removes). *)
Definition is_space (c : N) : bool :=
  ((9 <=? c) && (c <=? 13) || (28 <=? c) && (c <=? 32)
   || (c =? 133) || (c =? 160) || (c =? 5760)
   || (8192 <=? c) && (c <=? 8202)
   || (c =? 8232) || (c =? 8233) || (c =? 8239) || (c =? 8287)
   || (c =? 12288))%N.

Fixpoint lstrip_by (p : N -> bool) (s : pystr) : pystr :=
  match s with
  | [] => []
  | c :: s' => if p c then lstrip_by p s' else s
  end.

Definition rstrip_by (p : N -> bool) (s : pystr) : pystr :=
  rev (lstrip_by p (rev s)).

Definition strip_by (p : N -> bool) (s : pystr) : pystr :=
  rstrip_by p (lstrip_by p s).

(** [s.strip()] *)
Definition strip (s : pystr) : pystr := strip_by is_space s.

(** [s.strip(c)] for a one-character argument. *)
Definition strip_char (c : N) (s : pystr) : pystr := strip_by (N.eqb c) s.

(** [s.split(sep)] for a one-character separator: never empty, and
    [len(result) = s.count(sep) + 1]. *)
Fixpoint split (sep : N) (s : pystr) : list pystr :=
  match s with
  | [] => [[]]
  | c :: s' =>
      if N.eqb c sep then [] :: split sep s'
      else match split sep s' with
           | [] => [[c]]
           | p :: ps => (c :: p) :: ps
           end
  end.

(** [sep.join(parts)] *)
Fixpoint join (sep : pystr) (parts : list pystr) : pystr :=
  match parts with
  | [] => []
  | [p] => p
  | p :: ps => p ++ sep ++ join sep ps
  end.

Definition slash : N := 47.
Definition colon : N := 58.

(** Case mapping.  On ASCII it is the usual one; the image of a code
    point outside ASCII comes from the Unicode tables, which are taken
    as given ([upper_other], [lower_other]: one code point may map to
    several).  The one contextual rule of [str.lower] (the final sigma)
    chooses between two letters outside ASCII, so it changes no
    comparison with an ASCII word. *)
Section CaseMapping.
Variable upper_other lower_other : N -> list N.

Definition upper_cp (c : N) : list N :=
  if (c <? 128)%N
  then (if (97 <=? c)%N && (c <=? 122)%N then [c - 32] else [c])%N
  else upper_other c.

Definition lower_cp (c : N) : list N :=
  if (c <? 128)%N
  then (if (65 <=? c)%N && (c <=? 90)%N then [c + 32] else [c])%N
  else lower_other c.

Definition upper (s : pystr) : pystr := flat_map upper_cp s.
Definition lower (s : pystr) : pystr := flat_map lower_cp s.
End CaseMapping.

(** ["A" <= s <= "Z"] for a string [s] (lexicographic order on code
    points). *)
Fixpoint leb (a b : pystr) : bool :=
  match a, b with
  | [], _ => true
  | _ :: _, [] => false
  | x :: a', y :: b' => (x <? y)%N || (N.eqb x y && leb a' b')
  end.

(** [str(n)] for an [int]. *)
Definition digit (d : N) : N := (48 + d)%N.

Fixpoint digits_pos (fuel : nat) (n : N) (acc : pystr) : pystr :=
  match fuel with
  | O => acc
  | S fuel' =>
      let acc' := digit (n mod 10)%N :: acc in
      if (n <? 10)%N then acc' else digits_pos fuel' (n / 10)%N acc'
  end.

Definition str_of_N (n : N) : pystr :=
  digits_pos (S (N.to_nat (N.log2 n))) n [].

Definition str_of_Z (z : Z) : pystr :=
  match z with
  | Z0 => u "0"
  | Zpos p => str_of_N (Npos p)
  | Zneg p => 45%N :: str_of_N (Npos p)
  end.

End PyStr.

Import PyStr.

(* ------------------------------------------------------------------ *)
(** * Python values, exceptions and the runtime library *)

Module Py.

(** The exception classes the code can meet; all derive from
    [Exception], so [except Exception] catches each of them. *)
Inductive exn : Type :=
| ValueError | TypeError | OverflowError | OSError | RecursionError
| UnicodeDecodeError | JSONDecodeError
| RuntimeError (msg : string).

Inductive result (A : Type) : Type :=
| Ok (a : A)
| Raise (e : exn).
Arguments Ok {A} a.
Arguments Raise {A} e.

Definition bind {A B} (m : result A) (k : A -> result B) : result B :=
  match m with
  | Ok a => k a
  | Raise e => Raise e
  end.

(** [try: body  except Exception: handler] *)
Definition try_except {A} (body : result A) (handler : exn -> result A)
  : result A :=
  match body with
  | Ok a => Ok a
  | Raise e => handler e
  end.

Definition raises {A} (m : result A) : bool :=
  match m with Ok _ => false | Raise _ => true end.

(** A value as [json.loads] builds it. *)
#[warnings="-register-all"]
Inductive json : Type :=
| JNull
| JBool (b : bool)
| JInt (n : Z)
| JFloat (f : spec_float)
| JStr (s : pystr)
| JList (items : list json)
| JDict (items : list (pystr * json)).

Definition dict := list (pystr * json).

(** [d.get(key)]: the value, or [None] when the key is missing (the
    keys of an object that [json.loads] built are distinct). *)
Fixpoint dict_get (key : pystr) (d : dict) : json :=
  match d with
  | [] => JNull
  | (k, v) :: d' => if PyStr.eqb k key then v else dict_get key d'
  end.

Definition dict_keys (d : dict) : list pystr := map fst d.

(** [isinstance(v, Mapping)] *)
Definition as_mapping (v : json) : option dict :=
  match v with JDict d => Some d | _ => None end.

(** A UTC [datetime], as microseconds since the epoch. *)
Record datetime : Type := mk_datetime { micros : Z }.

(** binary64 *)
Definition float := spec_float.
Definition prec : Z := 53.
Definition emax : Z := 1024.

(** [float(n)] for an [int]: correctly rounded, [OverflowError] when the
    result is out of range. *)
Definition float_of_int (n : Z) : result float :=
  match binary_normalize prec emax n 0 false with
  | S754_infinity _ => Raise OverflowError
  | x => Ok x
  end.

Definition f1000 : float := binary_normalize prec emax 1000 0 false.

(** [n / 1000.0] for an [int] [n]: the int is converted first. *)
Definition int_truediv_1000 (n : Z) : result float :=
  bind (float_of_int n) (fun x => Ok (SFdiv prec emax x f1000)).

(** [int(x)] for a [float]: truncation towards zero. *)
Definition int_of_float (x : float) : result Z :=
  match x with
  | S754_zero _ => Ok 0
  | S754_infinity _ => Raise OverflowError
  | S754_nan => Raise ValueError
  | S754_finite s m e =>
      let a := match e with
               | Z0 => Zpos m
               | Zpos p => Zpos m * 2 ^ Zpos p
               | Zneg p => Zpos m / 2 ^ Zpos p
               end in
      Ok (if s then - a else a)
  end.

(** What the code uses of the Python runtime without defining it. *)
Class Runtime : Type := {
  (** [b.decode("utf-8", errors="strict")] *)
  utf8_decode_strict : list Byte.byte -> result pystr;
  (** [b.decode("utf-8", errors="replace")], which cannot fail *)
  utf8_decode_replace : list Byte.byte -> pystr;
  (** [json.loads(text)] *)
  json_loads : pystr -> result json;
  (** [str(x)] for a float, a list or a dict *)
  repr_float : float -> pystr;
  str_container : json -> result pystr;
  (** [int(s)] and [float(s)] for a [str] *)
  int_of_str : pystr -> result Z;
  float_of_str : pystr -> result float;
  (** case mapping outside ASCII *)
  upper_other : N -> list N;
  lower_other : N -> list N;
  (** [datetime.fromtimestamp(x, tz=timezone.utc)] *)
  utc_fromtimestamp : float -> result datetime;
  (** [int(dt.timestamp())] *)
  timestamp_seconds : datetime -> Z
}.

Section Coercions.
Context {rt : Runtime}.

(** [str(v)].  An [int] that [json.loads] produced has a decimal form
    ([int(text)] and [str(n)] share their limit on the number of
    digits). *)
Definition py_str (v : json) : result pystr :=
  match v with
  | JNull => Ok (u "None")
  | JBool true => Ok (u "True")
  | JBool false => Ok (u "False")
  | JInt n => Ok (str_of_Z n)
  | JFloat f => Ok (repr_float f)
  | JStr s => Ok s
  | JList _ | JDict _ => str_container v
  end.

(** [int(v)] *)
Definition py_int (v : json) : result Z :=
  match v with
  | JBool b => Ok (Z.b2z b)
  | JInt n => Ok n
  | JFloat f => int_of_float f
  | JStr s => int_of_str s
  | JNull | JList _ | JDict _ => Raise TypeError
  end.

(** [float(v)] *)
Definition py_float (v : json) : result float :=
  match v with
  | JBool b => float_of_int (Z.b2z b)
  | JInt n => float_of_int n
  | JFloat f => Ok f
  | JStr s => float_of_str s
  | JNull | JList _ | JDict _ => Raise TypeError
  end.

Definition str_upper (s : pystr) : pystr := PyStr.upper upper_other s.
Definition str_lower (s : pystr) : pystr := PyStr.lower lower_other s.
End Coercions.

End Py.

Import Py.

Declare Scope py_scope.
Notation "x <- m ;; k" := (bind m (fun x => k))
  (at level 61, m at next level, right associativity) : py_scope.
Local Open Scope py_scope.

(* ------------------------------------------------------------------ *)
(** * ingest_models.py: the topic/payload decoder *)

Module ingest_models.

Record TopicInfo : Type := {
  info_prefix : pystr;
  info_customer : pystr;
  info_location : pystr;
  info_machine : pystr;
  info_subtype : pystr
}.

Record IngestEvent : Type := {
  prefix : pystr;
  customer : pystr;
  location : pystr;
  machine : pystr;
  subtype : pystr;
  serial_number : option pystr;
  ts_ms : option Z;
  qos : option Z;
  retain : option bool;
  payload : option dict
}.

(** [parts = [p for p in (topic or "").strip("/").split("/") if p]];
    [topic] is a [str], so [topic or ""] is [topic]. *)
Definition topic_parts (topic : pystr) : list pystr :=
  filter truthy (split slash (strip_char slash topic)).

Definition parse_topic (topic : pystr) : option TopicInfo :=
  let parts := topic_parts topic in
  if (List.length parts <? 5)%nat then None
  else Some {| info_prefix := nth 0 parts [];
               info_customer := nth 1 parts [];
               info_location := nth 2 parts [];
               info_machine := nth 3 parts [];
               info_subtype := join (u "/") (skipn 4 parts) |}.

Section Decoder.
Context {rt : Runtime}.

Definition _safe_str (value : json) : result (option pystr) :=
  match value with
  | JNull => Ok None
  | JStr s => Ok (Some s)
  | _ => try_except (s <- py_str value ;; Ok (Some s))
                    (fun _ => Ok None)
  end.

Definition _safe_int (value : json) : result (option Z) :=
  match value with
  | JNull => Ok None
  | JBool b => Ok (Some (Z.b2z b))
  | JInt n => Ok (Some n)
  | _ => try_except (n <- py_int value ;; Ok (Some n))
                    (fun _ => Ok None)
  end.

(** The conversion of an [int] is outside the [try]. *)
Definition _safe_float (value : json) : result (option float) :=
  match value with
  | JNull => Ok None
  | JBool b => x <- float_of_int (Z.b2z b) ;; Ok (Some x)
  | JInt n => x <- float_of_int n ;; Ok (Some x)
  | JFloat f => Ok (Some f)
  | _ => try_except (x <- py_float value ;; Ok (Some x))
                    (fun _ => Ok None)
  end.

(** The text the payload is parsed from: strict UTF-8, or the lossy
    decoding when the strict one fails. *)
Definition decode_text (payload_bytes : list Byte.byte) : pystr :=
  match utf8_decode_strict payload_bytes with
  | Ok text => text
  | Raise _ => utf8_decode_replace payload_bytes
  end.

Definition parse_payload (payload_bytes : list Byte.byte)
  : result (option dict) :=
  match payload_bytes with
  | [] => Ok None
  | _ :: _ =>
      text <- try_except (utf8_decode_strict payload_bytes)
                (fun _ => Ok (utf8_decode_replace payload_bytes)) ;;
      match json_loads text with
      | Raise _ => Ok None
      | Ok obj => Ok (as_mapping obj)
      end
  end.

Definition build_event (topic : pystr) (payload_bytes : list Byte.byte)
    (qos : option Z) (retain : option bool)
  : result (option IngestEvent) :=
  match parse_topic topic with
  | None => Ok None
  | Some info =>
      payload <- parse_payload payload_bytes ;;
      fields <- match payload with
                | None => Ok (None, None)
                | Some p =>
                    serial <- _safe_str (dict_get (u "serial_number") p) ;;
                    ts <- _safe_int (dict_get (u "ts") p) ;;
                    Ok (serial, ts)
                end ;;
      Ok (Some {| prefix := info_prefix info;
                  customer := info_customer info;
                  location := info_location info;
                  machine := info_machine info;
                  subtype := info_subtype info;
                  serial_number := fst fields;
                  ts_ms := snd fields;
                  qos := qos;
                  retain := retain;
                  payload := payload |})
  end.

(** [IngestEvent.ts_iso]; the rendering by [strftime] is left out, the
    value kept is the [datetime] it renders. *)
Definition ts_iso (event : IngestEvent) : result (option datetime) :=
  match ts_ms event with
  | None => Ok None
  | Some ms =>
      try_except
        (x <- int_truediv_1000 ms ;;
         dt <- utc_fromtimestamp x ;;
         Ok (Some dt))
        (fun _ => Ok None)
  end.

(** The log line of an event, before rendering: which branch of
    [to_log_line] is taken and the values it formats. *)
Inductive log_line : Type :=
| LineUnparsed (ts : option datetime)
| LineStatus (ts : option datetime) (status os_version : option pystr)
| LineStatistics (ts : option datetime)
    (total good no_reads out_of_spec success sent : option Z)
| LineStatisticsInvalid (ts : option datetime)
| LineStorage (ts : option datetime)
    (parts : list (pystr * (option float * option float * option float)))
| LineStorageInvalid (ts : option datetime)
| LineUnknown (ts : option datetime) (keys : list pystr).

(** The loop of the [storage] branch. *)
Fixpoint storage_parts (items : dict)
  : result (list (pystr * (option float * option float * option float))) :=
  match items with
  | [] => Ok []
  | (drive, info) :: items' =>
      match as_mapping info with
      | None => storage_parts items'
      | Some info_map =>
          used_pct <- _safe_float (dict_get (u "used_pct") info_map) ;;
          used_gb <- _safe_float (dict_get (u "used_gb") info_map) ;;
          total_gb <- _safe_float (dict_get (u "total_gb") info_map) ;;
          rest <- storage_parts items' ;;
          Ok ((drive, (used_pct, used_gb, total_gb)) :: rest)
      end
  end.

Definition to_log_line (event : IngestEvent) : result log_line :=
  ts <- ts_iso event ;;
  match payload event with
  | None => Ok (LineUnparsed ts)
  | Some p =>
      if PyStr.eqb (subtype event) (u "status") then
        status <- _safe_str (dict_get (u "device_status") p) ;;
        os_version <- _safe_str (dict_get (u "device_os_version") p) ;;
        Ok (LineStatus ts status os_version)
      else if PyStr.eqb (subtype event) (u "statistics") then
        match as_mapping (dict_get (u "statistics") p) with
        | Some stats_map =>
            total <- _safe_int (dict_get (u "total_items") stats_map) ;;
            good <- _safe_int (dict_get (u "good_reads") stats_map) ;;
            no_reads <- _safe_int (dict_get (u "no_reads") stats_map) ;;
            out_of_spec <- _safe_int (dict_get (u "out_of_spec") stats_map) ;;
            success <- _safe_int (dict_get (u "success") stats_map) ;;
            sent <- _safe_int (dict_get (u "sent") stats_map) ;;
            Ok (LineStatistics ts total good no_reads out_of_spec success sent)
        | None => Ok (LineStatisticsInvalid ts)
        end
      else if PyStr.eqb (subtype event) (u "storage") then
        match as_mapping (dict_get (u "storage") p) with
        | Some storage_map =>
            parts <- storage_parts storage_map ;;
            Ok (LineStorage ts parts)
        | None => Ok (LineStorageInvalid ts)
        end
      else Ok (LineUnknown ts (dict_keys p))
  end.

End Decoder.

End ingest_models.

Import ingest_models.

(* ------------------------------------------------------------------ *)
(** * The database and the store monad *)

Module Db.

(** A table with an identity column: its rows in insertion order and the
    next identity value.  The audit columns [created_at] and
    [updated_at], which the server fills from its own clock, are left
    out. *)
Record table (R : Type) : Type := mk_table {
  rows : list R;
  next_id : Z
}.
Arguments mk_table {R} rows next_id.
Arguments rows {R} t.
Arguments next_id {R} t.

(** [INSERT ... OUTPUT Inserted.id] *)
Definition insert {R} (mk : Z -> R) (t : table R) : Z * table R :=
  (next_id t, mk_table (rows t ++ [mk (next_id t)]) (next_id t + 1)).

(** [SELECT ... WHERE p], [fetchone()]: the first row that matches. *)
Definition select_one {R} (p : R -> bool) (t : table R) : option R :=
  find p (rows t).

(** [UPDATE ... SET f WHERE p] *)
Definition update {R} (p : R -> bool) (f : R -> R) (t : table R) : table R :=
  mk_table (map (fun r => if p r then f r else r) (rows t)) (next_id t).

Record status_row : Type := {
  st_id : Z;
  st_device_id : Z;
  st_status : pystr;
  st_ts_epoch : Z;
  st_ts_datetime : datetime;
  st_offline_since : option datetime
}.

Record os_row : Type := {
  os_id : Z;
  os_device_id : Z;
  os_version : pystr;
  os_ts_epoch : Z;
  os_ts_datetime : datetime
}.

Record storage_row : Type := {
  sg_id : Z;
  sg_device_id : Z;
  sg_drive : pystr;
  sg_drive_type : option pystr;
  sg_format : option pystr;
  sg_total_gb : option float;
  sg_free_gb : option float;
  sg_used_gb : option float;
  sg_usage_percent : option float;
  sg_ts_epoch : Z;
  sg_ts_datetime : datetime
}.

Record statistics_row : Type := {
  sx_id : Z;
  sx_device_id : Z;
  sx_ts_epoch : Z;
  sx_ts_datetime : datetime;
  sx_total_items : Z;
  sx_no_read : Z;
  sx_good_read : Z;
  sx_no_dimension : Z;
  sx_no_weight : Z;
  sx_data_sent : Z;
  sx_not_sent : Z;
  sx_image_sent : Z;
  sx_image_not_sent : Z;
  sx_item_out_of_spec : Z;
  sx_more_than_1_item : Z
}.

(** What the stores act on: the four signal tables and the clock that
    [datetime.now] reads. *)
Record world : Type := mk_world {
  device_status : table status_row;
  device_os_status : table os_row;
  device_storage_status : table storage_row;
  device_statistics : table statistics_row;
  now : datetime
}.

Definition with_device_status (t : table status_row) (w : world) : world :=
  mk_world t (device_os_status w) (device_storage_status w)
           (device_statistics w) (now w).
Definition with_device_os_status (t : table os_row) (w : world) : world :=
  mk_world (device_status w) t (device_storage_status w)
           (device_statistics w) (now w).
Definition with_device_storage_status (t : table storage_row) (w : world)
  : world :=
  mk_world (device_status w) (device_os_status w) t
           (device_statistics w) (now w).
Definition with_device_statistics (t : table statistics_row) (w : world)
  : world :=
  mk_world (device_status w) (device_os_status w)
           (device_storage_status w) t (now w).

(** A store operation: it may raise, and the writes made before the
    exception stay (the connection is in autocommit mode).  The calls a
    store makes to its own logger are left out: they decide nothing. *)
Definition M (A : Type) : Type := world -> result A * world.

Definition ret {A} (a : A) : M A := fun w => (Ok a, w).
Definition lift {A} (r : result A) : M A := fun w => (r, w).
Definition mbind {A B} (m : M A) (k : A -> M B) : M B :=
  fun w => match m w with
           | (Ok a, w') => k a w'
           | (Raise e, w') => (Raise e, w')
           end.
Definition get_now : M datetime := fun w => (Ok (now w), w).

End Db.

Import Db.

Notation "x <~ m ;; k" := (mbind m (fun x => k))
  (at level 61, m at next level, right associativity) : py_scope.
Notation "' pat <~ m ;; k" := (mbind m (fun x => match x with pat => k end))
  (at level 61, pat pattern, m at next level, right associativity) : py_scope.

(** [_event_timestamp], which each of the four store modules defines in
    the same words. *)
Section EventTimestamp.
Context {rt : Runtime}.

Definition _event_timestamp (event : IngestEvent) : M (Z * datetime) :=
  match ts_ms event with
  | Some ms =>
      ts_dt <~ lift (x <- int_truediv_1000 ms ;; utc_fromtimestamp x) ;;
      ret (ms / 1000, ts_dt)
  | None =>
      t <~ get_now ;;
      ret (timestamp_seconds t, t)
  end.
End EventTimestamp.

(* ------------------------------------------------------------------ *)
(** * device_status_store.py *)

Module device_status_store.

Record DeviceStatusUpsertResult : Type := {
  device_status_id : Z;
  created : bool
}.

Section Store.
Context {rt : Runtime}.

(** [v if v in {"online", "offline"} else None] *)
Definition known_status (v : pystr) : option pystr :=
  if PyStr.eqb v (u "online") || PyStr.eqb v (u "offline")
  then Some v else None.

Definition _normalize_status (value : json) : option pystr :=
  match value with
  | JNull => None
  | JStr s => known_status (str_lower (strip s))
  | _ =>
      match py_str value with
      | Ok s => known_status (str_lower (strip s))
      | Raise _ => None
      end
  end.

Definition _select_by_device_id (device_id : Z) : M (option status_row) :=
  fun w => (Ok (select_one (fun r => st_device_id r =? device_id)
                           (device_status w)), w).

Definition _insert_status (device_id : Z) (status : pystr) (ts_epoch : Z)
    (ts_datetime : datetime) (offline_since : option datetime) : M Z :=
  fun w =>
    let '(new_id, t) :=
      insert (fun i => {| st_id := i; st_device_id := device_id;
                          st_status := status; st_ts_epoch := ts_epoch;
                          st_ts_datetime := ts_datetime;
                          st_offline_since := offline_since |})
             (device_status w) in
    (Ok new_id, with_device_status t w).

Definition _update_status (status_id : Z) (status : pystr) (ts_epoch : Z)
    (ts_datetime : datetime) (offline_since : option datetime) : M unit :=
  fun w =>
    (Ok tt,
     with_device_status
       (update (fun r => st_id r =? status_id)
               (fun r => {| st_id := st_id r;
                            st_device_id := st_device_id r;
                            st_status := status; st_ts_epoch := ts_epoch;
                            st_ts_datetime := ts_datetime;
                            st_offline_since := offline_since |})
               (device_status w)) w).

Definition upsert_status (device_id : Z) (status : pystr) (ts_epoch : Z)
    (ts_datetime : datetime) : M DeviceStatusUpsertResult :=
  row <~ _select_by_device_id device_id ;;
  match row with
  | None =>
      let offline_since :=
        if PyStr.eqb status (u "offline") then Some ts_datetime else None in
      status_id <~ _insert_status device_id status ts_epoch ts_datetime
                                  offline_since ;;
      ret {| device_status_id := status_id; created := true |}
  | Some row =>
      let status_id := st_id row in
      let prev_offline_since := st_offline_since row in
      let offline_since :=
        if PyStr.eqb status (u "offline") then
          match prev_offline_since with
          | Some since => Some since
          | None => Some ts_datetime
          end
        else None in
      _ <~ _update_status status_id status ts_epoch ts_datetime
                          offline_since ;;
      ret {| device_status_id := status_id; created := false |}
  end.

Definition ensure_from_event (event : IngestEvent) (device_id : Z)
  : M (option DeviceStatusUpsertResult) :=
  if negb (PyStr.eqb (subtype event) (u "status")) then ret None
  else match payload event with
       | None => ret None
       | Some p =>
           match _normalize_status (dict_get (u "device_status") p) with
           | None => ret None
           | Some status =>
               '(ts_epoch, ts_dt) <~ _event_timestamp event ;;
               r <~ upsert_status device_id status ts_epoch ts_dt ;;
               ret (Some r)
           end
       end.

End Store.

End device_status_store.

(* ------------------------------------------------------------------ *)
(** * device_os_status_store.py *)

Module device_os_status_store.

Record DeviceOsStatusUpsertResult : Type := {
  device_os_status_id : Z;
  created : bool
}.

Section Store.
Context {rt : Runtime}.

Definition _select_by_device_id (device_id : Z) : M (option os_row) :=
  fun w => (Ok (select_one (fun r => os_device_id r =? device_id)
                           (device_os_status w)), w).

Definition _insert_os_status (device_id : Z) (os_version : pystr)
    (ts_epoch : Z) (ts_datetime : datetime) : M Z :=
  fun w =>
    let '(new_id, t) :=
      insert (fun i => {| os_id := i; os_device_id := device_id;
                          Db.os_version := os_version;
                          os_ts_epoch := ts_epoch;
                          os_ts_datetime := ts_datetime |})
             (device_os_status w) in
    (Ok new_id, with_device_os_status t w).

Definition _update_os_status (os_status_id : Z) (os_version : pystr)
    (ts_epoch : Z) (ts_datetime : datetime) : M unit :=
  fun w =>
    (Ok tt,
     with_device_os_status
       (update (fun r => os_id r =? os_status_id)
               (fun r => {| os_id := os_id r;
                            os_device_id := os_device_id r;
                            Db.os_version := os_version;
                            os_ts_epoch := ts_epoch;
                            os_ts_datetime := ts_datetime |})
               (device_os_status w)) w).

Definition upsert_os_version (device_id : Z) (os_version : pystr)
    (ts_epoch : Z) (ts_datetime : datetime) : M DeviceOsStatusUpsertResult :=
  row <~ _select_by_device_id device_id ;;
  match row with
  | None =>
      os_status_id <~ _insert_os_status device_id os_version ts_epoch
                                        ts_datetime ;;
      ret {| device_os_status_id := os_status_id; created := true |}
  | Some row =>
      let os_status_id := os_id row in
      _ <~ _update_os_status os_status_id os_version ts_epoch ts_datetime ;;
      ret {| device_os_status_id := os_status_id; created := false |}
  end.

Definition ensure_from_event (event : IngestEvent) (device_id : Z)
  : M (option DeviceOsStatusUpsertResult) :=
  if negb (PyStr.eqb (subtype event) (u "status")) then ret None
  else match payload event with
       | None => ret None
       | Some p =>
           os_version <~ lift (_safe_str
                                 (dict_get (u "device_os_version") p)) ;;
           match os_version with
           | None => ret None
           | Some os_version =>
               if negb (truthy os_version) then ret None
               else
                 let os_version := strip os_version in
                 if negb (truthy os_version) then ret None
                 else
                   '(ts_epoch, ts_dt) <~ _event_timestamp event ;;
                   r <~ upsert_os_version device_id os_version ts_epoch
                                          ts_dt ;;
                   ret (Some r)
           end
       end.

End Store.

End device_os_status_store.

(* ------------------------------------------------------------------ *)
(** * device_storage_status_store.py *)

Module device_storage_status_store.

Record DeviceStorageUpsertResult : Type := {
  device_storage_id : Z;
  created : bool
}.

Section Store.
Context {rt : Runtime}.

(** [_normalize_drive] after the value was turned into stripped
    text. *)
Definition drive_letter (drive : pystr) : option pystr :=
  if negb (truthy drive) then None
  else
    let drive :=
      match drive with
      | c0 :: c1 :: _ => if N.eqb c1 colon then [c0] else drive
      | _ => drive
      end in
    let drive := str_upper drive in
    if negb (List.length drive =? 1)%nat then None
    else if negb (PyStr.leb (u "A") drive && PyStr.leb drive (u "Z"))
         then None
         else Some drive.

Definition _normalize_drive (value : json) : option pystr :=
  match value with
  | JNull => None
  | JStr s => drive_letter (strip s)
  | _ =>
      match py_str value with
      | Ok s => drive_letter (strip s)
      | Raise _ => None
      end
  end.

Definition _select_by_device_and_drive (device_id : Z) (drive : pystr)
  : M (option storage_row) :=
  fun w =>
    (Ok (select_one (fun r => (sg_device_id r =? device_id)
                              && PyStr.eqb (sg_drive r) drive)
                    (device_storage_status w)), w).

Definition _insert_drive (device_id : Z) (drive : pystr)
    (drive_type format : option pystr)
    (total_gb free_gb used_gb usage_percent : option float)
    (ts_epoch : Z) (ts_datetime : datetime) : M Z :=
  fun w =>
    let '(new_id, t) :=
      insert (fun i => {| sg_id := i; sg_device_id := device_id;
                          sg_drive := drive; sg_drive_type := drive_type;
                          sg_format := format; sg_total_gb := total_gb;
                          sg_free_gb := free_gb; sg_used_gb := used_gb;
                          sg_usage_percent := usage_percent;
                          sg_ts_epoch := ts_epoch;
                          sg_ts_datetime := ts_datetime |})
             (device_storage_status w) in
    (Ok new_id, with_device_storage_status t w).

Definition _update_drive (storage_id : Z)
    (drive_type format : option pystr)
    (total_gb free_gb used_gb usage_percent : option float)
    (ts_epoch : Z) (ts_datetime : datetime) : M unit :=
  fun w =>
    (Ok tt,
     with_device_storage_status
       (update (fun r => sg_id r =? storage_id)
               (fun r => {| sg_id := sg_id r;
                            sg_device_id := sg_device_id r;
                            sg_drive := sg_drive r;
                            sg_drive_type := drive_type;
                            sg_format := format; sg_total_gb := total_gb;
                            sg_free_gb := free_gb; sg_used_gb := used_gb;
                            sg_usage_percent := usage_percent;
                            sg_ts_epoch := ts_epoch;
                            sg_ts_datetime := ts_datetime |})
               (device_storage_status w)) w).

Definition upsert_drive (device_id : Z) (drive : pystr)
    (drive_type format : option pystr)
    (total_gb free_gb used_gb usage_percent : option float)
    (ts_epoch : Z) (ts_datetime : datetime) : M DeviceStorageUpsertResult :=
  row <~ _select_by_device_and_drive device_id drive ;;
  match row with
  | None =>
      storage_id <~ _insert_drive device_id drive drive_type format
                      total_gb free_gb used_gb usage_percent
                      ts_epoch ts_datetime ;;
      ret {| device_storage_id := storage_id; created := true |}
  | Some row =>
      let storage_id := sg_id row in
      _ <~ _update_drive storage_id drive_type format
             total_gb free_gb used_gb usage_percent ts_epoch ts_datetime ;;
      ret {| device_storage_id := storage_id; created := false |}
  end.

(** The loop over [storage_map.items()], with the count of upserts so
    far.  [if not drive_name: continue] is the [None] case: a normalized
    drive is never the empty string. *)
Fixpoint upsert_drives (device_id : Z) (ts_epoch : Z) (ts_dt : datetime)
    (items : dict) (upserts : Z) : M Z :=
  match items with
  | [] => ret upserts
  | (drive, info) :: items' =>
      match _normalize_drive (JStr drive) with
      | None => upsert_drives device_id ts_epoch ts_dt items' upserts
      | Some drive_name =>
          match as_mapping info with
          | None => upsert_drives device_id ts_epoch ts_dt items' upserts
          | Some info_map =>
              let number key := lift (_safe_float (dict_get key info_map)) in
              let text key := lift (_safe_str (dict_get key info_map)) in
              total_gb <~ number (u "total_gb") ;;
              free_gb <~ number (u "free_gb") ;;
              used_gb <~ number (u "used_gb") ;;
              usage_percent <~ number (u "used_pct") ;;
              drive_type <~ text (u "drive_type") ;;
              fmt <~ text (u "format") ;;
              _ <~ upsert_drive device_id drive_name drive_type fmt
                     total_gb free_gb used_gb usage_percent ts_epoch ts_dt ;;
              upsert_drives device_id ts_epoch ts_dt items' (upserts + 1)
          end
      end
  end.

Definition ensure_from_event (event : IngestEvent) (device_id : Z) : M Z :=
  if negb (PyStr.eqb (subtype event) (u "storage")) then ret 0
  else match payload event with
       | None => ret 0
       | Some p =>
           match as_mapping (dict_get (u "storage") p) with
           | None => ret 0
           | Some storage_map =>
               '(ts_epoch, ts_dt) <~ _event_timestamp event ;;
               upsert_drives device_id ts_epoch ts_dt storage_map 0
           end
       end.

End Store.

End device_storage_status_store.

(* ------------------------------------------------------------------ *)
(** * device_statistics_store.py *)

Module device_statistics_store.

Record DeviceStatisticsInsertResult : Type := {
  device_statistics_id : Z
}.

Section Store.
Context {rt : Runtime}.

Definition _safe_int_or_zero (value : json) : result Z :=
  parsed <- _safe_int value ;;
  Ok (match parsed with None => 0 | Some n => n end).

Definition _insert_statistics (device_id ts_epoch : Z)
    (ts_datetime : datetime)
    (total_items no_read good_read no_dimension no_weight data_sent
     not_sent image_sent image_not_sent item_out_of_spec
     more_than_1_item : Z) : M Z :=
  fun w =>
    let '(new_id, t) :=
      insert (fun i => {| sx_id := i; sx_device_id := device_id;
                          sx_ts_epoch := ts_epoch;
                          sx_ts_datetime := ts_datetime;
                          sx_total_items := total_items;
                          sx_no_read := no_read;
                          sx_good_read := good_read;
                          sx_no_dimension := no_dimension;
                          sx_no_weight := no_weight;
                          sx_data_sent := data_sent;
                          sx_not_sent := not_sent;
                          sx_image_sent := image_sent;
                          sx_image_not_sent := image_not_sent;
                          sx_item_out_of_spec := item_out_of_spec;
                          sx_more_than_1_item := more_than_1_item |})
             (device_statistics w) in
    (Ok new_id, with_device_statistics t w).

Definition insert_from_event (event : IngestEvent) (device_id : Z)
  : M (option DeviceStatisticsInsertResult) :=
  if negb (PyStr.eqb (subtype event) (u "statistics")) then ret None
  else match payload event with
       | None => ret None
       | Some p =>
           match as_mapping (dict_get (u "statistics") p) with
           | None => ret None
           | Some stats_map =>
               let field key :=
                 lift (_safe_int_or_zero (dict_get key stats_map)) in
               '(ts_epoch, ts_dt) <~ _event_timestamp event ;;
               total_items <~ field (u "total_items") ;;
               no_read <~ field (u "no_reads") ;;
               good_read <~ field (u "good_reads") ;;
               no_dimension <~ field (u "no_dimensions") ;;
               no_weight <~ field (u "no_weight") ;;
               data_sent <~ field (u "sent") ;;
               not_sent <~ field (u "not_sent") ;;
               item_out_of_spec <~ field (u "out_of_spec") ;;
               more_than_1_item <~ field (u "more_than_one_item") ;;
               image_sent <~ field (u "image_sent") ;;
               image_not_sent <~ field (u "image_not_sent") ;;
               stats_id <~ _insert_statistics device_id ts_epoch ts_dt
                             total_items no_read good_read no_dimension
                             no_weight data_sent not_sent image_sent
                             image_not_sent item_out_of_spec
                             more_than_1_item ;;
               ret (Some {| device_statistics_id := stats_id |})
           end
       end.

End Store.

End device_statistics_store.

(* ------------------------------------------------------------------ *)
(** * device_store.py: what the dispatcher uses of it *)

Module device_store.

Record DeviceUpsertResult : Type := {
  device_id : Z;
  created : bool
}.

End device_store.

(* ------------------------------------------------------------------ *)
(** * mqtt_client.py: the message handler *)

Module mqtt_client.

Import device_store.

(** What [self._logger] of the connector receives. *)
Inductive log_record : Type :=
| LogRejected (topic : pystr) (retain : option bool) (qos : option Z)
              (nbytes : nat)
| LogException (message : string) (e : exn)
| LogInfo (line : log_line).

(** A message as the client hands it over.  The client keeps the topic
    as the bytes it received: [msg.topic] decodes them each time it is
    read. *)
Record MQTTMessage : Type := {
  msg_topic : list Byte.byte;
  msg_payload : list Byte.byte;
  msg_qos : option Z;
  msg_retain : option bool
}.

Section Handler.
Context {rt : Runtime}.

(** The state of the stores, whatever it is: the handler only passes
    it on. *)
Variable S : Type.

Definition store_op (A : Type) : Type := S -> result A * S.

(** The stores the connector was built with; each may be [None]. *)
Record MQTTConnector : Type := {
  _device_store :
    option (IngestEvent -> store_op (option DeviceUpsertResult));
  _device_status_store :
    option (IngestEvent -> Z ->
            store_op (option device_status_store.DeviceStatusUpsertResult));
  _device_os_status_store :
    option (IngestEvent -> Z ->
            store_op
              (option device_os_status_store.DeviceOsStatusUpsertResult));
  _device_storage_status_store :
    option (IngestEvent -> Z -> store_op Z);
  _device_statistics_store :
    option (IngestEvent -> Z ->
            store_op
              (option device_statistics_store.DeviceStatisticsInsertResult))
}.

Record handler_state : Type := mk_state {
  stores : S;
  logged : list log_record
}.

Definition H (A : Type) : Type := handler_state -> result A * handler_state.

Definition hret {A} (a : A) : H A := fun h => (Ok a, h).
Definition hbind {A B} (m : H A) (k : A -> H B) : H B :=
  fun h => match m h with
           | (Ok a, h') => k a h'
           | (Raise e, h') => (Raise e, h')
           end.
Definition hlift {A} (r : result A) : H A := fun h => (r, h).
Definition call {A} (op : store_op A) : H A :=
  fun h => let '(r, s) := op (stores h) in (r, mk_state s (logged h)).
Definition log (r : log_record) : H unit :=
  fun h => (Ok tt, mk_state (stores h) (logged h ++ [r])).
Definition htry {A} (body : H A) (handler : exn -> H A) : H A :=
  fun h => match body h with
           | (Ok a, h') => (Ok a, h')
           | (Raise e, h') => handler e h'
           end.

Local Notation "x <<- m ;; k" := (hbind m (fun x => k))
  (at level 61, m at next level, right associativity).

(** [_on_message] from the point where the decoder returned [event]. *)
Definition on_event (self : MQTTConnector) (event : IngestEvent) : H unit :=
  _ <<- match _device_store self with
        | None => hret tt
        | Some device_store =>
            device_result <<-
              htry (call (device_store event))
                   (fun e =>
                      _ <<- log (LogException "Device upsert failed" e) ;;
                      hret None) ;;
            _ <<- match device_result, _device_status_store self with
                  | Some r, Some store =>
                      if PyStr.eqb (subtype event) (u "status") then
                        htry (_ <<- call (store event (device_id r)) ;; hret tt)
                             (fun e => log (LogException
                                              "Device status upsert failed" e))
                      else hret tt
                  | _, _ => hret tt
                  end ;;
            _ <<- match device_result, _device_os_status_store self with
                  | Some r, Some store =>
                      if PyStr.eqb (subtype event) (u "status") then
                        htry (_ <<- call (store event (device_id r)) ;; hret tt)
                             (fun e =>
                                log (LogException
                                       "Device OS status upsert failed" e))
                      else hret tt
                  | _, _ => hret tt
                  end ;;
            _ <<- match device_result, _device_storage_status_store self with
                  | Some r, Some store =>
                      if PyStr.eqb (subtype event) (u "storage") then
                        htry (_ <<- call (store event (device_id r)) ;; hret tt)
                             (fun e => log (LogException
                                              "Device storage upsert failed" e))
                      else hret tt
                  | _, _ => hret tt
                  end ;;
            match device_result, _device_statistics_store self with
            | Some r, Some store =>
                if PyStr.eqb (subtype event) (u "statistics") then
                  htry (_ <<- call (store event (device_id r)) ;; hret tt)
                       (fun e => log (LogException
                                        "Device statistics insert failed" e))
                else hret tt
            | _, _ => hret tt
            end
        end ;;
  line <<- hlift (to_log_line event) ;;
  log (LogInfo line).

(** [msg.topic]: the topic bytes decoded as UTF-8, which raises
    [UnicodeDecodeError] when they are not UTF-8. *)
Definition topic_of (msg : MQTTMessage) : result pystr :=
  utf8_decode_strict (msg_topic msg).

(** [msg.payload or b""] is [msg.payload], which is a [bytes].
    [str(msg.topic)] is evaluated first and outside any [try]: what it
    raises leaves the handler.  The rejected branch reads [msg.topic]
    once more for its log record. *)
Definition _on_message (self : MQTTConnector) (msg : MQTTMessage) : H unit :=
  let payload_bytes := msg_payload msg in
  topic <<- hlift (topic_of msg) ;;
  event <<- hlift (build_event topic payload_bytes
                               (msg_qos msg) (msg_retain msg)) ;;
  match event with
  | None =>
      topic <<- hlift (topic_of msg) ;;
      log (LogRejected topic (msg_retain msg) (msg_qos msg)
                       (List.length payload_bytes))
  | Some event => on_event self event
  end.

End Handler.

End mqtt_client.

(* ------------------------------------------------------------------ *)
(** * The vocabulary of the specification *)

(** The segments of a topic as the specification describes them: split
    on ['/'], empty segments dropped. *)
Definition segments (topic : pystr) : list pystr :=
  filter truthy (split slash topic).

(** ** The status row of a device *)

Definition status_row_of (device_id : Z) (w : world) : option status_row :=
  select_one (fun r => st_device_id r =? device_id) (device_status w).

(** [None]: the device has no row; [Some None]: its [offline_since] is
    null. *)
Definition offline_since_of (device_id : Z) (w : world)
  : option (option datetime) :=
  option_map st_offline_since (status_row_of device_id w).

(** [offline_since] is non-null iff [status = offline]. *)
Definition row_invariant (r : status_row) : Prop :=
  st_offline_since r <> None <-> st_status r = u "offline".

(** The [offline_since] that [upsert_status] writes, from the one found
    (if any). *)
Definition written_offline_since (found : option (option datetime))
    (status : pystr) (t : datetime) : option datetime :=
  if PyStr.eqb status (u "offline") then
    match found with
    | Some (Some since) => Some since
    | _ => Some t
    end
  else None.

(** One Status Store operation on a device: the status reported and the
    timestamp of the event. *)
Record status_op : Type := {
  op_status : pystr;
  op_ts_epoch : Z;
  op_ts_datetime : datetime
}.

Definition offline_at (ts_epoch : Z) (t : datetime) : status_op :=
  {| op_status := u "offline"; op_ts_epoch := ts_epoch; op_ts_datetime := t |}.
Definition online_at (ts_epoch : Z) (t : datetime) : status_op :=
  {| op_status := u "online"; op_ts_epoch := ts_epoch; op_ts_datetime := t |}.

Definition apply_status (device_id : Z) (op : status_op) (w : world) : world :=
  snd (device_status_store.upsert_status device_id (op_status op)
         (op_ts_epoch op) (op_ts_datetime op) w).

Definition apply_statuses (device_id : Z) (ops : list status_op) (w : world)
  : world :=
  fold_left (fun w op => apply_status device_id op w) ops w.

(** ** The fields of a status event *)

(** [event.payload.get(key)], [None] without a payload. *)
Definition field (event : IngestEvent) (key : string) : json :=
  match payload event with
  | Some p => dict_get (u key) p
  | None => JNull
  end.



Section Vocabulary.
Context {rt : Runtime}.


End Vocabulary.

(** ** Payload bodies and serial numbers *)

Section DecoderVocabulary.
Context {rt : Runtime}.

(** A body from which no object is decoded: empty, refused by
    [json.loads], or parsed to something that is not an object. *)
Definition body_without_object (payload_bytes : list Byte.byte) : Prop :=
  payload_bytes = []
  \/ (exists e, json_loads (decode_text payload_bytes) = Raise e)
  \/ (exists v, json_loads (decode_text payload_bytes) = Ok v
                /\ as_mapping v = None).

(** The string form of a scalar that is not [null], as [str] gives
    it. *)
Definition scalar_str (v : json) : option pystr :=
  match v with
  | JStr s => Some s
  | JBool true => Some (u "True")
  | JBool false => Some (u "False")
  | JInt n => Some (str_of_Z n)
  | JFloat f => Some (repr_float f)
  | JNull | JList _ | JDict _ => None
  end.

Definition is_scalar (v : json) : bool :=
  match v with
  | JNull | JBool _ | JInt _ | JFloat _ | JStr _ => true
  | JList _ | JDict _ => false
  end.
End DecoderVocabulary.

(** ** Statistics events *)

(** An accepted statistics event: subtype [statistics] and an object
    under [statistics] in the payload. *)
Definition accepted_statistics (event : IngestEvent) (stats : dict) : Prop :=
  subtype event = u "statistics"
  /\ exists p, payload event = Some p
               /\ dict_get (u "statistics") p = JDict stats.

Section StatisticsVocabulary.
Context {rt : Runtime}.

(** The integer coercion of a field, zero when the field is missing
    or not a number. *)
Definition int_or_zero (v : json) : Z :=
  match py_int v with
  | Ok n => n
  | Raise _ => 0
  end.

(** The timestamp of an event, where it has one: the clock when [ts]
    is absent, the conversion of [ts] when that conversion succeeds. *)
Definition event_time (event : IngestEvent) (w : world)
  : option (Z * datetime) :=
  match ts_ms event with
  | None => Some (timestamp_seconds (now w), now w)
  | Some ms =>
      match (x <- int_truediv_1000 ms ;; utc_fromtimestamp x) with
      | Ok t => Some (ms / 1000, t)
      | Raise _ => None
      end
  end.

(** The row a statistics packet stands for. *)
Definition statistics_row_for (id device_id : Z) (time : Z * datetime)
    (stats : dict) : statistics_row :=
  {| sx_id := id; sx_device_id := device_id;
     sx_ts_epoch := fst time; sx_ts_datetime := snd time;
     sx_total_items := int_or_zero (dict_get (u "total_items") stats);
     sx_no_read := int_or_zero (dict_get (u "no_reads") stats);
     sx_good_read := int_or_zero (dict_get (u "good_reads") stats);
     sx_no_dimension := int_or_zero (dict_get (u "no_dimensions") stats);
     sx_no_weight := int_or_zero (dict_get (u "no_weight") stats);
     sx_data_sent := int_or_zero (dict_get (u "sent") stats);
     sx_not_sent := int_or_zero (dict_get (u "not_sent") stats);
     sx_image_sent := int_or_zero (dict_get (u "image_sent") stats);
     sx_image_not_sent := int_or_zero (dict_get (u "image_not_sent") stats);
     sx_item_out_of_spec := int_or_zero (dict_get (u "out_of_spec") stats);
     sx_more_than_1_item :=
       int_or_zero (dict_get (u "more_than_one_item") stats) |}.

(** Statistics packets applied one after the other, an exception of
    one not stopping the next (the dispatcher catches it). *)
Definition insert_all (events : list IngestEvent) (device_id : Z)
    (w : world) : world :=
  fold_left
    (fun w event =>
       snd (device_statistics_store.insert_from_event event device_id w))
    events w.
End StatisticsVocabulary.

(** ** The dispatcher's policy *)

Section DispatchVocabulary.
Context {S : Type}.

(** One store applied under the policy: it runs; its exception, if
    any, becomes a log record; what it wrote stays. *)
Definition attempt {A} (message : string) (op : mqtt_client.store_op S A)
    (h : mqtt_client.handler_state S) : mqtt_client.handler_state S :=
  match op (mqtt_client.stores S h) with
  | (Ok _, s) => mqtt_client.mk_state S s (mqtt_client.logged S h)
  | (Raise e, s) =>
      mqtt_client.mk_state S s
        (mqtt_client.logged S h ++ [mqtt_client.LogException message e])
  end.

(** A store applies to an event when it is configured and the subtype
    is the one it handles. *)
Definition applicable {A} (event : IngestEvent) (wanted : string)
    (store : option A) : option A :=
  if PyStr.eqb (subtype event) (u wanted) then store else None.

Definition attempt_if_applicable {A} (event : IngestEvent) (device_id : Z)
    (wanted message : string)
    (store : option (IngestEvent -> Z -> mqtt_client.store_op S A))
    (h : mqtt_client.handler_state S) : mqtt_client.handler_state S :=
  match applicable event wanted store with
  | Some st => attempt message (st event device_id) h
  | None => h
  end.

(** Every applicable signal store attempted on the same event, in the
    order status, OS version, storage, statistics. *)
Definition attempt_signal_stores (self : mqtt_client.MQTTConnector S)
    (event : IngestEvent) (device_id : Z)
    (h : mqtt_client.handler_state S) : mqtt_client.handler_state S :=
  let h := attempt_if_applicable event device_id "status"
             "Device status upsert failed"
             (mqtt_client._device_status_store S self) h in
  let h := attempt_if_applicable event device_id "status"
             "Device OS status upsert failed"
             (mqtt_client._device_os_status_store S self) h in
  let h := attempt_if_applicable event device_id "storage"
             "Device storage upsert failed"
             (mqtt_client._device_storage_status_store S self) h in
  attempt_if_applicable event device_id "statistics"
    "Device statistics insert failed"
    (mqtt_client._device_statistics_store S self) h.
End DispatchVocabulary.

(** ** A runtime for the worked examples

    The theorems below hold for every [Runtime].  To evaluate the code
    on concrete messages a runtime is needed; this one decodes ASCII
    bytes, knows the JSON texts the examples use (every other text is
    refused, as [json.loads] refuses a malformed one), and places a
    timestamp inside the years 1 to 9999 by truncating to
    microseconds. *)
Module Examples.

Definition quoted (s : string) : pystr := 34%N :: u s ++ [34%N].

Definition to_bytes (s : pystr) : list Byte.byte :=
  map (fun c => match Byte.of_N c with Some b => b | None => Byte.x3f end) s.

Definition huge : Z := 10 ^ 400.

(** [{"serial_number": null}] *)
Definition text_null_serial : pystr :=
  u "{" ++ quoted "serial_number" ++ u ": null}".
(** [{"serial_number": 12345}] *)
Definition text_int_serial : pystr :=
  u "{" ++ quoted "serial_number" ++ u ": 12345}".
(** [[1, 2]] *)
Definition text_list : pystr := u "[1, 2]".
(** [{"serial_number": "SN1", "storage": {"C": {"used_pct": 1000...0}}}],
    the number written with 401 digits *)
Definition text_huge_storage : pystr :=
  u "{" ++ quoted "serial_number" ++ u ": " ++ quoted "SN1" ++ u ", "
    ++ quoted "storage" ++ u ": {" ++ quoted "C" ++ u ": {"
    ++ quoted "used_pct" ++ u ": " ++ str_of_Z huge ++ u "}}}".

Definition payload_huge_storage : dict :=
  [(u "serial_number", JStr (u "SN1"));
   (u "storage",
    JDict [(u "C", JDict [(u "used_pct", JInt huge)])])].

Definition example_json_loads (text : pystr) : result json :=
  if PyStr.eqb text text_null_serial
  then Ok (JDict [(u "serial_number", JNull)])
  else if PyStr.eqb text text_int_serial
  then Ok (JDict [(u "serial_number", JInt 12345)])
  else if PyStr.eqb text text_list
  then Ok (JList [JInt 1; JInt 2])
  else if PyStr.eqb text text_huge_storage
  then Ok (JDict payload_huge_storage)
  else Raise JSONDecodeError.

Definition million : float := binary_normalize prec emax 1000000 0 false.

Definition example_fromtimestamp (x : float) : result datetime :=
  us <- int_of_float (SFmul prec emax x million) ;;
  if (-62135596800000000 <=? us) && (us <=? 253402300799999999)
  then Ok (mk_datetime us) else Raise ValueError.

#[local] Instance example_runtime : Runtime := {
  utf8_decode_strict bs :=
    if forallb (fun b => (Byte.to_N b <? 128)%N) bs
    then Ok (map Byte.to_N bs) else Raise UnicodeDecodeError;
  utf8_decode_replace bs :=
    map (fun b => if (Byte.to_N b <? 128)%N then Byte.to_N b else 65533%N) bs;
  json_loads := example_json_loads;
  repr_float := fun _ => u "0.0";
  str_container := fun _ => Raise RecursionError;
  int_of_str := fun _ => Raise ValueError;
  float_of_str := fun _ => Raise ValueError;
  upper_other := fun c => [c];
  lower_other := fun c => [c];
  utc_fromtimestamp := example_fromtimestamp;
  timestamp_seconds := fun dt => micros dt / 1000000
}.

Definition status_topic : pystr := u "iot/acme/plant1/line3/status".
Definition storage_topic : pystr := u "iot/acme/plant1/line3/storage".

Definition empty_table {R : Type} : table R := mk_table [] 1.

Definition empty_world : world :=
  mk_world empty_table empty_table empty_table empty_table
           (mk_datetime 1700000000000000).

(** The storage message with the 401-digit [used_pct], and the event the
    decoder makes of it. *)
Definition msg_huge_storage : mqtt_client.MQTTMessage :=
  {| mqtt_client.msg_topic := to_bytes storage_topic;
     mqtt_client.msg_payload := to_bytes text_huge_storage;
     mqtt_client.msg_qos := Some 0;
     mqtt_client.msg_retain := Some false |}.

Definition event_huge_storage : IngestEvent :=
  {| prefix := u "iot"; customer := u "acme"; location := u "plant1";
     machine := u "line3"; subtype := u "storage";
     serial_number := Some (u "SN1"); ts_ms := None;
     qos := Some 0; retain := Some false;
     payload := Some payload_huge_storage |}.

(** A statistics event whose [ts] is a 401-digit integer, and one
    without [ts]. *)
Definition stats_payload (ts : json) : dict :=
  [(u "serial_number", JStr (u "SN1")); (u "ts", ts);
   (u "statistics", JDict [(u "total_items", JInt 12);
                           (u "good_reads", JStr (u "n/a"))])].

Definition event_statistics (ts : option Z) : IngestEvent :=
  {| prefix := u "iot"; customer := u "acme"; location := u "plant1";
     machine := u "line3"; subtype := u "statistics";
     serial_number := Some (u "SN1"); ts_ms := ts;
     qos := Some 0; retain := Some false;
     payload := Some (stats_payload (match ts with
                                     | Some n => JInt n
                                     | None => JNull
                                     end)) |}.

(** A resolver that knows the device, and a connector with the four
    signal stores of the repository. *)
Definition resolver (event : IngestEvent)
  : mqtt_client.store_op world (option device_store.DeviceUpsertResult) :=
  fun w => (Ok (Some {| device_store.device_id := 1;
                        device_store.created := false |}), w).

Definition connector : mqtt_client.MQTTConnector world :=
  {| mqtt_client._device_store := Some resolver;
     mqtt_client._device_status_store :=
       Some (device_status_store.ensure_from_event (rt := example_runtime));
     mqtt_client._device_os_status_store :=
       Some (device_os_status_store.ensure_from_event (rt := example_runtime));
     mqtt_client._device_storage_status_store :=
       Some (device_storage_status_store.ensure_from_event
               (rt := example_runtime));
     mqtt_client._device_statistics_store :=
       Some (device_statistics_store.insert_from_event
               (rt := example_runtime)) |}.

Definition start : mqtt_client.handler_state world :=
  mqtt_client.mk_state world empty_world [].

(** A status event that reports [offline] and an OS version, and the
    same connector with a Status Store whose database is down. *)
Definition event_status_offline : IngestEvent :=
  {| prefix := u "iot"; customer := u "acme"; location := u "plant1";
     machine := u "line3"; subtype := u "status";
     serial_number := Some (u "SN1"); ts_ms := Some 1700000000000;
     qos := Some 0; retain := Some false;
     payload := Some [(u "serial_number", JStr (u "SN1"));
                      (u "ts", JInt 1700000000000);
                      (u "device_status", JStr (u "offline"));
                      (u "device_os_version", JStr (u "Windows 11 Pro"))] |}.

Definition connector_status_down : mqtt_client.MQTTConnector world :=
  {| mqtt_client._device_store := Some resolver;
     mqtt_client._device_status_store :=
       Some (fun _ _ w => (Raise (RuntimeError "connection lost"), w));
     mqtt_client._device_os_status_store :=
       mqtt_client._device_os_status_store world connector;
     mqtt_client._device_storage_status_store :=
       mqtt_client._device_storage_status_store world connector;
     mqtt_client._device_statistics_store :=
       mqtt_client._device_statistics_store world connector |}.

End Examples.

(* ------------------------------------------------------------------ *)
(** * Text helpers: splitting, substitution, membership *)

Module PyText.

(** [s.split(sep)] where every character in a class separates. *)
Fixpoint split_on (p : N -> bool) (s : pystr) : list pystr :=
  match s with
  | [] => [[]]
  | c :: s' =>
      if p c then [] :: split_on p s'
      else match split_on p s' with
           | [] => [[c]]
           | w :: ws => (c :: w) :: ws
           end
  end.

(** [s.split()]: the words between runs of whitespace. *)
Definition split_ws (s : pystr) : list pystr :=
  filter truthy (split_on is_space s).

(** [s.startswith(prefix)] *)
Fixpoint startswith (prefix s : pystr) : bool :=
  match prefix, s with
  | [], _ => true
  | _ :: _, [] => false
  | a :: prefix', b :: s' => N.eqb a b && startswith prefix' s'
  end.

(** [re.sub("[class]+", repl, s)]: every maximal run of characters of
    the class is replaced by [repl]; [in_run] says that the character
    before was of the class. *)
Fixpoint sub_runs_from (p : N -> bool) (repl : pystr) (in_run : bool)
    (s : pystr) : pystr :=
  match s with
  | [] => []
  | c :: s' =>
      if p c
      then (if in_run then [] else repl) ++ sub_runs_from p repl true s'
      else c :: sub_runs_from p repl false s'
  end.

Definition sub_runs (p : N -> bool) (repl s : pystr) : pystr :=
  sub_runs_from p repl false s.

(** [s.replace(a, b)] for one-character [a] and [b]. *)
Definition replace_char (a b : N) (s : pystr) : pystr :=
  map (fun c => if N.eqb c a then b else c) s.

(** [x in {...}] for a set of strings. *)
Definition mem (x : pystr) (set : list pystr) : bool :=
  existsb (PyStr.eqb x) set.

Definition underscore : N := 95.
Definition space : N := 32.
Definition comma : N := 44.
Definition semicolon : N := 59.

End PyText.

Import PyText.

(* ------------------------------------------------------------------ *)
(** * ingest_models.py: the rendering helpers of the log line *)

Module ingest_format.

(** The character ["…"]. *)
Definition ellipsis : N := 8230.

Definition _squash_ws (value : pystr) : pystr :=
  join (u " ") (split_ws value).

Definition _shorten (value : pystr) (max_len : Z) : pystr :=
  if max_len <=? 0 then []
  else if Z.of_nat (List.length value) <=? max_len then value
  else if max_len <=? 1 then firstn (Z.to_nat max_len) value
  else firstn (Z.to_nat (max_len - 1)) value ++ [ellipsis].

Section Format.
Context {rt : Runtime}.

Definition _short_os (value : pystr) : pystr :=
  let text := _squash_ws value in
  let text :=
    if startswith (u "microsoft ") (str_lower text)
    then skipn (List.length (u "microsoft ")) text
    else text in
  _shorten text 48.

Definition _short_state (value : option pystr) : pystr :=
  match value with
  | None => u "?"
  | Some value =>
      if negb (truthy value) then u "?"
      else
        let v := str_lower (_squash_ws value) in
        if PyStr.eqb v (u "online") then u "ON"
        else if PyStr.eqb v (u "offline") then u "OFF"
        else _shorten v 12
  end.

End Format.

End ingest_format.

(* ------------------------------------------------------------------ *)
(** * tools/grafana_export_dashboards.py: file names *)

Module grafana_export_dashboards.

(** [[a-z0-9]] *)
Definition is_slug_char (c : N) : bool :=
  ((97 <=? c) && (c <=? 122) || (48 <=? c) && (c <=? 57))%N.

Section Slug.
Context {rt : Runtime}.

Definition _slugify (value : pystr) : pystr :=
  let value := str_lower (strip value) in
  let value := sub_runs (fun c => negb (is_slug_char c)) (u "_") value in
  let value := sub_runs (N.eqb underscore) (u "_") value in
  let value := strip_char underscore value in
  if truthy value then value else u "dashboard".

End Slug.

End grafana_export_dashboards.

(* ------------------------------------------------------------------ *)
(** * device_store.py: the identity resolver *)

Module DeviceStore.

Import device_store.

Record device_row : Type := {
  dv_id : Z;
  dv_serial_number : pystr;
  dv_customer : pystr;
  dv_location : pystr;
  dv_machine_name : pystr
}.

Section Store.
(** The state of the database, as the connection of the store sees it. *)
Variable S : Type.

Definition op (A : Type) : Type := S -> result A * S.

(** What the store asks of its connection: to be there, and to run the
    three statements.  Each may fail. *)
Record connection : Type := {
  _get_conn : op unit;
  _select_by_serial : pystr -> op (option device_row);
  _insert_device : pystr -> pystr -> pystr -> pystr -> op Z;
  _update_device : Z -> pystr -> pystr -> pystr -> op unit
}.

Definition oret {A} (a : A) : op A := fun s => (Ok a, s).
Definition obind {A B} (m : op A) (k : A -> op B) : op B :=
  fun s => match m s with
           | (Ok a, s') => k a s'
           | (Raise e, s') => (Raise e, s')
           end.

Variable conn : connection.

(** Step 3 of [upsert_device]: the row is known. *)
Definition update_found (row : device_row) (customer location
    machine_name : pystr) : op DeviceUpsertResult :=
  let device_id := dv_id row in
  obind (_update_device conn device_id customer location machine_name)
    (fun _ => oret {| device_id := device_id; created := false |}).

(** The bare [raise] after the second lookup stands outside the
    [except] block: it raises [RuntimeError]. *)
Definition upsert_device (serial_number customer location
    machine_name : pystr) : op DeviceUpsertResult :=
  obind (_get_conn conn) (fun _ =>
  obind (_select_by_serial conn serial_number) (fun row =>
  match row with
  | Some row => update_found row customer location machine_name
  | None =>
      fun s =>
        match _insert_device conn serial_number customer location
                machine_name s with
        | (Ok new_id, s') =>
            (Ok {| device_id := new_id; created := true |}, s')
        | (Raise _, s') =>
            obind (_select_by_serial conn serial_number) (fun row =>
            match row with
            | None =>
                fun s'' =>
                  (Raise (RuntimeError "No active exception to reraise"),
                   s'')
            | Some row => update_found row customer location machine_name
            end) s'
        end
  end)).

Definition ensure_from_event (event : IngestEvent)
  : op (option DeviceUpsertResult) :=
  let serial :=
    strip (match serial_number event with Some s => s | None => [] end) in
  if negb (truthy serial) then oret None
  else
    let customer := strip (customer event) in
    let location := strip (location event) in
    let machine_name := strip (machine event) in
    obind (upsert_device serial customer location machine_name)
      (fun r => oret (Some r)).

End Store.

(** The statements on the table [dbo.devices], whose [serial_number]
    column is unique: an insert of a serial number that is there is
    refused. *)
Definition devices : Type := table device_row.

Definition has_serial (serial_number : pystr) (r : device_row) : bool :=
  PyStr.eqb (dv_serial_number r) serial_number.

Definition sql_insert (serial_number customer location machine_name : pystr)
  : op devices Z :=
  fun t =>
    match select_one (has_serial serial_number) t with
    | Some _ => (Raise (RuntimeError "IntegrityError"), t)
    | None =>
        let '(new_id, t') :=
          insert (fun i => {| dv_id := i;
                              dv_serial_number := serial_number;
                              dv_customer := customer;
                              dv_location := location;
                              dv_machine_name := machine_name |}) t in
        (Ok new_id, t')
    end.

Definition sql : connection devices := {|
  _get_conn := fun t => (Ok tt, t);
  _select_by_serial := fun serial_number t =>
    (Ok (select_one (has_serial serial_number) t), t);
  _insert_device := sql_insert;
  _update_device := fun device_id customer location machine_name t =>
    (Ok tt,
     update (fun r => dv_id r =? device_id)
       (fun r => {| dv_id := dv_id r;
                    dv_serial_number := dv_serial_number r;
                    dv_customer := customer;
                    dv_location := location;
                    dv_machine_name := machine_name |}) t)
|}.

(** The same connection while another writer is at work: [other] runs
    on the table between the lookup of the store and its insert. *)
Definition racing (other : devices -> devices) : connection devices := {|
  _get_conn := _get_conn devices sql;
  _select_by_serial := _select_by_serial devices sql;
  _insert_device := fun serial_number customer location machine_name t =>
    sql_insert serial_number customer location machine_name (other t);
  _update_device := _update_device devices sql
|}.

End DeviceStore.

(* ------------------------------------------------------------------ *)
(** * Reading the environment *)

Module PyEnv.

(** [x or default] for a string [x] *)
Definition or_default (x default : pystr) : pystr :=
  if truthy x then x else default.

(** [x or None] for a string [x] *)
Definition or_none (x : pystr) : option pystr :=
  if truthy x then Some x else None.

(** The words that switch a flag on. *)
Definition flag_words : list pystr :=
  [u "1"; u "true"; u "yes"; u "y"; u "on"].

Section Env.
Context {rt : Runtime}.

(** [_get], which [params_from_env] and [mssql_params_from_env] each
    define in the same words: [os.getenv(name, default).strip()] on the
    environment [environ]. *)
Definition _get (environ : string -> option pystr) (name : string)
    (default : pystr) : pystr :=
  strip (match environ name with Some v => v | None => default end).

(** [try: n = int(raw)  except ValueError: n = default] *)
Definition int_or (raw : pystr) (default : Z) : result Z :=
  match int_of_str raw with
  | Ok n => Ok n
  | Raise ValueError => Ok default
  | Raise e => Raise e
  end.

End Env.

End PyEnv.

Import PyEnv.

(* ------------------------------------------------------------------ *)
(** * mqtt_client.py: configuration, connection state, subscriptions *)

Module mqtt_connection.

Record MQTTConnectionParams : Type := {
  host : pystr;
  port : Z;
  username : option pystr;
  password : option pystr;
  keepalive : Z;
  client_id : pystr;
  clean_session : bool;
  transport : pystr;
  ws_path : option pystr;
  tls : bool;
  tls_insecure : bool;
  ingest_topics : list pystr;
  ingest_qos : Z
}.

(** [0 if q < 0 else 2 if q > 2 else q] *)
Definition clamp_qos (q : Z) : Z :=
  if q <? 0 then 0 else if q >? 2 then 2 else q.

(** [t.strip() for t in topics if t and t.strip()] *)
Definition stripped_topics (topics : list pystr) : list pystr :=
  map strip (filter (fun t => truthy t && truthy (strip t)) topics).

Section Env.
Context {rt : Runtime}.

(** [os.environ] *)
Variable environ : string -> option pystr.

Definition params_from_env : result MQTTConnectionParams :=
  let host := _get environ "MQTT_HOST" (u "localhost") in
  let port_raw := _get environ "MQTT_PORT" (u "1883") in
  port <- int_or port_raw 1883 ;;
  let ws_path := _get environ "MQTT_WS_PATH" [] in
  let ws_path := if truthy ws_path then Some ws_path else None in
  let keepalive_raw := _get environ "MQTT_KEEPALIVE" (u "60") in
  keepalive <- int_or keepalive_raw 60 ;;
  let clean_session :=
    mem (str_lower (_get environ "MQTT_CLEAN_SESSION" (u "true")))
        flag_words in
  let tls :=
    mem (str_lower (_get environ "MQTT_TLS" (u "false"))) flag_words in
  let tls_insecure :=
    mem (str_lower (_get environ "MQTT_TLS_INSECURE" (u "false")))
        flag_words in
  let ingest_topics_raw := _get environ "INGEST_TOPICS" [] in
  let ingest_topics_raw := replace_char semicolon comma ingest_topics_raw in
  let ingest_topics :=
    stripped_topics (PyStr.split comma ingest_topics_raw) in
  let ingest_qos_raw := _get environ "INGEST_QOS" (u "0") in
  ingest_qos <- int_or ingest_qos_raw 0 ;;
  let ingest_qos := clamp_qos ingest_qos in
  Ok {| host := host;
        port := port;
        username := or_none (_get environ "MQTT_USERNAME" []);
        password := or_none (_get environ "MQTT_PASSWORD" []);
        keepalive := keepalive;
        client_id :=
          or_default (_get environ "MQTT_CLIENT_ID" (u "mqtt_ingest"))
                     (u "mqtt_ingest");
        clean_session := clean_session;
        transport :=
          or_default (_get environ "MQTT_TRANSPORT" (u "tcp")) (u "tcp");
        ws_path := ws_path;
        tls := tls;
        tls_insecure := tls_insecure;
        ingest_topics := ingest_topics;
        ingest_qos := ingest_qos |}.

End Env.

(** The [topics] argument of [subscribe]: one string, or a list or
    tuple of strings. *)
Inductive topics_arg : Type :=
| OneTopic (topic : pystr)
| ManyTopics (topics : list pystr).

(** What the connector logs about its connection. *)
Inductive log_entry : Type :=
| LogOnConnect (rc : Z) (session_present : bool)
| LogSubscribeFailed (topic : pystr) (result : Z)
| LogSubscribeSent (topic : pystr) (qos : Z)
| LogDisconnectedUnexpectedly (rc : Z)
| LogDisconnected.

Definition MQTT_ERR_SUCCESS : Z := 0.

(** [bool(v)] *)
Definition json_truthy (v : json) : bool :=
  match v with
  | JNull => false
  | JBool b => b
  | JInt n => negb (n =? 0)
  | JFloat (S754_zero _) => false
  | JFloat _ => true
  | JStr s => truthy s
  | JList items => match items with [] => false | _ :: _ => true end
  | JDict items => match items with [] => false | _ :: _ => true end
  end.

(** [d[key] = value] on a [dict]: a key already there keeps its place. *)
Fixpoint dict_set (key : pystr) (value : Z) (d : list (pystr * Z))
  : list (pystr * Z) :=
  match d with
  | [] => [(key, value)]
  | (k, v) :: d' =>
      if PyStr.eqb k key then (k, value) :: d'
      else (k, v) :: dict_set key value d'
  end.

(** The connection side of [MQTTConnector], over a client of type [C].
    Each method runs to its end before the next one starts: the lock
    around [_desired_subscriptions] is left out. *)
Section Client.
Variable C : Type.

(** [self._client.subscribe(topic, qos=qos)]: the result code (the
    message id is not used), or the exception the client raises for a
    filter or a QoS it refuses. *)
Variable client_subscribe : pystr -> Z -> C -> result Z * C.

Record connection : Type := mk_connection {
  _client : C;
  _connected_event : bool;
  _connect_rc : option Z;
  _desired_subscriptions : list (pystr * Z);
  logged : list log_entry
}.

Definition method (A : Type) : Type := connection -> result A * connection.

(** The state [__init__] leaves. *)
Definition created (client : C) : connection :=
  mk_connection client false None [] [].

(** The loop of [_subscribe_desired_subscriptions]. *)
Fixpoint subscribe_items (items : list (pystr * Z)) : method unit :=
  fun self =>
    match items with
    | [] => (Ok tt, self)
    | (topic, qos) :: items' =>
        match client_subscribe topic qos (_client self) with
        | (Ok result, c) =>
            let entry :=
              if negb (result =? MQTT_ERR_SUCCESS)
              then LogSubscribeFailed topic result
              else LogSubscribeSent topic qos in
            subscribe_items items'
              (mk_connection c (_connected_event self) (_connect_rc self)
                 (_desired_subscriptions self) (logged self ++ [entry]))
        | (Raise e, c) =>
            (Raise e,
             mk_connection c (_connected_event self) (_connect_rc self)
               (_desired_subscriptions self) (logged self))
        end
    end.

Definition _subscribe_desired_subscriptions : method unit :=
  fun self =>
    let items := _desired_subscriptions self in
    match items with
    | [] => (Ok tt, self)
    | _ :: _ => subscribe_items items self
    end.

(** [subscribe(topics, qos=qos)] for an [int] [qos]. *)
Definition subscribe (topics : topics_arg) (qos : Z) : method unit :=
  fun self =>
    let normalized_topics :=
      match topics with
      | OneTopic t => [t]
      | ManyTopics ts => ts
      end in
    let normalized_topics := stripped_topics normalized_topics in
    match normalized_topics with
    | [] => (Ok tt, self)
    | _ :: _ =>
        let qos_int := clamp_qos qos in
        let self :=
          mk_connection (_client self) (_connected_event self)
            (_connect_rc self)
            (fold_left (fun d topic => dict_set topic qos_int d)
                       normalized_topics (_desired_subscriptions self))
            (logged self) in
        if _connected_event self
           && match _connect_rc self with
              | Some rc => rc =? 0
              | None => false
              end
        then _subscribe_desired_subscriptions self
        else (Ok tt, self)
    end.

Definition _on_connect (flags : dict) (rc : Z) : method unit :=
  fun self =>
    let session_present :=
      json_truthy (dict_get (u "session present") flags)
      || json_truthy (dict_get (u "session_present") flags) in
    let self :=
      mk_connection (_client self) true (Some rc)
        (_desired_subscriptions self)
        (logged self ++ [LogOnConnect rc session_present]) in
    if rc =? 0 then _subscribe_desired_subscriptions self
    else (Ok tt, self).

Definition _on_disconnect (rc : Z) : method unit :=
  fun self =>
    (Ok tt,
     mk_connection (_client self) false (_connect_rc self)
       (_desired_subscriptions self)
       (logged self
        ++ [if negb (rc =? 0) then LogDisconnectedUnexpectedly rc
            else LogDisconnected])).

End Client.

End mqtt_connection.

(* ------------------------------------------------------------------ *)
(** * db_client.py: configuration and connection string *)

Module db_client.

Record MSSQLConnectionParams : Type := {
  host : pystr;
  port : Z;
  database : pystr;
  user : option pystr;
  password : option pystr;
  driver : pystr;
  encrypt : pystr;
  trust_server_certificate : option bool;
  connect_timeout_seconds : Z
}.

Definition required_words : list pystr :=
  [u "1"; u "true"; u "yes"; u "y"; u "on"; u "required"].

Definition disabled_words : list pystr :=
  [u "0"; u "false"; u "no"; u "n"; u "off"; u "disable"; u "disabled"].

(** ["yes" if b else "no"] *)
Definition yes_no (b : bool) : pystr := if b then u "yes" else u "no".

Section Connector.
Context {rt : Runtime}.

(** [encrypt_mode] in [_build_connection_string]. *)
Definition encrypt_mode (p : MSSQLConnectionParams) : pystr :=
  str_lower (strip (or_default (encrypt p) (u "optional"))).

(** [encrypt] and [trust] in [_build_connection_string]. *)
Definition encrypt_and_trust (p : MSSQLConnectionParams) : pystr * pystr :=
  if mem (encrypt_mode p) required_words then
    (u "yes",
     match trust_server_certificate p with
     | None => u "no"
     | Some b => yes_no b
     end)
  else if mem (encrypt_mode p) disabled_words then
    (u "no",
     match trust_server_certificate p with
     | None => u "no"
     | Some b => yes_no b
     end)
  else
    (u "yes",
     match trust_server_certificate p with
     | None => u "yes"
     | Some b => yes_no b
     end).

(** The list [parts] of [_build_connection_string]. *)
Definition connection_parts (p : MSSQLConnectionParams) : list pystr :=
  let server :=
    if negb (port p =? 0) then host p ++ u "," ++ str_of_Z (port p)
    else host p in
  let '(encrypt, trust) := encrypt_and_trust p in
  let parts :=
    [u "DRIVER={" ++ driver p ++ u "}";
     u "SERVER=" ++ server;
     u "DATABASE=" ++ database p;
     u "Encrypt=" ++ encrypt;
     u "TrustServerCertificate=" ++ trust] in
  match user p with
  | Some (c :: name) =>
      parts
      ++ [u "UID=" ++ c :: name;
          u "PWD=" ++ match password p with Some pw => pw | None => [] end]
  | _ => parts ++ [u "Trusted_Connection=yes"]
  end.

Definition _build_connection_string (p : MSSQLConnectionParams) : pystr :=
  join (u ";") (connection_parts p) ++ u ";".

(** [os.environ] *)
Variable environ : string -> option pystr.

Definition mssql_params_from_env : result MSSQLConnectionParams :=
  let host := _get environ "DB_HOST" [] in
  let host := if negb (truthy host) then u "localhost" else host in
  let port_raw := _get environ "DB_PORT" (u "1433") in
  port <- int_or port_raw 1433 ;;
  let database := or_default (_get environ "DB_NAME" (u "master"))
                             (u "master") in
  let user := or_none (_get environ "DB_USER" []) in
  let password := or_none (_get environ "DB_PASSWORD" []) in
  let encrypt := or_default (_get environ "DB_ENCRYPT" (u "optional"))
                            (u "optional") in
  let trust_raw := _get environ "DB_TRUST_SERVER_CERT" [] in
  let trust_server_certificate :=
    if truthy trust_raw then Some (mem (str_lower trust_raw) flag_words)
    else None in
  let driver :=
    or_default (_get environ "DB_DRIVER" (u "ODBC Driver 18 for SQL Server"))
               (u "ODBC Driver 18 for SQL Server") in
  let timeout_raw := _get environ "DB_CONNECT_TIMEOUT" (u "5") in
  connect_timeout_seconds <- int_or timeout_raw 5 ;;
  Ok {| host := host;
        port := port;
        database := database;
        user := user;
        password := password;
        driver := driver;
        encrypt := encrypt;
        trust_server_certificate := trust_server_certificate;
        connect_timeout_seconds := connect_timeout_seconds |}.

End Connector.

End db_client.

(* ------------------------------------------------------------------ *)
(** * main.py: the connector with its five stores *)

Module main.

(** The database the five stores are connected to. *)
Record database : Type := mk_database {
  devices_table : DeviceStore.devices;
  signals : world
}.

Definition on_devices {A} (op : DeviceStore.op DeviceStore.devices A)
  : mqtt_client.store_op database A :=
  fun db => let '(r, t) := op (devices_table db) in
            (r, mk_database t (signals db)).

Definition on_signals {A} (op : M A) : mqtt_client.store_op database A :=
  fun db => let '(r, w) := op (signals db) in
            (r, mk_database (devices_table db) w).

Section Connector.
Context {rt : Runtime}.

(** The connector [main] builds when [DB_ENABLE] is set: each store on
    the one database. *)
Definition connector : mqtt_client.MQTTConnector database := {|
  mqtt_client._device_store :=
    Some (fun event =>
            on_devices (DeviceStore.ensure_from_event _ DeviceStore.sql event));
  mqtt_client._device_status_store :=
    Some (fun event device_id =>
            on_signals (device_status_store.ensure_from_event event device_id));
  mqtt_client._device_os_status_store :=
    Some (fun event device_id =>
            on_signals
              (device_os_status_store.ensure_from_event event device_id));
  mqtt_client._device_storage_status_store :=
    Some (fun event device_id =>
            on_signals
              (device_storage_status_store.ensure_from_event event device_id));
  mqtt_client._device_statistics_store :=
    Some (fun event device_id =>
            on_signals
              (device_statistics_store.insert_from_event event device_id))
|}.

End Connector.

(** [main], once connected: the configured topics are subscribed (the
    warning logged when there are none is left out). *)
Definition subscribe_ingest_topics {C : Type}
    (client_subscribe : pystr -> Z -> C -> result Z * C)
    (params : mqtt_connection.MQTTConnectionParams)
  : mqtt_connection.method C unit :=
  match mqtt_connection.ingest_topics params with
  | [] => fun self => (Ok tt, self)
  | _ :: _ =>
      mqtt_connection.subscribe C client_subscribe
        (mqtt_connection.ManyTopics (mqtt_connection.ingest_topics params))
        (mqtt_connection.ingest_qos params)
  end.

End main.

(* ------------------------------------------------------------------ *)
(** * The vocabulary of the further properties *)

(** A word of [s.split()]: not empty, no whitespace in it. *)
Definition clean_word (w : pystr) : Prop :=
  w <> [] /\ Forall (fun c => is_space c = false) w.

(** [[a-z0-9_]] *)
Definition slug_or_underscore (c : N) : bool :=
  grafana_export_dashboards.is_slug_char c || N.eqb c underscore.

(** No two underscores side by side. *)
Fixpoint no_double_underscore (s : pystr) : bool :=
  match s with
  | a :: (b :: _) as rest =>
      negb (N.eqb a underscore && N.eqb b underscore)
      && no_double_underscore rest
  | _ => true
  end.

(** A file-name slug: not empty, made of [[a-z0-9_]], no underscore at
    either end and no two underscores side by side. *)
Definition well_formed_slug (s : pystr) : Prop :=
  s <> []
  /\ forallb slug_or_underscore s = true
  /\ hd_error s <> Some underscore
  /\ hd_error (rev s) <> Some underscore
  /\ no_double_underscore s = true.

(** ** The device table *)

Definition device_row_of (serial_number : pystr) (t : DeviceStore.devices)
  : option DeviceStore.device_row :=
  select_one (DeviceStore.has_serial serial_number) t.

(** The serial number an event resolves by: trimmed, absent when
    nothing is left. *)
Definition event_serial (event : IngestEvent) : option pystr :=
  match serial_number event with
  | None => None
  | Some s => if truthy (strip s) then Some (strip s) else None
  end.

(** Serial numbers are unique and every identity is below the next
    one. *)
Definition devices_well_formed (t : DeviceStore.devices) : Prop :=
  NoDup (map DeviceStore.dv_serial_number (rows t))
  /\ Forall (fun r => DeviceStore.dv_id r < next_id t) (rows t).

(** ** The handler, stage by stage *)

Section HandlerVocabulary.
Context {S : Type}.

(** The resolver as the handler calls it: its exception is logged and
    counts as no identity; no resolver, no identity. *)
Definition resolve_identity (self : mqtt_client.MQTTConnector S)
    (event : IngestEvent) (h : mqtt_client.handler_state S)
  : option device_store.DeviceUpsertResult * mqtt_client.handler_state S :=
  match mqtt_client._device_store S self with
  | None => (None, h)
  | Some resolver =>
      match resolver event (mqtt_client.stores S h) with
      | (Ok device_result, s) =>
          (device_result, mqtt_client.mk_state S s (mqtt_client.logged S h))
      | (Raise e, s) =>
          (None,
           mqtt_client.mk_state S s
             (mqtt_client.logged S h
              ++ [mqtt_client.LogException "Device upsert failed" e]))
      end
  end.
End HandlerVocabulary.

(** ** The tables of the signal stores *)

Inductive signal_table : Type :=
| StatusTable | OsTable | StorageTable | StatisticsTable.

(** [w'] is [w] but for one table. *)
Definition unchanged_except (tb : signal_table) (w w' : world) : Prop :=
  (tb <> StatusTable -> device_status w' = device_status w)
  /\ (tb <> OsTable -> device_os_status w' = device_os_status w)
  /\ (tb <> StorageTable ->
      device_storage_status w' = device_storage_status w)
  /\ (tb <> StatisticsTable -> device_statistics w' = device_statistics w)
  /\ now w' = now w.

(** ** Vocabulary: keyed tables *)

(** A table whose identity column holds no value twice and only values
    below the next one, and whose key column holds no value twice. *)
Definition keyed_table {R K : Type} (id : R -> Z) (key : R -> K)
    (t : table R) : Prop :=
  NoDup (map id (rows t))
  /\ Forall (fun r => id r < next_id t) (rows t)
  /\ NoDup (map key (rows t)).

Definition os_row_of (device_id : Z) (w : world) : option os_row :=
  select_one (fun r => os_device_id r =? device_id) (device_os_status w).

Definition storage_row_of (device_id : Z) (drive : pystr) (w : world)
  : option storage_row :=
  select_one (fun r => (sg_device_id r =? device_id)
                       && PyStr.eqb (sg_drive r) drive)
             (device_storage_status w).

Definition storage_key (r : storage_row) : Z * pystr :=
  (sg_device_id r, sg_drive r).

(** One character in the range A to Z. *)
Definition drive_is_letter (drive : pystr) : Prop :=
  exists c, drive = [c] /\ (65 <= c <= 90)%N.

(** One status row and one OS row per device, one storage row per device
    and drive letter, and identity columns that repeat no value. *)
Definition signals_well_keyed (w : world) : Prop :=
  keyed_table st_id st_device_id (device_status w)
  /\ keyed_table os_id os_device_id (device_os_status w)
  /\ keyed_table sg_id storage_key (device_storage_status w)
  /\ Forall (fun r => drive_is_letter (sg_drive r))
            (rows (device_storage_status w))
  /\ keyed_table sx_id sx_id (device_statistics w).

Definition database_well_keyed (db : main.database) : Prop :=
  devices_well_formed (main.devices_table db)
  /\ signals_well_keyed (main.signals db).

(** ** Vocabulary: properties the stores keep *)

Section ClosedVocabulary.
Context {S : Type}.
Variable P : S -> Prop.

(** The operation keeps [P], whether it returns or raises. *)
Definition closed_under {A} (op : mqtt_client.store_op S A) : Prop :=
  forall s, P s -> P (snd (op s)).

Definition store_closed {A}
    (store : option (IngestEvent -> Z -> mqtt_client.store_op S A)) : Prop :=
  forall st event d, store = Some st -> closed_under (st event d).
End ClosedVocabulary.

(** ** Vocabulary: subscriptions *)

(** A topic filter that is not blank and has no surrounding
    whitespace. *)
Definition clean_topic (topic : pystr) : Prop :=
  truthy topic = true /\ strip topic = topic.

Definition valid_subscription (s : pystr * Z) : Prop :=
  clean_topic (fst s) /\ 0 <= snd s <= 2.

(** [d.get(key)] on the desired subscriptions. *)
Fixpoint desired_qos (topic : pystr) (d : list (pystr * Z)) : option Z :=
  match d with
  | [] => None
  | (k, v) :: d' => if PyStr.eqb k topic then Some v else desired_qos topic d'
  end.

(** What the log shows of one [client.subscribe] call for a
    subscription: sent, or refused with a result code. *)
Definition entry_for (s : pystr * Z) (e : mqtt_connection.log_entry)
  : Prop :=
  e = mqtt_connection.LogSubscribeSent (fst s) (snd s)
  \/ exists result,
       result <> 0 /\ e = mqtt_connection.LogSubscribeFailed (fst s) result.

(** What the log shows of one [client.subscribe] call for the
    subscription [s] that returned [result]: sent with the QoS of [s]
    when the client reported success, refused with the result code
    otherwise. *)
Definition entry_of (s : pystr * Z) (result : Z)
  : mqtt_connection.log_entry :=
  if result =? mqtt_connection.MQTT_ERR_SUCCESS
  then mqtt_connection.LogSubscribeSent (fst s) (snd s)
  else mqtt_connection.LogSubscribeFailed (fst s) result.

(** The entries for a list of subscriptions and the result codes of
    their calls, pairwise. *)
Definition entries_of (items : list (pystr * Z)) (results : list Z)
  : list mqtt_connection.log_entry :=
  map (fun sr => entry_of (fst sr) (snd sr)) (combine items results).

(** The log entries about subscriptions name clean topics, and a QoS
    from 0 to 2 when sent. *)
Definition entry_valid (e : mqtt_connection.log_entry) : Prop :=
  match e with
  | mqtt_connection.LogSubscribeSent topic qos =>
      valid_subscription (topic, qos)
  | mqtt_connection.LogSubscribeFailed topic _ => clean_topic topic
  | _ => True
  end.

(** Every desired subscription is valid, no topic is there twice, and
    the log names valid subscriptions only. *)
Definition subscription_invariant {C : Type}
    (self : mqtt_connection.connection C) : Prop :=
  Forall valid_subscription (mqtt_connection._desired_subscriptions C self)
  /\ NoDup (map fst (mqtt_connection._desired_subscriptions C self))
  /\ Forall entry_valid (mqtt_connection.logged C self).

Section SubscriptionVocabulary.
Context {C : Type}.
Variable client_subscribe : pystr -> Z -> C -> result Z * C.

(** The client raises for no subscription. *)
Definition accepting : Prop :=
  forall topic qos c, exists result c',
    client_subscribe topic qos c = (Ok result, c').

(** The client is called once for each subscription of the list, in
    their order, with its topic and its QoS, each call on the state the
    call before left; [results] are the codes the client returned and
    the last argument is the state it is left in. *)
Inductive client_answers
  : list (pystr * Z) -> C -> list Z -> C -> Prop :=
| answers_nil (c : C) : client_answers [] c [] c
| answers_cons (topic : pystr) (qos : Z) (items : list (pystr * Z))
    (c c' c'' : C) (result : Z) (results : list Z) :
    client_subscribe topic qos c = (Ok result, c') ->
    client_answers items c' results c'' ->
    client_answers ((topic, qos) :: items) c (result :: results) c''.

(** The calls the connector receives: [subscribe] from the program, the
    two callbacks from the client. *)
Inductive call : Type :=
| CallSubscribe (topics : mqtt_connection.topics_arg) (qos : Z)
| CallOnConnect (flags : dict) (rc : Z)
| CallOnDisconnect (rc : Z).

Definition perform (c : call) : mqtt_connection.method C unit :=
  match c with
  | CallSubscribe topics qos =>
      mqtt_connection.subscribe C client_subscribe topics qos
  | CallOnConnect flags rc =>
      mqtt_connection._on_connect C client_subscribe flags rc
  | CallOnDisconnect rc => mqtt_connection._on_disconnect C rc
  end.

(** A sequence of calls, each on the state the previous one left,
    whether it returned or raised. *)
Definition perform_all (calls : list call)
    (self : mqtt_connection.connection C) : mqtt_connection.connection C :=
  fold_left (fun s c => snd (perform c s)) calls self.

Definition connected (self : mqtt_connection.connection C) : bool :=
  mqtt_connection._connected_event C self
  && match mqtt_connection._connect_rc C self with
     | Some rc => rc =? 0
     | None => false
     end.
End SubscriptionVocabulary.

(** [int(s)] raises nothing but [ValueError]. *)
Definition int_raises_value_error {rt : Runtime} : Prop :=
  forall s e, int_of_str s = Raise e -> e = ValueError.

(* ------------------------------------------------------------------ *)
(** * Scenarios *)

Module Scenarios.

(** [int(s)] on a string of ASCII digits; every other string is refused
    here. *)
Fixpoint int_of_digits (acc : Z) (s : pystr) : option Z :=
  match s with
  | [] => Some acc
  | c :: s' =>
      if ((48 <=? c) && (c <=? 57))%N
      then int_of_digits (10 * acc + Z.of_N (c - 48)) s'
      else None
  end.

Definition runtime : Runtime := {|
  utf8_decode_strict :=
    utf8_decode_strict (Runtime := Examples.example_runtime);
  utf8_decode_replace :=
    utf8_decode_replace (Runtime := Examples.example_runtime);
  json_loads := json_loads (Runtime := Examples.example_runtime);
  repr_float := repr_float (Runtime := Examples.example_runtime);
  str_container := str_container (Runtime := Examples.example_runtime);
  int_of_str := fun s =>
    match s with
    | [] => Raise ValueError
    | _ :: _ =>
        match int_of_digits 0 s with
        | Some n => Ok n
        | None => Raise ValueError
        end
    end;
  float_of_str := float_of_str (Runtime := Examples.example_runtime);
  upper_other := upper_other (Runtime := Examples.example_runtime);
  lower_other := lower_other (Runtime := Examples.example_runtime);
  utc_fromtimestamp :=
    utc_fromtimestamp (Runtime := Examples.example_runtime);
  timestamp_seconds :=
    timestamp_seconds (Runtime := Examples.example_runtime)
|}.

(** An environment that sets the ingest topics with blanks, both
    separators and a repeated topic, a QoS above the range, and the
    encryption mode in capitals. *)
Definition environ (name : string) : option pystr :=
  if String.eqb name "INGEST_TOPICS"
  then Some (u " iot/+/+/+/status ; iot/# ,, iot/+/+/+/status ")
  else if String.eqb name "INGEST_QOS" then Some (u "7")
  else if String.eqb name "MQTT_PORT" then Some (u "8883")
  else if String.eqb name "DB_ENCRYPT" then Some (u " Disabled ")
  else if String.eqb name "DB_USER" then Some (u "ingest")
  else if String.eqb name "DB_PASSWORD" then Some (u "s3cret")
  else None.

(** A client that accepts every subscription and keeps the calls it
    received. *)
Definition recording_client (topic : pystr) (qos : Z)
    (calls : list (pystr * Z)) : result Z * list (pystr * Z) :=
  (Ok mqtt_connection.MQTT_ERR_SUCCESS, calls ++ [(topic, qos)]).

(** A connector that is connected and has no subscription yet. *)
Definition just_connected : mqtt_connection.connection (list (pystr * Z)) :=
  mqtt_connection.mk_connection _ [] true (Some 0) [] [].

(** A connector with two subscriptions requested before the
    connection. *)
Definition queued : mqtt_connection.connection (list (pystr * Z)) :=
  perform_all recording_client
    [CallSubscribe (mqtt_connection.ManyTopics [u " iot/# "; u "  "]) 7;
     CallSubscribe (mqtt_connection.OneTopic (u "plant/+/status")) 1]
    (mqtt_connection.created _ []).

Definition mssql_params : db_client.MSSQLConnectionParams :=
  {| db_client.host := u "db.local";
     db_client.port := 1433;
     db_client.database := u "systems_one";
     db_client.user := Some (u "ingest");
     db_client.password := Some (u "s3cret");
     db_client.driver := u "ODBC Driver 18 for SQL Server";
     db_client.encrypt := u "required";
     db_client.trust_server_certificate := None;
     db_client.connect_timeout_seconds := 5 |}.

(** The database of [main] before the first message. *)
Definition empty_database : main.database :=
  main.mk_database Examples.empty_table Examples.empty_world.

Definition start : mqtt_client.handler_state main.database :=
  mqtt_client.mk_state main.database empty_database [].

Definition connector : mqtt_client.MQTTConnector main.database :=
  main.connector (rt := runtime).

(** A status message whose body has a numeric serial number and no
    status field, and one whose serial number is null. *)
Definition msg_int_serial : mqtt_client.MQTTMessage :=
  {| mqtt_client.msg_topic := Examples.to_bytes Examples.status_topic;
     mqtt_client.msg_payload := Examples.to_bytes Examples.text_int_serial;
     mqtt_client.msg_qos := Some 0;
     mqtt_client.msg_retain := Some false |}.

Definition msg_null_serial : mqtt_client.MQTTMessage :=
  {| mqtt_client.msg_topic := Examples.to_bytes Examples.status_topic;
     mqtt_client.msg_payload := Examples.to_bytes Examples.text_null_serial;
     mqtt_client.msg_qos := Some 0;
     mqtt_client.msg_retain := Some false |}.

(** A status message whose topic holds the byte [0xff], which no UTF-8
    text contains. *)
Definition msg_bad_topic : mqtt_client.MQTTMessage :=
  {| mqtt_client.msg_topic :=
       Examples.to_bytes (u "iot/acme/plant1/line") ++ [Byte.xff]
       ++ Examples.to_bytes (u "/status");
     mqtt_client.msg_payload := Examples.to_bytes Examples.text_int_serial;
     mqtt_client.msg_qos := Some 0;
     mqtt_client.msg_retain := Some false |}.

End Scenarios.

(* ------------------------------------------------------------------ *)
(** * Proofs: strings *)

Lemma pystr_eqb_spec (a b : pystr) : reflect (a = b) (PyStr.eqb a b).
Proof.
  revert b; induction a as [|x a IH]; intros [|y b]; simpl;
    try (constructor; congruence).
  destruct (N.eqb_spec x y) as [->|Hne]; simpl.
  - destruct (IH b) as [->|Hne]; constructor; congruence.
  - constructor; congruence.
Qed.

Lemma pystr_eqb_refl (a : pystr) : PyStr.eqb a a = true.
Proof. destruct (pystr_eqb_spec a a); congruence. Qed.

Lemma pystr_eqb_eq (a b : pystr) : PyStr.eqb a b = true <-> a = b.
Proof. destruct (pystr_eqb_spec a b); split; congruence. Qed.

Example split_example :
  split slash (u "a//b/") = [u "a"; []; u "b"; []].
Proof. reflexivity. Qed.

Example str_of_Z_example :
  str_of_Z 1700000000000 = u "1700000000000" /\ str_of_Z (-42) = u "-42".
Proof. split; reflexivity. Qed.

Example float_of_int_overflow :
  float_of_int (2 ^ 1024) = Raise OverflowError
  /\ raises (float_of_int (2 ^ 1024 - 2 ^ 970 - 1)) = false
  /\ float_of_int (2 ^ 1024 - 2 ^ 970) = Raise OverflowError
  /\ float_of_int (10 ^ 400) = Raise OverflowError.
Proof. repeat split; vm_compute; reflexivity. Qed.

Section SplitFacts.
Variable sep : N.

Lemma split_not_nil (s : pystr) : split sep s <> [].
Proof.
  destruct s as [|c s]; simpl; [discriminate|].
  destruct (N.eqb c sep); [discriminate|].
  destruct (split sep s); discriminate.
Qed.

Lemma split_snoc_sep (s : pystr) :
  split sep (s ++ [sep]) = split sep s ++ [[]].
Proof.
  induction s as [|c s IH]; simpl.
  - now rewrite N.eqb_refl.
  - destruct (N.eqb c sep); [now rewrite IH|].
    rewrite IH. destruct (split sep s) as [|p ps] eqn:E; [|reflexivity].
    now destruct (split_not_nil s).
Qed.

Lemma nonempty_split_app_seps (seps s : pystr) :
  Forall (fun c => c = sep) seps ->
  filter truthy (split sep (s ++ seps)) = filter truthy (split sep s).
Proof.
  revert s; induction seps as [|c seps IH]; intros s Hall.
  - now rewrite app_nil_r.
  - inversion Hall as [|? ? Hc Hrest]; subst.
    change (s ++ sep :: seps) with (s ++ [sep] ++ seps).
    rewrite app_assoc, (IH _ Hrest), split_snoc_sep, filter_app; simpl.
    now rewrite app_nil_r.
Qed.

Lemma lstrip_by_prefix (p : N -> bool) (s : pystr) :
  exists pre, s = pre ++ lstrip_by p s /\ Forall (fun c => p c = true) pre.
Proof.
  induction s as [|c s (pre & Hs & Hpre)]; simpl.
  - exists []; split; [reflexivity|constructor].
  - destruct (p c) eqn:Hc.
    + exists (c :: pre); split; [simpl; congruence|now constructor].
    + exists []; split; [reflexivity|constructor].
Qed.

Lemma rstrip_by_suffix (p : N -> bool) (s : pystr) :
  exists suf, s = rstrip_by p s ++ suf /\ Forall (fun c => p c = true) suf.
Proof.
  unfold rstrip_by.
  destruct (lstrip_by_prefix p (rev s)) as (pre & Hs & Hpre).
  exists (rev pre); split.
  - rewrite <- rev_app_distr, <- Hs. now rewrite rev_involutive.
  - now apply Forall_rev.
Qed.

Lemma nonempty_split_lstrip (s : pystr) :
  filter truthy (split sep (lstrip_by (N.eqb sep) s))
  = filter truthy (split sep s).
Proof.
  induction s as [|c s IH]; simpl; [reflexivity|].
  rewrite (N.eqb_sym sep c).
  destruct (N.eqb c sep) eqn:Hc; simpl.
  - exact IH.
  - now rewrite Hc.
Qed.

Lemma nonempty_split_strip (s : pystr) :
  filter truthy (split sep (strip_char sep s))
  = filter truthy (split sep s).
Proof.
  unfold strip_char, strip_by.
  rewrite <- (nonempty_split_lstrip s).
  destruct (rstrip_by_suffix (N.eqb sep) (lstrip_by (N.eqb sep) s))
    as (suf & Hs & Hsuf).
  rewrite Hs at 2.
  symmetry; apply nonempty_split_app_seps.
  eapply Forall_impl; [|exact Hsuf].
  intros c Hc; symmetry; now apply N.eqb_eq.
Qed.
End SplitFacts.

Lemma topic_parts_segments (topic : pystr) :
  topic_parts topic = segments topic.
Proof. apply nonempty_split_strip. Qed.

(* ------------------------------------------------------------------ *)
(** * Proofs: the decoder never raises *)

Section DecoderTotal.
Context {rt : Runtime}.

Lemma _safe_str_cases (v : json) :
  _safe_str v
  = match v with
    | JNull => Ok None
    | _ => match py_str v with
           | Ok s => Ok (Some s)
           | Raise _ => Ok None
           end
    end.
Proof.
  destruct v as [|[]| | | | |]; simpl; try reflexivity;
    unfold try_except, bind; now destruct (str_container _).
Qed.

Lemma _safe_int_cases (v : json) :
  _safe_int v
  = match py_int v with
    | Ok n => Ok (Some n)
    | Raise _ => Ok None
    end.
Proof.
  destruct v; simpl; try reflexivity; unfold try_except, bind.
  - now destruct (int_of_float f).
  - now destruct (int_of_str s).
Qed.

Lemma _safe_str_total (v : json) : exists r, _safe_str v = Ok r.
Proof.
  rewrite _safe_str_cases. destruct v; eauto; destruct (py_str _); eauto.
Qed.

Lemma _safe_int_total (v : json) : exists r, _safe_int v = Ok r.
Proof. rewrite _safe_int_cases. destruct (py_int v); eauto. Qed.

Lemma parse_payload_cases (payload_bytes : list Byte.byte) :
  parse_payload payload_bytes
  = match payload_bytes with
    | [] => Ok None
    | _ :: _ =>
        match json_loads (decode_text payload_bytes) with
        | Ok obj => Ok (as_mapping obj)
        | Raise _ => Ok None
        end
    end.
Proof.
  unfold parse_payload, decode_text.
  destruct payload_bytes as [|b bs]; [reflexivity|].
  now destruct (utf8_decode_strict (b :: bs)).
Qed.

Lemma parse_payload_total (payload_bytes : list Byte.byte) :
  exists r, parse_payload payload_bytes = Ok r.
Proof.
  rewrite parse_payload_cases.
  destruct payload_bytes; eauto. destruct (json_loads _); eauto.
Qed.

(** [build_event], with the decoding of the payload already done. *)
Lemma build_event_cases (topic : pystr) (payload_bytes : list Byte.byte)
    (qos : option Z) (retain : option bool) :
  exists p serial ts,
    parse_payload payload_bytes = Ok p
    /\ match p with
       | None => serial = None /\ ts = None
       | Some d => _safe_str (dict_get (u "serial_number") d) = Ok serial
                   /\ _safe_int (dict_get (u "ts") d) = Ok ts
       end
    /\ build_event topic payload_bytes qos retain
       = Ok (match parse_topic topic with
             | None => None
             | Some info =>
                 Some {| prefix := info_prefix info;
                         customer := info_customer info;
                         location := info_location info;
                         machine := info_machine info;
                         subtype := info_subtype info;
                         serial_number := serial;
                         ts_ms := ts;
                         qos := qos;
                         retain := retain;
                         payload := p |}
             end).
Proof.
  unfold build_event.
  destruct (parse_payload_total payload_bytes) as [p Hp]. rewrite Hp.
  destruct p as [d|].
  - destruct (_safe_str_total (dict_get (u "serial_number") d)) as [s Hs].
    destruct (_safe_int_total (dict_get (u "ts") d)) as [t Ht].
    exists (Some d), s, t. repeat split; auto.
    destruct (parse_topic topic); [|reflexivity].
    simpl. rewrite Hs; simpl. rewrite Ht; reflexivity.
  - exists None, None, None. repeat split.
    destruct (parse_topic topic); reflexivity.
Qed.
End DecoderTotal.

(* ------------------------------------------------------------------ *)
(** * The decoder: claims C4, C8, C9, C10 *)

Section DecoderClaims.
Context {rt : Runtime}.

(** C4.  For every topic, the decoder works on the segments obtained
    by splitting on ['/'] and dropping the empty ones.  With fewer
    than five of them it yields nothing, from [parse_topic] and from
    [build_event] alike; with five or more, prefix, customer, location
    and machine are the first four segments in order and subtype is
    the remaining ones joined with ['/'], whatever the payload. *)
Theorem parse_topic_segments (topic : pystr)
    (payload_bytes : list Byte.byte) (qos : option Z)
    (retain : option bool) :
  topic_parts topic = segments topic
  /\ match segments topic with
     | p0 :: p1 :: p2 :: p3 :: p4 :: rest =>
         parse_topic topic
         = Some {| info_prefix := p0; info_customer := p1;
                   info_location := p2; info_machine := p3;
                   info_subtype := join (u "/") (p4 :: rest) |}
         /\ exists event,
             build_event topic payload_bytes qos retain = Ok (Some event)
             /\ prefix event = p0 /\ customer event = p1
             /\ location event = p2 /\ machine event = p3
             /\ subtype event = join (u "/") (p4 :: rest)
     | _ =>
         parse_topic topic = None
         /\ build_event topic payload_bytes qos retain = Ok None
     end.
Proof.
  split; [apply topic_parts_segments|].
  destruct (build_event_cases topic payload_bytes qos retain)
    as (p & serial & ts & _ & _ & Hbuild).
  rewrite Hbuild; clear Hbuild.
  unfold parse_topic. rewrite topic_parts_segments.
  destruct (segments topic) as [|p0 [|p1 [|p2 [|p3 [|p4 rest]]]]];
    simpl; try (split; reflexivity).
  split; [reflexivity|].
  eexists; split; [reflexivity|]. simpl. repeat split; reflexivity.
Qed.

(** C10.  The decoder is total: [build_event] returns, for every topic
    and every payload, and so do the coercions it relies on, which
    turn a failed conversion into an absent value: [_safe_str] and
    [_safe_int] give [None] exactly where [str] or [int] raises,
    [parse_payload] gives [None] where [json.loads] raises. *)
Theorem build_event_total :
  (forall topic payload_bytes qos retain,
      exists r, build_event topic payload_bytes qos retain = Ok r)
  /\ (forall v,
         _safe_str v = match v with
                       | JNull => Ok None
                       | _ => match py_str v with
                              | Ok s => Ok (Some s)
                              | Raise _ => Ok None
                              end
                       end)
  /\ (forall v,
         _safe_int v = match py_int v with
                       | Ok n => Ok (Some n)
                       | Raise _ => Ok None
                       end)
  /\ (forall payload_bytes,
         parse_payload payload_bytes
         = match payload_bytes with
           | [] => Ok None
           | _ :: _ =>
               match json_loads (decode_text payload_bytes) with
               | Ok obj => Ok (as_mapping obj)
               | Raise _ => Ok None
               end
           end).
Proof.
  repeat split.
  - intros topic payload_bytes qos retain.
    destruct (build_event_cases topic payload_bytes qos retain)
      as (p & serial & ts & _ & _ & Hbuild).
    rewrite Hbuild; eauto.
  - apply _safe_str_cases.
  - apply _safe_int_cases.
  - apply parse_payload_cases.
Qed.

(** C8.  With a topic of at least five segments, a body that is empty,
    unparsable or not an object still yields an event, whose payload
    (and so serial number and timestamp) is absent; and the decoder
    yields nothing exactly when the topic has fewer than five
    segments. *)
Theorem build_event_bad_body (topic : pystr)
    (payload_bytes : list Byte.byte) (qos : option Z)
    (retain : option bool) :
  (build_event topic payload_bytes qos retain = Ok None
   <-> (List.length (segments topic) < 5)%nat)
  /\ ((5 <= List.length (segments topic))%nat ->
      body_without_object payload_bytes ->
      exists event,
        build_event topic payload_bytes qos retain = Ok (Some event)
        /\ payload event = None
        /\ serial_number event = None /\ ts_ms event = None).
Proof.
  destruct (build_event_cases topic payload_bytes qos retain)
    as (p & serial & ts & Hp & Hfields & Hbuild).
  rewrite Hbuild; clear Hbuild.
  unfold parse_topic. rewrite topic_parts_segments.
  destruct (Nat.ltb_spec (List.length (segments topic)) 5) as [Hlt|Hge].
  - split; [tauto|]. intros Hge; lia.
  - split; [split; [discriminate|lia]|].
    intros _ Hbody. eexists; split; [reflexivity|]; simpl.
    assert (p = None) as ->.
    { rewrite parse_payload_cases in Hp.
      destruct Hbody as [->|[[e He]|(v & Hv & Hmap)]].
      - congruence.
      - destruct payload_bytes; [congruence|]. rewrite He in Hp. congruence.
      - destruct payload_bytes; [congruence|]. rewrite Hv in Hp. congruence. }
    destruct Hfields as [-> ->]. auto.
Qed.

(** C9, amended.  When the decoded payload is an object whose
    [serial_number] is a string, a number or a boolean, the event's
    serial number is the string form of that value; when it is [null]
    (or the key is missing), the event has no serial number. *)
Theorem build_event_serial_number (topic : pystr)
    (payload_bytes : list Byte.byte) (qos : option Z)
    (retain : option bool) (event : IngestEvent) (p : dict) :
  build_event topic payload_bytes qos retain = Ok (Some event) ->
  payload event = Some p ->
  is_scalar (dict_get (u "serial_number") p) = true ->
  serial_number event = scalar_str (dict_get (u "serial_number") p).
Proof.
  intros Hev Hp Hscalar.
  destruct (build_event_cases topic payload_bytes qos retain)
    as (p' & serial & ts & _ & Hfields & Hbuild).
  rewrite Hbuild in Hev; clear Hbuild.
  destruct (parse_topic topic) as [info|]; [|discriminate].
  injection Hev as <-. simpl in Hp |- *. subst p'.
  destruct Hfields as [Hs _]. rewrite _safe_str_cases in Hs.
  destruct (dict_get (u "serial_number") p) as [|[]| | | | |];
    simpl in *; congruence.
Qed.
End DecoderClaims.

(* ------------------------------------------------------------------ *)
(** * The Status Store: claims C2, C3 *)

Section TableFacts.
Context {R : Type}.

Lemma find_snoc_fresh (p : R -> bool) (l : list R) (r : R) :
  find p l = None -> p r = true -> find p (l ++ [r]) = Some r.
Proof.
  induction l as [|x l IH]; simpl; intros Hnone Hr.
  - now rewrite Hr.
  - destruct (p x); [discriminate|auto].
Qed.

(** An update that keeps the key of every row does not move the row
    a selection by that key returns. *)
Lemma find_map_keeping (p : R -> bool) (g : R -> R) (l : list R) :
  (forall r, p (g r) = p r) ->
  find p (map g l) = option_map g (find p l).
Proof.
  intros Hkeep; induction l as [|x l IH]; simpl; [reflexivity|].
  rewrite Hkeep. destruct (p x); [reflexivity|exact IH].
Qed.
End TableFacts.

Lemma written_offline_since_invariant found status t :
  written_offline_since found status t <> None <-> status = u "offline".
Proof.
  unfold written_offline_since.
  destruct (pystr_eqb_spec status (u "offline")) as [->|Hne].
  - destruct found as [[since|]|]; split; congruence.
  - split; congruence.
Qed.

(** What one [upsert_status] does: it returns, and the row of the device
    then carries the reported status and timestamp and the
    [offline_since] computed from the row found before. *)
Lemma upsert_status_row (d : Z) (status : pystr) (e : Z) (t : datetime)
    (w : world) :
  exists res row,
    device_status_store.upsert_status d status e t w
    = (Ok res, apply_status d {| op_status := status; op_ts_epoch := e;
                                 op_ts_datetime := t |} w)
    /\ status_row_of d (apply_status d {| op_status := status;
                                          op_ts_epoch := e;
                                          op_ts_datetime := t |} w)
       = Some row
    /\ st_device_id row = d
    /\ st_status row = status
    /\ st_ts_epoch row = e
    /\ st_ts_datetime row = t
    /\ st_offline_since row
       = written_offline_since (offline_since_of d w) status t
    /\ device_status_store.created res
       = match status_row_of d w with None => true | Some _ => false end.
Proof.
  unfold apply_status, offline_since_of, status_row_of; simpl.
  unfold device_status_store.upsert_status, mbind,
    device_status_store._select_by_device_id, select_one.
  destruct (find (fun r => st_device_id r =? d) (rows (device_status w)))
    as [row0|] eqn:Hfind; simpl.
  - eexists; eexists; split; [reflexivity|]. simpl.
    rewrite find_map_keeping
      by (intros r; destruct (st_id r =? st_id row0); reflexivity).
    rewrite Hfind; simpl. rewrite Z.eqb_refl.
    apply find_some in Hfind as [_ Hd]. apply Z.eqb_eq in Hd.
    repeat split; auto.
  - eexists; eexists; split; [reflexivity|]. simpl.
    rewrite (find_snoc_fresh _ _ _ Hfind) by (simpl; apply Z.eqb_refl).
    repeat split; auto.
Qed.

(** One operation keeps the invariant on every row of the table. *)
Lemma apply_status_table_invariant (d : Z) (op : status_op) (w : world) :
  Forall row_invariant (rows (device_status w)) ->
  Forall row_invariant (rows (device_status (apply_status d op w))).
Proof.
  intros Hinv. unfold apply_status.
  unfold device_status_store.upsert_status, mbind,
    device_status_store._select_by_device_id, select_one.
  destruct (find (fun r => st_device_id r =? d) (rows (device_status w)))
    as [row0|]; simpl.
  - apply Forall_forall. intros r Hr. apply in_map_iff in Hr as (r0 & <- & Hr0).
    rewrite Forall_forall in Hinv.
    destruct (st_id r0 =? st_id row0); [|now apply Hinv].
    unfold row_invariant; simpl.
    apply (written_offline_since_invariant
             (Some (st_offline_since row0)) (op_status op) (op_ts_datetime op)).
  - apply Forall_app; split; [exact Hinv|]. constructor; [|constructor].
    unfold row_invariant; simpl.
    apply (written_offline_since_invariant None (op_status op)
                                           (op_ts_datetime op)).
Qed.

Lemma apply_statuses_snoc d ops op w :
  apply_statuses d (ops ++ [op]) w = apply_status d op (apply_statuses d ops w).
Proof. unfold apply_statuses. now rewrite fold_left_app. Qed.

(** C3.  Starting from a table whose rows satisfy the invariant (the
    empty table, before the first insert, is one), every sequence of
    Status Store operations on a device leaves every row with
    [offline_since] non-null iff [status = offline]; and as soon as one
    operation was made, the device has a row, which satisfies it. *)
Theorem status_row_invariant (d : Z) (ops : list status_op) (w : world) :
  Forall row_invariant (rows (device_status w)) ->
  Forall row_invariant (rows (device_status (apply_statuses d ops w)))
  /\ (ops <> [] ->
      exists row, status_row_of d (apply_statuses d ops w) = Some row
                  /\ row_invariant row).
Proof.
  intros Hinv. split.
  - revert w Hinv. induction ops as [|op ops IH]; intros w Hinv; simpl; auto.
    apply IH. now apply apply_status_table_invariant.
  - intros Hne. destruct (exists_last Hne) as (ops' & op & ->).
    rewrite apply_statuses_snoc.
    destruct op as [status e t].
    destruct (upsert_status_row d status e t (apply_statuses d ops' w))
      as (res & row & _ & Hrow & _ & Hst & _ & _ & Hsince & _).
    exists row; split; [exact Hrow|].
    unfold row_invariant. rewrite Hsince, Hst.
    apply written_offline_since_invariant.
Qed.

(** C2, amended.  A second consecutive offline event never changes
    [offline_since]; when the device had no row, or a row with a null
    [offline_since], before the first of the two, [offline_since] is the
    timestamp [t1] of the first after both; and an offline event
    followed by an online event leaves it null. *)
Theorem sticky_offline_since (d : Z) (w : world) (e1 e2 : Z)
    (t1 t2 : datetime) :
  offline_since_of d (apply_statuses d [offline_at e1 t1; offline_at e2 t2] w)
  = offline_since_of d (apply_status d (offline_at e1 t1) w)
  /\ ((offline_since_of d w = None \/ offline_since_of d w = Some None) ->
      offline_since_of d (apply_status d (offline_at e1 t1) w) = Some (Some t1)
      /\ offline_since_of d
           (apply_statuses d [offline_at e1 t1; offline_at e2 t2] w)
         = Some (Some t1))
  /\ offline_since_of d (apply_statuses d [offline_at e1 t1; online_at e2 t2] w)
     = Some None.
Proof.
  simpl.
  set (w1 := apply_status d (offline_at e1 t1) w).
  destruct (upsert_status_row d (u "offline") e1 t1 w)
    as (r1 & row1 & _ & Hrow1 & _ & _ & _ & _ & Hs1 & _).
  fold (offline_at e1 t1) in Hrow1. fold w1 in Hrow1.
  destruct (upsert_status_row d (u "offline") e2 t2 w1)
    as (r2 & row2 & _ & Hrow2 & _ & _ & _ & _ & Hs2 & _).
  fold (offline_at e2 t2) in Hrow2.
  destruct (upsert_status_row d (u "online") e2 t2 w1)
    as (r3 & row3 & _ & Hrow3 & _ & _ & _ & _ & Hs3 & _).
  fold (online_at e2 t2) in Hrow3.
  assert (H1 : offline_since_of d w1 = Some (st_offline_since row1))
    by (unfold offline_since_of; now rewrite Hrow1).
  assert (H2 : offline_since_of d (apply_status d (offline_at e2 t2) w1)
               = Some (st_offline_since row2))
    by (unfold offline_since_of; now rewrite Hrow2).
  assert (H3 : offline_since_of d (apply_status d (online_at e2 t2) w1)
               = Some (st_offline_since row3))
    by (unfold offline_since_of; now rewrite Hrow3).
  rewrite H1 in Hs2, Hs3. rewrite H1, H2, H3, Hs2, Hs3, Hs1.
  unfold written_offline_since; simpl.
  split; [|split].
  - now destruct (offline_since_of d w) as [[since|]|].
  - intros [-> | ->]; split; reflexivity.
  - reflexivity.
Qed.

(* ------------------------------------------------------------------ *)
(** * Status events without one of their fields: claim C7 *)

Section StatusEventFrames.
Context {rt : Runtime}.

Lemma _event_timestamp_world (event : IngestEvent) (w : world) :
  snd (_event_timestamp event w) = w.
Proof.
  unfold _event_timestamp.
  destruct (ts_ms event) as [ms|]; [|reflexivity].
  unfold mbind, lift.
  now destruct (x <- int_truediv_1000 ms ;; utc_fromtimestamp x).
Qed.

Lemma with_device_status_same (w : world) :
  with_device_status (device_status w) w = w.
Proof. now destruct w. Qed.

Lemma with_device_os_status_same (w : world) :
  with_device_os_status (device_os_status w) w = w.
Proof. now destruct w. Qed.

(** The Status Store writes nothing but its own table. *)
Lemma status_store_frame (event : IngestEvent) (d : Z) (w : world) :
  exists t,
    snd (device_status_store.ensure_from_event event d w)
    = with_device_status t w.
Proof.
  unfold device_status_store.ensure_from_event.
  pose proof (with_device_status_same w) as Hsame.
  destruct (negb _); [exists (device_status w); now rewrite Hsame|].
  destruct (payload event) as [p|];
    [|exists (device_status w); now rewrite Hsame].
  destruct (device_status_store._normalize_status _) as [status|];
    [|exists (device_status w); now rewrite Hsame].
  unfold mbind.
  pose proof (_event_timestamp_world event w) as Hts.
  destruct (_event_timestamp event w) as [[[e t]|ex] w'];
    simpl in Hts; subst w'.
  - unfold device_status_store.upsert_status, mbind,
      device_status_store._select_by_device_id; simpl.
    destruct (select_one _ _); simpl; eauto.
  - exists (device_status w); now rewrite Hsame.
Qed.

(** The OS-Version Store writes nothing but its own table. *)
Lemma os_store_frame (event : IngestEvent) (d : Z) (w : world) :
  exists t,
    snd (device_os_status_store.ensure_from_event event d w)
    = with_device_os_status t w.
Proof.
  unfold device_os_status_store.ensure_from_event.
  pose proof (with_device_os_status_same w) as Hsame.
  destruct (negb _); [exists (device_os_status w); now rewrite Hsame|].
  destruct (payload event) as [p|];
    [|exists (device_os_status w); now rewrite Hsame].
  unfold mbind at 1, lift.
  destruct (_safe_str_total (dict_get (u "device_os_version") p)) as [o ->].
  destruct o as [s|]; [|exists (device_os_status w); now rewrite Hsame].
  destruct (negb (truthy s));
    [exists (device_os_status w); now rewrite Hsame|].
  destruct (negb (truthy (strip s)));
    [exists (device_os_status w); now rewrite Hsame|].
  unfold mbind.
  pose proof (_event_timestamp_world event w) as Hts.
  destruct (_event_timestamp event w) as [[[e t]|ex] w'];
    simpl in Hts; subst w'.
  - unfold device_os_status_store.upsert_os_version, mbind,
      device_os_status_store._select_by_device_id; simpl.
    destruct (select_one _ _); simpl; eauto.
  - exists (device_os_status w); now rewrite Hsame.
Qed.





End StatusEventFrames.

(* ------------------------------------------------------------------ *)
(** * The Storage Store: claim C6 *)

Section DriveLetter.
Context {rt : Runtime}.

Lemma leb_single (a b : N) : PyStr.leb [a] [b] = (a <=? b)%N.
Proof.
  simpl. destruct (N.leb_spec a b), (N.ltb_spec a b), (N.eqb_spec a b);
    simpl; try reflexivity; lia.
Qed.

Lemma drive_letter_range (s d : pystr) :
  device_storage_status_store.drive_letter s = Some d ->
  exists c, d = [c] /\ (65 <= c <= 90)%N.
Proof.
  unfold device_storage_status_store.drive_letter.
  destruct (negb (truthy s)); [discriminate|].
  set (s' := match s with
             | c0 :: c1 :: _ => if (c1 =? colon)%N then [c0] else s
             | _ => s
             end).
  destruct (str_upper s') as [|c [|c' rest]];
    cbn [List.length Nat.eqb negb]; try (intros; discriminate).
  change (u "A") with [65%N]; change (u "Z") with [90%N].
  rewrite !leb_single.
  destruct (N.leb_spec 65 c), (N.leb_spec c 90); simpl;
    try (intros; discriminate).
  intros [= <-]; exists c; split; [reflexivity|lia].
Qed.

(** C6.  ["C"], ["c:"] and ["C:\"] normalize to ["C"]; ["CC"] and
    ["1"] are refused; whatever is accepted normalizes to one
    character in the range A to Z; and a refused drive is passed over
    by the loop of the store, which goes on with the next drive on the
    same state, without raising. *)
Theorem normalize_drive_letter :
  device_storage_status_store._normalize_drive (JStr (u "C")) = Some (u "C")
  /\ device_storage_status_store._normalize_drive (JStr (u "c:"))
     = Some (u "C")
  /\ device_storage_status_store._normalize_drive (JStr (u "C:\"))
     = Some (u "C")
  /\ device_storage_status_store._normalize_drive (JStr (u "CC")) = None
  /\ device_storage_status_store._normalize_drive (JStr (u "1")) = None
  /\ (forall v d,
         device_storage_status_store._normalize_drive v = Some d ->
         exists c, d = [c] /\ (65 <= c <= 90)%N)
  /\ (forall drive info items device_id ts_epoch ts_dt upserts w,
         device_storage_status_store._normalize_drive (JStr drive) = None ->
         device_storage_status_store.upsert_drives device_id ts_epoch ts_dt
           ((drive, info) :: items) upserts w
         = device_storage_status_store.upsert_drives device_id ts_epoch
             ts_dt items upserts w).
Proof.
  repeat split; try reflexivity.
  - intros v d. unfold device_storage_status_store._normalize_drive.
    destruct v; try discriminate; try apply drive_letter_range;
      destruct (py_str _); try discriminate; apply drive_letter_range.
  - intros drive info items device_id ts_epoch ts_dt upserts w Hnone.
    simpl. simpl in Hnone. now rewrite Hnone.
Qed.
End DriveLetter.

(* ------------------------------------------------------------------ *)
(** * The Statistics Store: claim C5 *)

Section StatisticsClaims.
Context {rt : Runtime}.

Lemma _safe_int_or_zero_value (v : json) :
  device_statistics_store._safe_int_or_zero v = Ok (int_or_zero v).
Proof.
  unfold device_statistics_store._safe_int_or_zero, int_or_zero.
  rewrite _safe_int_cases. now destruct (py_int v).
Qed.

Lemma _event_timestamp_value (event : IngestEvent) (w : world) :
  _event_timestamp event w
  = (match event_time event w with
     | Some time => Ok time
     | None =>
         match ts_ms event with
         | Some ms =>
             match (x <- int_truediv_1000 ms ;; utc_fromtimestamp x) with
             | Raise e => Raise e
             | Ok t => Ok (ms / 1000, t)
             end
         | None => Ok (timestamp_seconds (now w), now w)
         end
     end, w).
Proof.
  unfold _event_timestamp, event_time.
  destruct (ts_ms event) as [ms|]; [|reflexivity].
  unfold mbind, lift.
  now destruct (x <- int_truediv_1000 ms ;; utc_fromtimestamp x).
Qed.

(** One accepted packet whose timestamp is available: one row more,
    nothing else touched. *)
Lemma insert_from_event_appends (event : IngestEvent) (stats : dict)
    (d : Z) (w : world) (time : Z * datetime) :
  accepted_statistics event stats ->
  event_time event w = Some time ->
  device_statistics_store.insert_from_event event d w
  = (Ok (Some {| device_statistics_store.device_statistics_id :=
                   next_id (device_statistics w) |}),
     with_device_statistics
       (mk_table
          (rows (device_statistics w)
           ++ [statistics_row_for (next_id (device_statistics w)) d time
                                  stats])
          (next_id (device_statistics w) + 1))
       w).
Proof.
  intros (Hsub & p & Hp & Hstats) Htime.
  unfold device_statistics_store.insert_from_event.
  rewrite Hsub, pystr_eqb_refl, Hp, Hstats; simpl.
  unfold mbind at 1. rewrite _event_timestamp_value, Htime.
  destruct time as [e t].
  rewrite !_safe_int_or_zero_value. reflexivity.
Qed.

Lemma event_time_now (event : IngestEvent) (w w' : world) :
  now w' = now w -> event_time event w' = event_time event w.
Proof. unfold event_time. now intros ->. Qed.

(** C5, amended.  An accepted statistics event whose timestamp is
    absent or converts to a UTC datetime appends exactly one row: the
    table afterwards is the table before followed by the new row (no
    lookup, no merge), the new row holds the integer coercion of each
    field of the packet, zero where the field is missing or not a
    number; and [N] such packets for a device append exactly [N] rows
    of that device. *)
Theorem statistics_append_only (d : Z) (w : world) :
  (forall event stats time,
      accepted_statistics event stats ->
      event_time event w = Some time ->
      exists res w',
        device_statistics_store.insert_from_event event d w = (Ok res, w')
        /\ rows (device_statistics w')
           = rows (device_statistics w)
             ++ [statistics_row_for (next_id (device_statistics w)) d time
                                    stats])
  /\ (forall v,
         device_statistics_store._safe_int_or_zero v
         = Ok (match py_int v with Ok n => n | Raise _ => 0 end))
  /\ device_statistics_store._safe_int_or_zero JNull = Ok 0
  /\ (forall events,
         Forall (fun event => exists stats, accepted_statistics event stats
                                /\ event_time event w <> None) events ->
         exists new_rows,
           rows (device_statistics (insert_all events d w))
           = rows (device_statistics w) ++ new_rows
           /\ List.length new_rows = List.length events
           /\ Forall (fun r => sx_device_id r = d) new_rows).
Proof.
  repeat split.
  - intros event stats time Hacc Htime.
    rewrite (insert_from_event_appends event stats d w time Hacc Htime).
    eexists; eexists; split; reflexivity.
  - apply _safe_int_or_zero_value.
  - intros events. revert w.
    induction events as [|event events IH]; intros w Hall.
    + exists []; simpl; rewrite app_nil_r; auto.
    + inversion Hall as [|? ? (stats & Hacc & Htime) Hrest]; subst.
      destruct (event_time event w) as [time|] eqn:Ht; [|congruence].
      change (insert_all (event :: events) d w)
        with (insert_all events d
                (snd (device_statistics_store.insert_from_event event d w))).
      rewrite (insert_from_event_appends event stats d w time Hacc Ht).
      cbn [snd].
      destruct (IH (with_device_statistics
                      (mk_table
                         (rows (device_statistics w)
                          ++ [statistics_row_for
                                (next_id (device_statistics w)) d time stats])
                         (next_id (device_statistics w) + 1)) w))
        as (new_rows & Hrows & Hlen & Hdev).
      { eapply Forall_impl; [|exact Hrest].
        intros ev (st & Ha & Hne). exists st; split; [exact Ha|].
        now rewrite (event_time_now ev w). }
      exists (statistics_row_for (next_id (device_statistics w)) d time stats
              :: new_rows).
      rewrite Hrows. cbn [device_statistics with_device_statistics rows].
      rewrite <- app_assoc; simpl. repeat split; auto.
Qed.
End StatisticsClaims.

(** The claim of C5 as it is stated fails: this event is an accepted
    statistics event, its [ts] is an integer too large for a float, and
    the store raises before it inserts; two accepted packets then leave
    one row. *)
Lemma statistics_huge_ts_counterexample :
  accepted_statistics (Examples.event_statistics (Some Examples.huge))
    [(u "total_items", JInt 12); (u "good_reads", JStr (u "n/a"))]
  /\ device_statistics_store.insert_from_event (rt := Examples.example_runtime)
       (Examples.event_statistics (Some Examples.huge)) 1 Examples.empty_world
     = (Raise OverflowError, Examples.empty_world)
  /\ List.length
       (rows (device_statistics
                (insert_all (rt := Examples.example_runtime)
                   [Examples.event_statistics (Some Examples.huge);
                    Examples.event_statistics None]
                   1 Examples.empty_world)))
     = 1%nat.
Proof.
  split; [|split].
  - split; [reflexivity|]. eexists; split; reflexivity.
  - vm_compute. reflexivity.
  - vm_compute. reflexivity.
Qed.

Lemma statistics_append_only_witness :
  accepted_statistics (Examples.event_statistics None)
    [(u "total_items", JInt 12); (u "good_reads", JStr (u "n/a"))]
  /\ event_time (rt := Examples.example_runtime)
       (Examples.event_statistics None) Examples.empty_world
     = Some (1700000000, mk_datetime 1700000000000000)
  /\ exists res w',
      device_statistics_store.insert_from_event
        (rt := Examples.example_runtime)
        (Examples.event_statistics None) 1 Examples.empty_world = (Ok res, w')
      /\ rows (device_statistics w')
         = [statistics_row_for (rt := Examples.example_runtime) 1 1
              (1700000000, mk_datetime 1700000000000000)
              [(u "total_items", JInt 12); (u "good_reads", JStr (u "n/a"))]].
Proof.
  assert (Hacc : accepted_statistics (Examples.event_statistics None)
            [(u "total_items", JInt 12); (u "good_reads", JStr (u "n/a"))]).
  { split; [reflexivity|]. eexists; split; reflexivity. }
  split; [exact Hacc|]. split; [reflexivity|].
  exact (proj1 (statistics_append_only (rt := Examples.example_runtime)
                  1 Examples.empty_world)
           _ _ _ Hacc eq_refl).
Defined.

(* ------------------------------------------------------------------ *)
(** * The message handler: claim C1 *)

Section HandlerClaims.
Context {rt : Runtime} {S : Type}.

Lemma state_eta (h : mqtt_client.handler_state S) :
  mqtt_client.mk_state S (mqtt_client.stores S h) (mqtt_client.logged S h) = h.
Proof. now destruct h. Qed.

Lemma hbind_returns {A B} (m : mqtt_client.H S A)
    (k : A -> mqtt_client.H S B) (h h' : mqtt_client.handler_state S)
    (a : A) :
  m h = (Ok a, h') -> mqtt_client.hbind S m k h = k a h'.
Proof. unfold mqtt_client.hbind. now intros ->. Qed.

(** A guarded call of the handler is an [attempt]. *)
Lemma guarded_call_attempt {A} (message : string)
    (op : mqtt_client.store_op S A) (h : mqtt_client.handler_state S) :
  mqtt_client.htry S
    (mqtt_client.hbind S (mqtt_client.call S op)
       (fun _ => mqtt_client.hret S tt))
    (fun e => mqtt_client.log S (mqtt_client.LogException message e)) h
  = (Ok tt, attempt message op h).
Proof.
  unfold mqtt_client.htry, mqtt_client.hbind, mqtt_client.call,
    mqtt_client.hret, mqtt_client.log, attempt.
  destruct (op (mqtt_client.stores S h)) as [[a|e] s]; reflexivity.
Qed.

(** Store isolation (X1, the part of C1 about the stores).  Once the
    resolver returned an identity, the
    handler attempts every applicable signal store on the same event,
    in order, each on the state the previous ones left; an exception
    of a store is logged and stops none of the others.  What the
    handler returns is then decided by the final log line alone. *)
Lemma on_event_attempts_every_store (self : mqtt_client.MQTTConnector S)
    (event : IngestEvent) (h : mqtt_client.handler_state S)
    (resolver : IngestEvent ->
                mqtt_client.store_op S (option device_store.DeviceUpsertResult))
    (r : device_store.DeviceUpsertResult) (s1 : S) :
  mqtt_client._device_store S self = Some resolver ->
  resolver event (mqtt_client.stores S h) = (Ok (Some r), s1) ->
  mqtt_client.on_event S self event h
  = let h' := attempt_signal_stores self event (device_store.device_id r)
                (mqtt_client.mk_state S s1 (mqtt_client.logged S h)) in
    match to_log_line event with
    | Ok line =>
        (Ok tt,
         mqtt_client.mk_state S (mqtt_client.stores S h')
           (mqtt_client.logged S h' ++ [mqtt_client.LogInfo line]))
    | Raise e => (Raise e, h')
    end.
Proof.
  intros Hstore Hres.
  unfold mqtt_client.on_event. rewrite Hstore.
  unfold mqtt_client.hbind at 1. unfold mqtt_client.hbind at 1.
  unfold mqtt_client.htry at 1, mqtt_client.call at 1. rewrite Hres.
  unfold attempt_signal_stores, attempt_if_applicable, applicable.
  set (h1 := mqtt_client.mk_state S s1 (mqtt_client.logged S h)).
  assert (Hstep : forall {A} (wanted message : string)
            (store : option (IngestEvent -> Z -> mqtt_client.store_op S A))
            (h0 : mqtt_client.handler_state S),
            match store with
            | Some st =>
                if PyStr.eqb (subtype event) (u wanted)
                then mqtt_client.htry S
                       (mqtt_client.hbind S
                          (mqtt_client.call S
                             (st event (device_store.device_id r)))
                          (fun _ => mqtt_client.hret S tt))
                       (fun e => mqtt_client.log S
                                   (mqtt_client.LogException message e))
                else mqtt_client.hret S tt
            | None => mqtt_client.hret S tt
            end h0
            = (Ok tt,
               match (if PyStr.eqb (subtype event) (u wanted)
                      then store else None) with
               | Some st =>
                   attempt message (st event (device_store.device_id r)) h0
               | None => h0
               end)).
  { intros A wanted message store h0.
    destruct store as [st|];
      [|now destruct (PyStr.eqb (subtype event) (u wanted))].
    destruct (PyStr.eqb (subtype event) (u wanted)); [|reflexivity].
    apply guarded_call_attempt. }
  cbv beta iota.
  rewrite (hbind_returns _ _ _ _ _
             (Hstep _ "status"%string "Device status upsert failed"%string
                    _ _)).
  rewrite (hbind_returns _ _ _ _ _
             (Hstep _ "status"%string
                    "Device OS status upsert failed"%string _ _)).
  rewrite (hbind_returns _ _ _ _ _
             (Hstep _ "storage"%string
                    "Device storage upsert failed"%string _ _)).
  rewrite (Hstep _ "statistics"%string
             "Device statistics insert failed"%string).
  unfold mqtt_client.hbind, mqtt_client.hlift, mqtt_client.log; cbn zeta.
  destruct (to_log_line event); reflexivity.
Qed.

(** A guarded store call never raises, applicable or not. *)
Lemma guarded_call_returns {A} (wanted message : string)
    (device_result : option device_store.DeviceUpsertResult)
    (store : option (IngestEvent -> Z -> mqtt_client.store_op S A))
    (event : IngestEvent) (h0 : mqtt_client.handler_state S) :
  exists h',
    match device_result, store with
    | Some r, Some st =>
        if PyStr.eqb (subtype event) (u wanted)
        then mqtt_client.htry S
               (mqtt_client.hbind S
                  (mqtt_client.call S (st event (device_store.device_id r)))
                  (fun _ => mqtt_client.hret S tt))
               (fun e => mqtt_client.log S
                           (mqtt_client.LogException message e))
        else mqtt_client.hret S tt
    | _, _ => mqtt_client.hret S tt
    end h0 = (Ok tt, h').
Proof.
  destruct device_result as [r|], store as [st|];
    try (eexists; reflexivity).
  destruct (PyStr.eqb (subtype event) (u wanted));
    [|eexists; reflexivity].
  rewrite guarded_call_attempt. eauto.
Qed.

(** Whatever the stores do, the handler reaches the final log line,
    and returns normally exactly when that line can be formatted. *)
Lemma on_event_outcome (self : mqtt_client.MQTTConnector S)
    (event : IngestEvent) (h : mqtt_client.handler_state S) :
  exists h',
    mqtt_client.on_event S self event h
    = match to_log_line event with
      | Ok line =>
          (Ok tt,
           mqtt_client.mk_state S (mqtt_client.stores S h')
             (mqtt_client.logged S h' ++ [mqtt_client.LogInfo line]))
      | Raise e => (Raise e, h')
      end.
Proof.
  unfold mqtt_client.on_event.
  match goal with
  | |- exists h', mqtt_client.hbind S ?block _ h = _ =>
      assert (Hblock : exists h', block h = (Ok tt, h'))
  end.
  { destruct (mqtt_client._device_store S self) as [resolver|];
      [|eexists; reflexivity].
    unfold mqtt_client.hbind at 1.
    assert (Hres : exists dr h1,
              mqtt_client.htry S (mqtt_client.call S (resolver event))
                (fun e => mqtt_client.hbind S
                            (mqtt_client.log S
                               (mqtt_client.LogException
                                  "Device upsert failed" e))
                            (fun _ => mqtt_client.hret S None)) h
              = (Ok dr, h1)).
    { unfold mqtt_client.htry, mqtt_client.call.
      destruct (resolver event (mqtt_client.stores S h)) as [[dr|e] s];
        eexists; eexists; reflexivity. }
    destruct Hres as (dr & h1 & ->). cbv beta iota.
    destruct (guarded_call_returns "status" "Device status upsert failed"
                dr (mqtt_client._device_status_store S self) event h1)
      as [h2 H2].
    rewrite (hbind_returns _ _ _ _ _ H2).
    destruct (guarded_call_returns "status" "Device OS status upsert failed"
                dr (mqtt_client._device_os_status_store S self) event h2)
      as [h3 H3].
    rewrite (hbind_returns _ _ _ _ _ H3).
    destruct (guarded_call_returns "storage" "Device storage upsert failed"
                dr (mqtt_client._device_storage_status_store S self) event h3)
      as [h4 H4].
    rewrite (hbind_returns _ _ _ _ _ H4).
    apply guarded_call_returns. }
  destruct Hblock as [h' Hblock].
  exists h'. unfold mqtt_client.hbind at 1. rewrite Hblock.
  unfold mqtt_client.hbind, mqtt_client.hlift, mqtt_client.log.
  destruct (to_log_line event); reflexivity.
Qed.

(** The log line of the storage event with the 401-digit [used_pct]
    cannot be formatted. *)
Lemma to_log_line_huge_storage :
  to_log_line Examples.event_huge_storage = Raise OverflowError.
Proof.
  unfold to_log_line. cbn [ts_iso ts_ms Examples.event_huge_storage bind].
  vm_compute. reflexivity.
Qed.

(** The Storage Store raises on that event: a store failure, which the
    handler catches. *)
Lemma storage_store_huge_raises (d : Z) (w : world) :
  fst (device_storage_status_store.ensure_from_event
         Examples.event_huge_storage d w) = Raise OverflowError.
Proof.
  unfold device_storage_status_store.ensure_from_event.
  cbn [negb subtype Examples.event_huge_storage payload].
  vm_compute. reflexivity.
Qed.

(** And the handler raises on it, whatever its stores are and do. *)
Lemma on_event_huge_storage_raises (self : mqtt_client.MQTTConnector S)
    (h : mqtt_client.handler_state S) :
  fst (mqtt_client.on_event S self Examples.event_huge_storage h)
  = Raise OverflowError.
Proof.
  destruct (on_event_outcome self Examples.event_huge_storage h) as [h' ->].
  now rewrite to_log_line_huge_storage.
Qed.
End HandlerClaims.

(** C1, at the failing message, end to end.  The storage message whose
    [used_pct] is a 401-digit integer is decoded to an event; the
    Storage Store raises [OverflowError] on it, which the handler
    catches and logs; the handler then raises [OverflowError] itself
    while it formats the final log line, for every connector, so it
    does not return normally. *)
Theorem on_message_huge_storage_raises :
  build_event (rt := Examples.example_runtime) Examples.storage_topic
    (Examples.to_bytes Examples.text_huge_storage) (Some 0) (Some false)
  = Ok (Some Examples.event_huge_storage)
  /\ (forall (rt : Runtime) (d : Z) (w : world),
         fst (device_storage_status_store.ensure_from_event
                Examples.event_huge_storage d w) = Raise OverflowError)
  /\ (forall (rt : Runtime) (S : Type) (self : mqtt_client.MQTTConnector S)
             (h : mqtt_client.handler_state S),
         fst (mqtt_client.on_event S self Examples.event_huge_storage h)
         = Raise OverflowError)
  /\ mqtt_client._on_message (rt := Examples.example_runtime) world
       Examples.connector Examples.msg_huge_storage Examples.start
     = (Raise OverflowError,
        mqtt_client.mk_state world Examples.empty_world
          [mqtt_client.LogException "Device storage upsert failed"
             OverflowError]).
Proof.
  split; [vm_compute; reflexivity|].
  split; [intros rt d w; apply storage_store_huge_raises|].
  split; [intros rt S self h; apply on_event_huge_storage_raises|].
  vm_compute. reflexivity.
Qed.

(** Store isolation on an example: the Status Store fails (its database
    is down), the exception is logged, and the OS-Version Store still
    records the version carried by the same event. *)
Example status_failure_does_not_stop_os_store :
  let '(r, h) := mqtt_client.on_event (rt := Examples.example_runtime) world
                   Examples.connector_status_down
                   Examples.event_status_offline Examples.start in
  r = Ok tt
  /\ mqtt_client.logged world h
     = [mqtt_client.LogException "Device status upsert failed"
          (RuntimeError "connection lost");
        mqtt_client.LogInfo
          (LineStatus (Some (mk_datetime 1700000000000000))
             (Some (u "offline")) (Some (u "Windows 11 Pro")))]
  /\ map Db.os_version
       (rows (device_os_status (mqtt_client.stores world h)))
     = [u "Windows 11 Pro"].
Proof. vm_compute. repeat split; reflexivity. Qed.

Lemma on_event_attempts_every_store_witness :
  mqtt_client._device_store world Examples.connector_status_down
  = Some Examples.resolver
  /\ Examples.resolver Examples.event_status_offline
       (mqtt_client.stores world Examples.start)
     = (Ok (Some {| device_store.device_id := 1;
                    device_store.created := false |}),
        Examples.empty_world)
  /\ mqtt_client.on_event (rt := Examples.example_runtime) world
       Examples.connector_status_down Examples.event_status_offline
       Examples.start
     = let h' := attempt_signal_stores Examples.connector_status_down
                   Examples.event_status_offline 1
                   (mqtt_client.mk_state world Examples.empty_world []) in
       match to_log_line (rt := Examples.example_runtime)
               Examples.event_status_offline with
       | Ok line =>
           (Ok tt,
            mqtt_client.mk_state world (mqtt_client.stores world h')
              (mqtt_client.logged world h' ++ [mqtt_client.LogInfo line]))
       | Raise e => (Raise e, h')
       end.
Proof.
  split; [reflexivity|]. split; [reflexivity|].
  exact (on_event_attempts_every_store (rt := Examples.example_runtime)
           Examples.connector_status_down Examples.event_status_offline
           Examples.start Examples.resolver
           {| device_store.device_id := 1; device_store.created := false |}
           Examples.empty_world eq_refl eq_refl).
Defined.

(* ------------------------------------------------------------------ *)
(** * Worked examples and counterexamples *)

(** The claim of C2 as it is stated fails on a row that is already
    offline: the device went offline at [t0 = 5]; two more offline
    events at [t1 = 10] and [t2 = 20] leave [offline_since] at [t0], not
    at [t1]. *)
Lemma already_offline_counterexample :
  let w0 :=
    apply_status 7 (offline_at 0 (mk_datetime 5)) Examples.empty_world in
  offline_since_of 7 w0 = Some (Some (mk_datetime 5))
  /\ offline_since_of 7
       (apply_statuses 7 [offline_at 0 (mk_datetime 10);
                          offline_at 0 (mk_datetime 20)] w0)
     = Some (Some (mk_datetime 5))
  /\ offline_since_of 7
       (apply_statuses 7 [offline_at 0 (mk_datetime 10);
                          offline_at 0 (mk_datetime 20)] w0)
     <> Some (Some (mk_datetime 10)).
Proof. vm_compute. repeat split; try reflexivity. discriminate. Qed.


Lemma sticky_offline_since_witness :
  offline_since_of 7 Examples.empty_world = None
  /\ offline_since_of 7
       (apply_statuses 7 [offline_at 0 (mk_datetime 10);
                          offline_at 0 (mk_datetime 20)] Examples.empty_world)
     = Some (Some (mk_datetime 10))
  /\ offline_since_of 7
       (apply_statuses 7 [offline_at 0 (mk_datetime 10);
                          online_at 0 (mk_datetime 20)] Examples.empty_world)
     = Some None.
Proof.
  split; [reflexivity|].
  pose proof (sticky_offline_since 7 Examples.empty_world 0 0
                (mk_datetime 10) (mk_datetime 20)) as (_ & Hfirst & Honline).
  split; [exact (proj2 (Hfirst (or_introl eq_refl)))|exact Honline].
Defined.

Lemma status_row_invariant_witness :
  Forall row_invariant (rows (device_status Examples.empty_world))
  /\ Forall row_invariant
       (rows (device_status
                (apply_statuses 7 [offline_at 0 (mk_datetime 10);
                                   online_at 1 (mk_datetime 20);
                                   offline_at 2 (mk_datetime 30)]
                   Examples.empty_world))).
Proof.
  split; [constructor|].
  exact (proj1 (status_row_invariant 7
                  [offline_at 0 (mk_datetime 10);
                   online_at 1 (mk_datetime 20);
                   offline_at 2 (mk_datetime 30)]
                  Examples.empty_world (Forall_nil _))).
Defined.


Lemma build_event_bad_body_witness :
  (5 <= List.length (segments Examples.status_topic))%nat
  /\ body_without_object (rt := Examples.example_runtime)
       (Examples.to_bytes Examples.text_list)
  /\ exists event,
      build_event (rt := Examples.example_runtime) Examples.status_topic
        (Examples.to_bytes Examples.text_list) None None = Ok (Some event)
      /\ payload event = None
      /\ serial_number event = None /\ ts_ms event = None.
Proof.
  assert (Hlen : (5 <= List.length (segments Examples.status_topic))%nat)
    by (vm_compute; lia).
  assert (Hbody : body_without_object (rt := Examples.example_runtime)
                    (Examples.to_bytes Examples.text_list)).
  { right; right. exists (JList [JInt 1; JInt 2]).
    split; vm_compute; reflexivity. }
  split; [exact Hlen|]. split; [exact Hbody|].
  exact (proj2 (build_event_bad_body (rt := Examples.example_runtime)
                  Examples.status_topic
                  (Examples.to_bytes Examples.text_list) None None)
           Hlen Hbody).
Defined.

(** The claim of C9 as it is stated fails for [null]: the payload
    [{"serial_number": null}] is an object with a scalar
    [serial_number], and the decoded event has no serial number at all,
    neither ["None"] nor ["null"]. *)
Lemma null_serial_number_counterexample :
  exists event,
    build_event (rt := Examples.example_runtime) Examples.status_topic
      (Examples.to_bytes Examples.text_null_serial) None None
    = Ok (Some event)
    /\ payload event = Some [(u "serial_number", JNull)]
    /\ is_scalar (dict_get (u "serial_number") [(u "serial_number", JNull)])
       = true
    /\ serial_number event = None
    /\ serial_number event <> Some (u "None")
    /\ serial_number event <> Some (u "null").
Proof.
  eexists. split; [vm_compute; reflexivity|]. simpl.
  repeat split; try reflexivity; discriminate.
Qed.

Lemma build_event_serial_number_witness :
  let event :=
    {| prefix := u "iot"; customer := u "acme"; location := u "plant1";
       machine := u "line3"; subtype := u "status";
       serial_number := Some (u "12345"); ts_ms := None;
       qos := None; retain := None;
       payload := Some [(u "serial_number", JInt 12345)] |} in
  build_event (rt := Examples.example_runtime) Examples.status_topic
    (Examples.to_bytes Examples.text_int_serial) None None
  = Ok (Some event)
  /\ payload event = Some [(u "serial_number", JInt 12345)]
  /\ is_scalar (dict_get (u "serial_number")
                  [(u "serial_number", JInt 12345)]) = true
  /\ serial_number event = Some (u "12345").
Proof.
  intros event.
  assert (Hbuild : build_event (rt := Examples.example_runtime)
                     Examples.status_topic
                     (Examples.to_bytes Examples.text_int_serial) None None
                   = Ok (Some event)) by (vm_compute; reflexivity).
  split; [exact Hbuild|]. split; [reflexivity|]. split; [reflexivity|].
  exact (build_event_serial_number (rt := Examples.example_runtime)
           Examples.status_topic
           (Examples.to_bytes Examples.text_int_serial) None None event
           [(u "serial_number", JInt 12345)] Hbuild eq_refl eq_refl).
Defined.

Lemma normalize_drive_letter_witness :
  device_storage_status_store._normalize_drive
    (rt := Examples.example_runtime) (JStr (u " d:\ ")) = Some (u "D")
  /\ exists c, u "D" = [c] /\ (65 <= c <= 90)%N.
Proof.
  assert (Hd : device_storage_status_store._normalize_drive
                 (rt := Examples.example_runtime) (JStr (u " d:\ "))
               = Some (u "D")) by reflexivity.
  split; [exact Hd|].
  destruct (normalize_drive_letter (rt := Examples.example_runtime))
    as (_ & _ & _ & _ & _ & Hrange & _).
  exact (Hrange _ _ Hd).
Defined.

(** A [device_os_version] that is not a string is not missing: it is
    written in its string form. *)
Example numeric_os_version_is_written :
  let event :=
    {| prefix := u "iot"; customer := u "acme"; location := u "plant1";
       machine := u "line3"; subtype := u "status";
       serial_number := Some (u "SN1"); ts_ms := None;
       qos := Some 0; retain := Some false;
       payload := Some [(u "serial_number", JStr (u "SN1"));
                        (u "device_os_version", JInt 11)] |} in
  map Db.os_version
    (rows (device_os_status
             (snd (device_os_status_store.ensure_from_event
                     (rt := Examples.example_runtime) event 1
                     Examples.empty_world))))
  = [u "11"].
Proof. vm_compute. reflexivity. Qed.

(** The scenario of the specification: the first status event of a
    device, offline with [ts = 1700000000000], inserts a row whose
    [offline_since] is the datetime of that timestamp. *)
Example first_offline_event_scenario :
  let event :=
    {| prefix := u "iot"; customer := u "acme"; location := u "plant1";
       machine := u "line3"; subtype := u "status";
       serial_number := Some (u "SN1"); ts_ms := Some 1700000000000;
       qos := Some 0; retain := Some false;
       payload := Some [(u "serial_number", JStr (u "SN1"));
                        (u "ts", JInt 1700000000000);
                        (u "device_status", JStr (u "offline"))] |} in
  let w := snd (device_status_store.ensure_from_event
                  (rt := Examples.example_runtime) event 1
                  Examples.empty_world) in
  option_map st_status (status_row_of 1 w) = Some (u "offline")
  /\ offline_since_of 1 w = Some (Some (mk_datetime 1700000000000000)).
Proof. vm_compute. split; reflexivity. Qed.

(* ------------------------------------------------------------------ *)
(** * The invariant of the status table, from events *)

Section StatusEvents.
Context {rt : Runtime}.

Lemma _normalize_status_values (v : json) (status : pystr) :
  device_status_store._normalize_status v = Some status ->
  status = u "online" \/ status = u "offline".
Proof.
  assert (Hknown : forall s,
            device_status_store.known_status s = Some status ->
            status = u "online" \/ status = u "offline").
  { intros s. unfold device_status_store.known_status.
    destruct (pystr_eqb_spec s (u "online")) as [->|_]; simpl;
      [intros [= <-]; now left|].
    destruct (pystr_eqb_spec s (u "offline")) as [->|_]; simpl;
      [intros [= <-]; now right|discriminate]. }
  unfold device_status_store._normalize_status.
  destruct v; try discriminate; try apply Hknown;
    destruct (py_str _); try discriminate; apply Hknown.
Qed.

(** What the Status Store does with an event: nothing, or one
    [upsert_status] with [online] or [offline]. *)
Lemma status_store_event_step (event : IngestEvent) (d : Z) (w : world) :
  snd (device_status_store.ensure_from_event event d w) = w
  \/ exists op,
      (op_status op = u "online" \/ op_status op = u "offline")
      /\ snd (device_status_store.ensure_from_event event d w)
         = apply_status d op w.
Proof.
  unfold device_status_store.ensure_from_event.
  destruct (negb _); [now left|].
  destruct (payload event) as [p|]; [|now left].
  destruct (device_status_store._normalize_status _) as [status|] eqn:Hst;
    [|now left].
  unfold mbind.
  pose proof (_event_timestamp_world event w) as Hts.
  destruct (_event_timestamp event w) as [[[e t]|ex] w'];
    simpl in Hts; subst w'; [|now left].
  right.
  exists {| op_status := status; op_ts_epoch := e; op_ts_datetime := t |}.
  split; [exact (_normalize_status_values _ _ Hst)|].
  destruct (upsert_status_row d status e t w) as (res & row & Hup & _).
  rewrite Hup. reflexivity.
Qed.

(** Every sequence of status events, applied through the store's entry
    point with exceptions caught, keeps the invariant on the table. *)
Lemma status_events_keep_invariant (events : list IngestEvent) (d : Z)
    (w : world) :
  Forall row_invariant (rows (device_status w)) ->
  Forall row_invariant
    (rows (device_status
             (fold_left
                (fun w event =>
                   snd (device_status_store.ensure_from_event event d w))
                events w))).
Proof.
  revert w. induction events as [|event events IH]; intros w Hinv; simpl;
    [exact Hinv|].
  apply IH.
  destruct (status_store_event_step event d w) as [-> | (op & _ & ->)];
    [exact Hinv|now apply apply_status_table_invariant].
Qed.
End StatusEvents.

(* ------------------------------------------------------------------ *)
(** * Text helpers *)

Example split_ws_example :
  split_ws (u "  Microsoft   Windows 11  ")
  = [u "Microsoft"; u "Windows"; u "11"]
  /\ sub_runs (fun c => negb (grafana_export_dashboards.is_slug_char c))
       (u "_") (u "cpu -- load (5m)") = u "cpu_load_5m_".
Proof. split; reflexivity. Qed.

Section StripFacts.
Variable p : N -> bool.

Lemma lstrip_by_head (s : pystr) (c : N) :
  hd_error (lstrip_by p s) = Some c -> p c = false.
Proof.
  induction s as [|x s IH]; simpl; [discriminate|].
  destruct (p x) eqn:Hx; [exact IH|].
  simpl. now intros [= <-].
Qed.

Lemma lstrip_by_fixed (s : pystr) :
  (forall c, hd_error s = Some c -> p c = false) -> lstrip_by p s = s.
Proof.
  destruct s as [|x s]; simpl; [reflexivity|].
  intros H. now rewrite (H x eq_refl).
Qed.

Lemma rstrip_by_fixed (s : pystr) :
  (forall c, hd_error (rev s) = Some c -> p c = false) -> rstrip_by p s = s.
Proof.
  intros H. unfold rstrip_by. rewrite (lstrip_by_fixed _ H).
  apply rev_involutive.
Qed.

Lemma rstrip_by_last (s : pystr) (c : N) :
  hd_error (rev (rstrip_by p s)) = Some c -> p c = false.
Proof.
  unfold rstrip_by. rewrite rev_involutive. apply lstrip_by_head.
Qed.

(** What stripping leaves: a middle part of the string, whose first and
    last characters are not of the stripped class. *)
Lemma strip_by_middle (s : pystr) :
  exists pre suf,
    s = pre ++ strip_by p s ++ suf
    /\ (forall c, hd_error (strip_by p s) = Some c -> p c = false)
    /\ (forall c, hd_error (rev (strip_by p s)) = Some c -> p c = false).
Proof.
  unfold strip_by.
  destruct (lstrip_by_prefix p s) as (pre & Hs & _).
  destruct (rstrip_by_suffix p (lstrip_by p s)) as (suf & Hm & _).
  exists pre, suf. split; [now rewrite <- Hm|]. split.
  - intros c Hc. apply (lstrip_by_head s).
    rewrite Hm. destruct (rstrip_by p (lstrip_by p s)); [discriminate|exact Hc].
  - apply rstrip_by_last.
Qed.

Lemma strip_by_fixed (s : pystr) :
  (forall c, hd_error s = Some c -> p c = false) ->
  (forall c, hd_error (rev s) = Some c -> p c = false) ->
  strip_by p s = s.
Proof.
  intros Hhd Hlast. unfold strip_by.
  rewrite (lstrip_by_fixed _ Hhd). now apply rstrip_by_fixed.
Qed.
End StripFacts.

(* ------------------------------------------------------------------ *)
(** * grafana_export_dashboards.py: [_slugify] *)

Section SlugFacts.
Context {rt : Runtime}.

Lemma slug_char_not_underscore (c : N) :
  grafana_export_dashboards.is_slug_char c = true ->
  N.eqb c underscore = false.
Proof.
  unfold grafana_export_dashboards.is_slug_char, underscore.
  destruct (N.eqb_spec c 95) as [->|]; [discriminate|reflexivity].
Qed.

Lemma no_double_underscore_eq (a b : N) (s : pystr) :
  no_double_underscore (a :: b :: s)
  = negb (N.eqb a underscore && N.eqb b underscore)
    && no_double_underscore (b :: s).
Proof. reflexivity. Qed.

Lemma no_double_underscore_cons (c : N) (s : pystr) :
  no_double_underscore s = true ->
  (N.eqb c underscore = true -> hd_error s <> Some underscore) ->
  no_double_underscore (c :: s) = true.
Proof.
  intros Hs Hc. destruct s as [|b s]; [reflexivity|].
  rewrite no_double_underscore_eq, Hs, andb_true_r.
  destruct (N.eqb c underscore); [|reflexivity].
  destruct (N.eqb_spec b underscore) as [->|]; [|reflexivity].
  now destruct (Hc eq_refl).
Qed.

Lemma no_double_underscore_tail (c : N) (s : pystr) :
  no_double_underscore (c :: s) = true ->
  no_double_underscore s = true
  /\ (N.eqb c underscore = true -> hd_error s <> Some underscore).
Proof.
  destruct s as [|b s]; [split; [reflexivity|discriminate]|].
  rewrite no_double_underscore_eq. intros H.
  apply andb_true_iff in H as [Hcb Hs]. split; [exact Hs|].
  intros Hc [= ->]. rewrite Hc in Hcb. discriminate.
Qed.

(** The first substitution leaves [[a-z0-9_]] only, never two
    underscores side by side, and no underscore right after a run. *)
Lemma sub_runs_not_slug_shape (s : pystr) (in_run : bool) :
  let r := sub_runs_from
             (fun c => negb (grafana_export_dashboards.is_slug_char c))
             (u "_") in_run s in
  forallb slug_or_underscore r = true
  /\ no_double_underscore r = true
  /\ (in_run = true -> hd_error r <> Some underscore).
Proof.
  revert in_run. induction s as [|c s IH]; intros in_run.
  - repeat split; discriminate.
  - cbn [sub_runs_from]. cbv beta.
    destruct (grafana_export_dashboards.is_slug_char c) eqn:Hc; cbn [negb].
    + destruct (IH false) as (Hall & Hnd & _).
      pose proof (slug_char_not_underscore c Hc) as Hcu.
      cbv zeta. split; [|split].
      * cbn [forallb]. unfold slug_or_underscore at 1. now rewrite Hc, Hall.
      * apply no_double_underscore_cons; [exact Hnd|]. now rewrite Hcu.
      * intros _ [= ->]. discriminate.
    + destruct (IH true) as (Hall & Hnd & Hhd).
      destruct in_run; cbn [app]; cbv zeta.
      * repeat split; auto.
      * change (u "_" ++ ?x) with (underscore :: x).
        split; [|split]; [now cbn [forallb]; rewrite Hall| |discriminate].
        apply no_double_underscore_cons; [exact Hnd|]. intros _. now apply Hhd.
Qed.

(** A substitution of underscore runs, or of runs outside [[a-z0-9]],
    changes nothing in a string of [[a-z0-9_]] without two underscores
    side by side. *)
Lemma sub_runs_fixed (q : N -> bool) (s : pystr) (in_run : bool) :
  (forall c, slug_or_underscore c = true ->
             q c = N.eqb c underscore) ->
  forallb slug_or_underscore s = true ->
  no_double_underscore s = true ->
  (in_run = true -> hd_error s <> Some underscore) ->
  sub_runs_from q (u "_") in_run s = s.
Proof.
  intros Hq. revert in_run.
  induction s as [|c s IH]; intros in_run Hall Hnd Hhd;
    [reflexivity|].
  cbn [forallb] in Hall. apply andb_true_iff in Hall as [Hc Hall].
  apply no_double_underscore_tail in Hnd as [Hnd Hnext].
  cbn [sub_runs_from]. rewrite (Hq c Hc).
  destruct (N.eqb_spec c underscore) as [->|Hne].
  - destruct in_run; [now destruct (Hhd eq_refl)|].
    cbn [app]. change (u "_" ++ ?x) with (underscore :: x).
    f_equal. apply IH; auto.
  - f_equal. apply IH; auto; discriminate.
Qed.

Lemma forallb_middle {A} (f : A -> bool) (pre mid suf : list A) :
  forallb f (pre ++ mid ++ suf) = true -> forallb f mid = true.
Proof.
  rewrite !forallb_app. intros H.
  apply andb_true_iff in H as [_ H]. now apply andb_true_iff in H as [H _].
Qed.

Lemma no_double_underscore_middle (pre mid suf : pystr) :
  no_double_underscore (pre ++ mid ++ suf) = true ->
  no_double_underscore mid = true.
Proof.
  induction pre as [|c pre IH]; cbn [app].
  - revert suf. induction mid as [|a mid IHm]; intros suf H; [reflexivity|].
    cbn [app] in H. apply no_double_underscore_tail in H as [H Hnext].
    apply no_double_underscore_cons; [now apply (IHm suf)|].
    intros Ha Hhd. apply (Hnext Ha). destruct mid; [discriminate|exact Hhd].
  - intros H. apply no_double_underscore_tail in H as [H _]. now apply IH.
Qed.

Lemma slug_lower_fixed (s : pystr) :
  forallb slug_or_underscore s = true -> str_lower s = s.
Proof.
  unfold str_lower, PyStr.lower.
  induction s as [|c s IH]; [reflexivity|].
  cbn [forallb flat_map]. intros H. apply andb_true_iff in H as [Hc Hall].
  rewrite (IH Hall). clear IH Hall.
  assert (Hlow : lower_cp lower_other c = [c]); [|now rewrite Hlow].
  unfold slug_or_underscore, grafana_export_dashboards.is_slug_char,
    underscore in Hc.
  unfold lower_cp.
  destruct (N.ltb_spec c 128), (N.leb_spec 65 c), (N.leb_spec c 90);
    cbn [andb]; try reflexivity;
    destruct (N.leb_spec 97 c), (N.leb_spec c 122), (N.leb_spec 48 c),
      (N.leb_spec c 57), (N.eqb_spec c 95); cbn in Hc;
    try discriminate; lia.
Qed.

Lemma slug_end_not_space (c : N) :
  slug_or_underscore c = true -> c <> underscore -> is_space c = false.
Proof.
  unfold slug_or_underscore, grafana_export_dashboards.is_slug_char,
    underscore, is_space.
  intros Hc Hne.
  destruct (N.eqb_spec c 95); [contradiction|].
  rewrite orb_false_r in Hc.
  destruct (N.leb_spec 97 c), (N.leb_spec c 122), (N.leb_spec 48 c),
    (N.leb_spec c 57); cbn in Hc; try discriminate;
    repeat match goal with
           | |- context [(?a <=? ?b)%N] => destruct (N.leb_spec a b); try lia
           | |- context [(?a =? ?b)%N] => destruct (N.eqb_spec a b); try lia
           end; reflexivity.
Qed.

Lemma forallb_hd {A} (f : A -> bool) (s : list A) (c : A) :
  forallb f s = true -> hd_error s = Some c -> f c = true.
Proof.
  destruct s as [|x s]; [discriminate|]. cbn.
  intros H [= <-]. now apply andb_true_iff in H as [H _].
Qed.

Lemma forallb_rev {A} (f : A -> bool) (s : list A) :
  forallb f (rev s) = forallb f s.
Proof.
  induction s as [|x s IH]; [reflexivity|].
  cbn. rewrite forallb_app, IH. cbn. rewrite andb_true_r. apply andb_comm.
Qed.

(** A well-formed slug is a fixed point of [_slugify]. *)
Lemma slugify_fixed (s : pystr) :
  well_formed_slug s -> grafana_export_dashboards._slugify s = s.
Proof.
  intros (Hne & Hall & Hhd & Hlast & Hnd).
  unfold grafana_export_dashboards._slugify.
  assert (Hstrip : strip s = s).
  { apply strip_by_fixed; intros c Hc; apply slug_end_not_space.
    - exact (forallb_hd _ _ _ Hall Hc).
    - intros ->. contradiction.
    - apply (forallb_hd _ (rev s)); [now rewrite forallb_rev|exact Hc].
    - intros ->. contradiction. }
  rewrite Hstrip, (slug_lower_fixed _ Hall).
  unfold sub_runs.
  rewrite (sub_runs_fixed _ s false); auto; try discriminate.
  2:{ intros c Hc. unfold slug_or_underscore in Hc.
      destruct (grafana_export_dashboards.is_slug_char c) eqn:Hs; cbn.
      - symmetry. now apply slug_char_not_underscore.
      - cbn in Hc. now rewrite Hc. }
  rewrite (sub_runs_fixed _ s false); auto; try discriminate.
  2:{ intros c _. apply N.eqb_sym. }
  unfold strip_char. rewrite strip_by_fixed.
  - destruct s; [contradiction|reflexivity].
  - intros c Hc. destruct (N.eqb_spec underscore c) as [<-|]; [|reflexivity].
    contradiction.
  - intros c Hc. destruct (N.eqb_spec underscore c) as [<-|]; [|reflexivity].
    contradiction.
Qed.

(** X2.  [_slugify] always returns a well-formed slug: not empty, made
    of lower-case ASCII letters, digits and underscores, with no
    underscore at either end and no two underscores side by side. Its
    second substitution (of underscore runs) never changes anything; and
    slugging a slug gives it back. *)
Theorem slugify_well_formed (value : pystr) :
  well_formed_slug (grafana_export_dashboards._slugify value)
  /\ sub_runs (N.eqb underscore) (u "_")
       (sub_runs (fun c => negb (grafana_export_dashboards.is_slug_char c))
          (u "_") (str_lower (strip value)))
     = sub_runs (fun c => negb (grafana_export_dashboards.is_slug_char c))
         (u "_") (str_lower (strip value))
  /\ grafana_export_dashboards._slugify
       (grafana_export_dashboards._slugify value)
     = grafana_export_dashboards._slugify value.
Proof.
  assert (Hwf : well_formed_slug (grafana_export_dashboards._slugify value)).
  { unfold grafana_export_dashboards._slugify.
    set (t := sub_runs _ _ (str_lower (strip value))).
    destruct (sub_runs_not_slug_shape (str_lower (strip value)) false)
      as (Hall & Hnd & _).
    change (sub_runs_from _ (u "_") false _) with t in Hall, Hnd.
    assert (Hsecond : sub_runs (N.eqb underscore) (u "_") t = t).
    { apply sub_runs_fixed; auto; try discriminate.
      intros c _. apply N.eqb_sym. }
    rewrite Hsecond.
    destruct (strip_by_middle (N.eqb underscore) t)
      as (pre & suf & Ht & Hhd & Hlast).
    fold (strip_char underscore t) in Ht, Hhd, Hlast.
    destruct (strip_char underscore t) as [|c r] eqn:Hr; cbn [truthy].
    - repeat split; try reflexivity; discriminate.
    - rewrite Ht in Hall, Hnd.
      split; [discriminate|].
      split; [exact (forallb_middle _ _ _ _ Hall)|].
      split; [intros Hc; specialize (Hhd _ Hc); now rewrite N.eqb_refl in Hhd|].
      split; [intros Hc; specialize (Hlast _ Hc);
              now rewrite N.eqb_refl in Hlast|].
      exact (no_double_underscore_middle _ _ _ Hnd). }
  split; [exact Hwf|]. split.
  - destruct (sub_runs_not_slug_shape (str_lower (strip value)) false)
      as (Hall & Hnd & _).
    apply sub_runs_fixed; auto; try discriminate.
    intros c _. apply N.eqb_sym.
  - now apply slugify_fixed.
Qed.
End SlugFacts.

(* ------------------------------------------------------------------ *)
(** * ingest_models.py: the rendering helpers *)

Section SplitOnFacts.
Variable p : N -> bool.

Lemma split_on_not_nil (s : pystr) : split_on p s <> [].
Proof.
  destruct s as [|c s]; simpl; [discriminate|].
  destruct (p c); [discriminate|]. destruct (split_on p s); discriminate.
Qed.

(** No piece of a split holds a separator. *)
Lemma split_on_pieces (s : pystr) :
  Forall (Forall (fun c => p c = false)) (split_on p s).
Proof.
  induction s as [|c s IH]; simpl.
  - repeat constructor.
  - destruct (p c) eqn:Hc; [constructor; [constructor|exact IH]|].
    destruct (split_on p s) as [|w ws]; [repeat constructor; exact Hc|].
    inversion IH; subst. constructor; [constructor; assumption|assumption].
Qed.

(** A word without separator, then a separator: the word is the first
    piece. *)
Lemma split_on_word (w rest : pystr) (sep : N) :
  Forall (fun c => p c = false) w -> p sep = true ->
  split_on p (w ++ sep :: rest) = w :: split_on p rest.
Proof.
  intros Hw Hsep. induction Hw as [|c w Hc Hw IH]; simpl.
  - now rewrite Hsep.
  - now rewrite Hc, IH.
Qed.

Lemma split_on_single_word (w : pystr) :
  Forall (fun c => p c = false) w -> split_on p w = [w].
Proof.
  intros Hw. induction Hw as [|c w Hc Hw IH]; simpl; [reflexivity|].
  now rewrite Hc, IH.
Qed.
End SplitOnFacts.

Lemma split_ws_words (s : pystr) : Forall clean_word (split_ws s).
Proof.
  unfold split_ws. apply Forall_forall. intros w Hw.
  apply filter_In in Hw as [Hin Hne]. split.
  - intros ->. discriminate.
  - pose proof (split_on_pieces is_space s) as Hall.
    rewrite Forall_forall in Hall. now apply Hall.
Qed.

(** Joining clean words with one space and splitting again gives the
    words back. *)
Lemma split_ws_join (ws : list pystr) :
  Forall clean_word ws -> split_ws (join (u " ") ws) = ws.
Proof.
  induction 1 as [|w ws [Hne Hw] Hws IH]; [reflexivity|].
  unfold split_ws in *. destruct ws as [|w' ws].
  - cbn [join]. rewrite (split_on_single_word _ _ Hw). cbn.
    destruct w; [contradiction|reflexivity].
  - change (join (u " ") (w :: w' :: ws))
      with (w ++ space :: join (u " ") (w' :: ws)).
    rewrite (split_on_word is_space w _ space Hw eq_refl).
    cbn [filter]. rewrite IH. destruct w; [contradiction|reflexivity].
Qed.

Lemma join_spaces_plain (ws : list pystr) :
  Forall clean_word ws ->
  Forall (fun c => is_space c = true -> c = space) (join (u " ") ws).
Proof.
  induction 1 as [|w ws [_ Hw] Hws IH]; [constructor|].
  assert (Hplain : Forall (fun c => is_space c = true -> c = space) w).
  { eapply Forall_impl; [|exact Hw]. intros c Hc Hs. congruence. }
  destruct ws as [|w' ws]; [exact Hplain|].
  change (join (u " ") (w :: w' :: ws))
    with (w ++ space :: join (u " ") (w' :: ws)).
  apply Forall_app; split; [exact Hplain|]. constructor; [reflexivity|exact IH].
Qed.

Lemma _shorten_length (value : pystr) (max_len : Z) :
  Z.of_nat (List.length (ingest_format._shorten value max_len))
  <= Z.max 0 max_len.
Proof.
  unfold ingest_format._shorten.
  destruct (Z.leb_spec max_len 0); [simpl; lia|].
  destruct (Z.leb_spec (Z.of_nat (List.length value)) max_len); [lia|].
  destruct (Z.leb_spec max_len 1).
  - rewrite length_firstn. lia.
  - rewrite length_app, length_firstn. simpl. lia.
Qed.

Section FormatFacts.
Context {rt : Runtime}.

(** X3.  The fields of a log line are bounded. [_shorten] never returns
    more than [max_len] characters, returns its argument when it fits,
    and when it does not fit (and [max_len] is at least 2) returns
    exactly [max_len] characters, the last one being the ellipsis; so
    the OS name of a log line has at most 48 characters and the state at
    most 12. *)
Theorem log_fields_bounded (value : pystr) (max_len : Z) :
  Z.of_nat (List.length (ingest_format._shorten value max_len))
  <= Z.max 0 max_len
  /\ (0 < max_len -> Z.of_nat (List.length value) <= max_len ->
      ingest_format._shorten value max_len = value)
  /\ (2 <= max_len < Z.of_nat (List.length value) ->
      Z.of_nat (List.length (ingest_format._shorten value max_len)) = max_len
      /\ hd_error (rev (ingest_format._shorten value max_len))
         = Some ingest_format.ellipsis)
  /\ (List.length (ingest_format._short_os value) <= 48)%nat
  /\ (List.length (ingest_format._short_state (Some value)) <= 12)%nat
  /\ (List.length (ingest_format._short_state None) <= 12)%nat.
Proof.
  split; [apply _shorten_length|]. split; [|split].
  - intros Hpos Hfit. unfold ingest_format._shorten.
    destruct (Z.leb_spec max_len 0); [lia|].
    destruct (Z.leb_spec (Z.of_nat (List.length value)) max_len); [|lia].
    reflexivity.
  - intros [Hmin Hlong]. unfold ingest_format._shorten.
    destruct (Z.leb_spec max_len 0); [lia|].
    destruct (Z.leb_spec (Z.of_nat (List.length value)) max_len); [lia|].
    destruct (Z.leb_spec max_len 1); [lia|].
    split.
    + rewrite length_app, length_firstn. simpl. lia.
    + rewrite rev_app_distr. reflexivity.
  - split; [|split].
    + unfold ingest_format._short_os.
      match goal with
      | |- (List.length (ingest_format._shorten ?t 48) <= 48)%nat =>
          pose proof (_shorten_length t 48)
      end. lia.
    + unfold ingest_format._short_state.
      destruct (negb (truthy value)); [simpl; lia|].
      destruct (PyStr.eqb _ (u "online")); [simpl; lia|].
      destruct (PyStr.eqb _ (u "offline")); [simpl; lia|].
      match goal with
      | |- (List.length (ingest_format._shorten ?t 12) <= 12)%nat =>
          pose proof (_shorten_length t 12)
      end. lia.
    + simpl. lia.
Qed.

(** X4.  [_squash_ws] keeps the words of its argument and nothing else:
    splitting the result gives the same words, every whitespace
    character left is a plain space, and squashing twice is squashing
    once. *)
Theorem squash_ws_normal_form (value : pystr) :
  split_ws (ingest_format._squash_ws value) = split_ws value
  /\ Forall (fun c => is_space c = true -> c = space)
       (ingest_format._squash_ws value)
  /\ ingest_format._squash_ws (ingest_format._squash_ws value)
     = ingest_format._squash_ws value.
Proof.
  assert (Hsame : split_ws (ingest_format._squash_ws value) = split_ws value)
    by (apply split_ws_join, split_ws_words).
  split; [exact Hsame|]. split.
  - apply join_spaces_plain, split_ws_words.
  - unfold ingest_format._squash_ws at 1. now rewrite Hsame.
Qed.
End FormatFacts.

(* ------------------------------------------------------------------ *)
(** * device_store.py: the identity resolver *)

Lemma has_serial_eq (serial : pystr) (r : DeviceStore.device_row) :
  DeviceStore.has_serial serial r = true ->
  DeviceStore.dv_serial_number r = serial.
Proof. unfold DeviceStore.has_serial. apply pystr_eqb_eq. Qed.

Lemma event_serial_some (event : IngestEvent) (serial : pystr) :
  event_serial event = Some serial ->
  strip (match serial_number event with Some s => s | None => [] end) = serial
  /\ truthy serial = true.
Proof.
  unfold event_serial. destruct (serial_number event) as [s|]; [|discriminate].
  destruct (truthy (strip s)) eqn:Ht; [|discriminate].
  intros [= <-]. auto.
Qed.

Lemma event_serial_none (event : IngestEvent) :
  event_serial event = None ->
  truthy (strip (match serial_number event with
                 | Some s => s
                 | None => []
                 end)) = false.
Proof.
  unfold event_serial. destruct (serial_number event) as [s|]; [|reflexivity].
  now destruct (truthy (strip s)).
Qed.

(** An event without a usable serial number never reaches the
    connection, whatever the connection is. *)
Lemma ensure_from_event_no_serial (S : Type)
    (conn : DeviceStore.connection S) (event : IngestEvent) (s : S) :
  event_serial event = None ->
  DeviceStore.ensure_from_event S conn event s = (Ok None, s).
Proof.
  intros H. unfold DeviceStore.ensure_from_event.
  now rewrite (event_serial_none _ H).
Qed.

(** One [upsert_device] on the table: what it returns and the table it
    leaves. *)
Lemma upsert_device_sql (serial customer location machine_name : pystr)
    (t : DeviceStore.devices) :
  DeviceStore.upsert_device _ DeviceStore.sql serial customer location
    machine_name t
  = match device_row_of serial t with
    | Some row =>
        (Ok {| device_store.device_id := DeviceStore.dv_id row;
               device_store.created := false |},
         update (fun r => DeviceStore.dv_id r =? DeviceStore.dv_id row)
           (fun r => {| DeviceStore.dv_id := DeviceStore.dv_id r;
                        DeviceStore.dv_serial_number :=
                          DeviceStore.dv_serial_number r;
                        DeviceStore.dv_customer := customer;
                        DeviceStore.dv_location := location;
                        DeviceStore.dv_machine_name := machine_name |}) t)
    | None =>
        (Ok {| device_store.device_id := next_id t;
               device_store.created := true |},
         mk_table
           (rows t ++ [{| DeviceStore.dv_id := next_id t;
                          DeviceStore.dv_serial_number := serial;
                          DeviceStore.dv_customer := customer;
                          DeviceStore.dv_location := location;
                          DeviceStore.dv_machine_name := machine_name |}])
           (next_id t + 1))
    end.
Proof.
  unfold DeviceStore.upsert_device, DeviceStore.obind, device_row_of; simpl.
  destruct (select_one (DeviceStore.has_serial serial) t) as [row|] eqn:Hsel.
  - reflexivity.
  - unfold DeviceStore.sql_insert. now rewrite Hsel.
Qed.

(** After an [upsert_device] the serial number has a row, which carries
    the identity returned and the metadata given. *)
Lemma upsert_device_row (serial customer location machine_name : pystr)
    (t : DeviceStore.devices) :
  exists r t',
    DeviceStore.upsert_device _ DeviceStore.sql serial customer location
      machine_name t = (Ok r, t')
    /\ device_row_of serial t'
       = Some {| DeviceStore.dv_id := device_store.device_id r;
                 DeviceStore.dv_serial_number := serial;
                 DeviceStore.dv_customer := customer;
                 DeviceStore.dv_location := location;
                 DeviceStore.dv_machine_name := machine_name |}
    /\ device_store.created r
       = match device_row_of serial t with None => true | Some _ => false end
    /\ (forall row, device_row_of serial t = Some row ->
                    device_store.device_id r = DeviceStore.dv_id row
                    /\ List.length (rows t') = List.length (rows t)).
Proof.
  rewrite upsert_device_sql. unfold device_row_of, select_one.
  destruct (find (DeviceStore.has_serial serial) (rows t)) as [row|] eqn:Hsel.
  - eexists; eexists; split; [reflexivity|]. simpl.
    rewrite find_map_keeping
      by (intros r; destruct (DeviceStore.dv_id r =? DeviceStore.dv_id row);
          reflexivity).
    rewrite Hsel; simpl. rewrite Z.eqb_refl.
    apply find_some in Hsel as [_ Hserial].
    rewrite (has_serial_eq _ _ Hserial).
    repeat split; auto; [congruence|apply length_map].
  - eexists; eexists; split; [reflexivity|]. simpl.
    rewrite (find_snoc_fresh _ _ _ Hsel)
      by (unfold DeviceStore.has_serial; simpl; apply pystr_eqb_refl).
    repeat split; auto; discriminate.
Qed.

Lemma ensure_from_event_sql (event : IngestEvent) (serial : pystr)
    (t : DeviceStore.devices) :
  event_serial event = Some serial ->
  DeviceStore.ensure_from_event _ DeviceStore.sql event t
  = let '(r, t') :=
      DeviceStore.upsert_device _ DeviceStore.sql serial
        (strip (customer event)) (strip (location event))
        (strip (machine event)) t in
    (match r with Ok r => Ok (Some r) | Raise e => Raise e end, t').
Proof.
  intros H. apply event_serial_some in H as [Hs Ht].
  unfold DeviceStore.ensure_from_event. rewrite Hs, Ht. cbn [negb].
  unfold DeviceStore.obind at 1.
  destruct (DeviceStore.upsert_device _ _ _ _ _ _ t) as [[r|e] t']; reflexivity.
Qed.

(** X5.  Resolver idempotence. Two events with the same serial number,
    one after the other: both resolve, to the same identity; the second
    never creates it, the first creates it exactly when the serial
    number had no row; the second call adds no row, and the row then
    carries the metadata of the second event, trimmed. *)
Theorem resolver_idempotent (event1 event2 : IngestEvent) (serial : pystr)
    (t : DeviceStore.devices) :
  event_serial event1 = Some serial ->
  event_serial event2 = Some serial ->
  exists r1 r2 t1 t2,
    DeviceStore.ensure_from_event _ DeviceStore.sql event1 t
    = (Ok (Some r1), t1)
    /\ DeviceStore.ensure_from_event _ DeviceStore.sql event2 t1
       = (Ok (Some r2), t2)
    /\ device_store.device_id r2 = device_store.device_id r1
    /\ device_store.created r2 = false
    /\ device_store.created r1
       = match device_row_of serial t with None => true | Some _ => false end
    /\ List.length (rows t2) = List.length (rows t1)
    /\ device_row_of serial t2
       = Some {| DeviceStore.dv_id := device_store.device_id r1;
                 DeviceStore.dv_serial_number := serial;
                 DeviceStore.dv_customer := strip (customer event2);
                 DeviceStore.dv_location := strip (location event2);
                 DeviceStore.dv_machine_name := strip (machine event2) |}.
Proof.
  intros H1 H2.
  rewrite (ensure_from_event_sql event1 serial t H1).
  destruct (upsert_device_row serial (strip (customer event1))
              (strip (location event1)) (strip (machine event1)) t)
    as (r1 & t1 & -> & Hrow1 & Hcreated1 & _).
  exists r1.
  destruct (upsert_device_row serial (strip (customer event2))
              (strip (location event2)) (strip (machine event2)) t1)
    as (r2 & t2 & Hup2 & Hrow2 & Hcreated2 & Hfound2).
  exists r2, t1, t2.
  rewrite (ensure_from_event_sql event2 serial t1 H2), Hup2.
  destruct (Hfound2 _ Hrow1) as [Hid Hlen]. simpl in Hid.
  rewrite Hrow1 in Hcreated2. rewrite Hrow2, Hid.
  repeat split; auto.
Qed.

Section KeyFacts.
Context {R K : Type}.
Variable key : R -> K.

Lemma NoDup_snoc {A} (l : list A) (x : A) :
  NoDup l -> ~ In x l -> NoDup (l ++ [x]).
Proof.
  intros Hl Hx. rewrite <- (rev_involutive (l ++ [x])).
  apply NoDup_rev. rewrite rev_app_distr. simpl.
  constructor; [now rewrite <- in_rev|now apply NoDup_rev].
Qed.

(** With unique keys, at most one row answers to a key. *)
Lemma unique_key_one_row (p : R -> bool) (k : K) (l : list R) :
  NoDup (map key l) ->
  (forall r, p r = true -> key r = k) ->
  (List.length (filter p l) <= 1)%nat.
Proof.
  intros Hnd Hp. induction l as [|r l IH]; simpl; [lia|].
  inversion Hnd as [|? ? Hnotin Hnd']; subst.
  destruct (p r) eqn:Hr; [|auto].
  assert (Hnone : filter p l = []).
  { destruct (filter p l) as [|r' rest] eqn:Hf; [reflexivity|].
    assert (Hin : In r' (filter p l)) by (rewrite Hf; now left).
    apply filter_In in Hin as [Hin Hr'].
    destruct Hnotin. rewrite (Hp r Hr), <- (Hp r' Hr'). now apply in_map. }
  rewrite Hnone. simpl. lia.
Qed.

Lemma map_unchanged (g : R -> R) (l : list R) :
  (forall r, In r l -> g r = r) -> map g l = l.
Proof.
  intros H. induction l as [|r l IH]; simpl; [reflexivity|].
  rewrite H by now left. f_equal. apply IH. intros r' Hr'. apply H. now right.
Qed.
End KeyFacts.

Lemma devices_well_formed_step (serial customer location machine_name : pystr)
    (t : DeviceStore.devices) :
  devices_well_formed t ->
  devices_well_formed
    (snd (DeviceStore.upsert_device _ DeviceStore.sql serial customer
            location machine_name t)).
Proof.
  intros [Hnd Hids]. rewrite upsert_device_sql.
  unfold device_row_of, select_one.
  destruct (find (DeviceStore.has_serial serial) (rows t)) as [row|] eqn:Hsel;
    cbn [snd]; split; cbn [rows next_id update].
  - rewrite map_map.
    erewrite map_ext; [exact Hnd|].
    intros r. now destruct (DeviceStore.dv_id r =? DeviceStore.dv_id row).
  - apply Forall_forall. intros r Hr.
    apply in_map_iff in Hr as (r0 & <- & Hr0).
    rewrite Forall_forall in Hids. specialize (Hids _ Hr0).
    now destruct (DeviceStore.dv_id r0 =? DeviceStore.dv_id row).
  - rewrite map_app. apply NoDup_snoc; [exact Hnd|].
    intros Hin. apply in_map_iff in Hin as (r & Hr & Hin).
    apply (find_none _ _ Hsel) in Hin.
    unfold DeviceStore.has_serial in Hin. rewrite Hr, pystr_eqb_refl in Hin.
    discriminate.
  - apply Forall_app; split.
    + eapply Forall_impl; [|exact Hids]. intros r Hr. simpl in Hr. lia.
    + constructor; [simpl; lia|constructor].
Qed.

Lemma devices_well_formed_event (event : IngestEvent)
    (t : DeviceStore.devices) :
  devices_well_formed t ->
  devices_well_formed
    (snd (DeviceStore.ensure_from_event _ DeviceStore.sql event t)).
Proof.
  intros Hwf. destruct (event_serial event) as [serial|] eqn:Hs.
  - rewrite (ensure_from_event_sql event serial t Hs).
    pose proof (devices_well_formed_step serial (strip (customer event))
                  (strip (location event)) (strip (machine event)) t Hwf)
      as Hstep.
    now destruct (DeviceStore.upsert_device _ _ _ _ _ _ t) as [r t'].
  - now rewrite ensure_from_event_no_serial.
Qed.

(** X6.  One identity per serial number. From a table whose serial
    numbers are unique (the empty one, say), every sequence of events
    leaves the serial numbers unique: no serial number ever has two
    rows. *)
Theorem resolver_one_row_per_serial (events : list IngestEvent)
    (t : DeviceStore.devices) :
  devices_well_formed t ->
  let t' :=
    fold_left
      (fun t event =>
         snd (DeviceStore.ensure_from_event _ DeviceStore.sql event t))
      events t in
  devices_well_formed t'
  /\ forall serial,
      (List.length (filter (DeviceStore.has_serial serial) (rows t')) <= 1)%nat.
Proof.
  intros Hwf t'.
  assert (Hwf' : devices_well_formed t').
  { subst t'. revert t Hwf.
    induction events as [|event events IH]; intros t Hwf; simpl; [exact Hwf|].
    apply IH. now apply devices_well_formed_event. }
  split; [exact Hwf'|]. intros serial.
  apply (unique_key_one_row DeviceStore.dv_serial_number _ serial);
    [exact (proj1 Hwf')|].
  intros r. apply has_serial_eq.
Qed.

(** X7.  The identity race. Another writer inserts the same serial
    number between the lookup of the store and its insert: the insert of
    the store is refused, the store reads the row of the other writer,
    returns its identity with [created = false] and writes its own
    metadata on it. The table ends with exactly one row more, the only
    row of that serial number. *)
Theorem resolver_recovers_from_race
    (serial customer location machine_name : pystr)
    (customer' location' machine_name' : pystr) (t : DeviceStore.devices) :
  devices_well_formed t ->
  device_row_of serial t = None ->
  DeviceStore.upsert_device _
    (DeviceStore.racing
       (fun t => snd (DeviceStore.sql_insert serial customer' location'
                        machine_name' t)))
    serial customer location machine_name t
  = (Ok {| device_store.device_id := next_id t;
           device_store.created := false |},
     mk_table
       (rows t ++ [{| DeviceStore.dv_id := next_id t;
                      DeviceStore.dv_serial_number := serial;
                      DeviceStore.dv_customer := customer;
                      DeviceStore.dv_location := location;
                      DeviceStore.dv_machine_name := machine_name |}])
       (next_id t + 1)).
Proof.
  intros [_ Hids] Hnone. unfold device_row_of, select_one in Hnone.
  unfold DeviceStore.upsert_device, DeviceStore.obind; simpl.
  unfold select_one at 1. rewrite Hnone.
  unfold DeviceStore.sql_insert at 2. unfold select_one at 1. rewrite Hnone.
  cbn [insert snd].
  unfold DeviceStore.sql_insert, select_one; cbn [rows].
  rewrite (find_snoc_fresh _ _ _ Hnone)
    by (unfold DeviceStore.has_serial; simpl; apply pystr_eqb_refl).
  unfold DeviceStore.update_found, DeviceStore.obind; simpl.
  rewrite (find_snoc_fresh _ _ _ Hnone)
    by (unfold DeviceStore.has_serial; simpl; apply pystr_eqb_refl).
  simpl. unfold update; cbn [rows next_id].
  rewrite map_app; simpl. rewrite Z.eqb_refl.
  rewrite map_unchanged; [reflexivity|].
  intros r Hr. rewrite Forall_forall in Hids. specialize (Hids _ Hr).
  destruct (Z.eqb_spec (DeviceStore.dv_id r) (next_id t)); [lia|reflexivity].
Qed.

(* ------------------------------------------------------------------ *)
(** * Each signal store writes its own table *)

Lemma unchanged_except_refl (tb : signal_table) (w : world) :
  unchanged_except tb w w.
Proof. repeat split. Qed.

Lemma unchanged_except_trans (tb : signal_table) (w1 w2 w3 : world) :
  unchanged_except tb w1 w2 -> unchanged_except tb w2 w3 ->
  unchanged_except tb w1 w3.
Proof.
  intros (A1 & B1 & C1 & D1 & E1) (A2 & B2 & C2 & D2 & E2).
  split; [|split; [|split; [|split]]]; intros.
  - now rewrite A2, A1.
  - now rewrite B2, B1.
  - now rewrite C2, C1.
  - now rewrite D2, D1.
  - now rewrite E2, E1.
Qed.

Lemma mbind_lift {A B} (r : result A) (k : A -> M B) (w : world) :
  mbind (lift r) k w
  = match r with
    | Ok a => k a w
    | Raise e => (Raise e, w)
    end.
Proof. unfold mbind, lift. now destruct r. Qed.

Section OwnTable.
Context {rt : Runtime}.

Lemma _event_timestamp_cases (event : IngestEvent) (w : world) :
  (exists time, _event_timestamp event w = (Ok time, w))
  \/ (exists e, _event_timestamp event w = (Raise e, w)).
Proof.
  pose proof (_event_timestamp_world event w) as H.
  destruct (_event_timestamp event w) as [[time|e] w']; simpl in H; subst w';
    eauto.
Qed.

Lemma upsert_drive_own_table (d : Z) (drive : pystr)
    (drive_type fmt : option pystr) (a b c e : option float) (ts : Z)
    (dt : datetime) (w : world) :
  exists r w',
    device_storage_status_store.upsert_drive d drive drive_type fmt a b c e
      ts dt w = (Ok r, w')
    /\ unchanged_except StorageTable w w'.
Proof.
  unfold device_storage_status_store.upsert_drive, mbind,
    device_storage_status_store._select_by_device_and_drive; simpl.
  destruct (select_one _ _); simpl; eexists; eexists;
    (split; [reflexivity|repeat split; intros; try reflexivity; congruence]).
Qed.

Lemma upsert_drives_own_table (d ts : Z) (dt : datetime) (items : dict)
    (upserts : Z) (w : world) :
  unchanged_except StorageTable w
    (snd (device_storage_status_store.upsert_drives d ts dt items upserts w)).
Proof.
  revert upserts w. induction items as [|[drive info] items IH];
    intros upserts w; [apply unchanged_except_refl|].
  cbn [device_storage_status_store.upsert_drives].
  destruct (device_storage_status_store._normalize_drive (JStr drive))
    as [drive_name|]; [|apply IH].
  destruct (as_mapping info) as [info_map|]; [|apply IH].
  cbv zeta.
  repeat (rewrite mbind_lift;
          match goal with
          | |- context [match ?r with Ok _ => _ | Raise _ => _ end] =>
              destruct r; [|apply unchanged_except_refl]
          end).
  unfold mbind at 1.
  match goal with
  | |- context [device_storage_status_store.upsert_drive ?d ?n ?x ?y ?a ?b ?c
                  ?e ?ts ?dt w] =>
      destruct (upsert_drive_own_table d n x y a b c e ts dt w)
        as (r & w' & -> & Hown)
  end.
  eapply unchanged_except_trans; [exact Hown|apply IH].
Qed.

(** Table ownership.  Whatever the event, and whether it returns or
    raises, each signal store leaves the tables of the three others and
    the clock as they were. *)
Lemma signal_stores_own_tables (event : IngestEvent) (d : Z)
    (w : world) :
  unchanged_except StatusTable w
    (snd (device_status_store.ensure_from_event event d w))
  /\ unchanged_except OsTable w
       (snd (device_os_status_store.ensure_from_event event d w))
  /\ unchanged_except StorageTable w
       (snd (device_storage_status_store.ensure_from_event event d w))
  /\ unchanged_except StatisticsTable w
       (snd (device_statistics_store.insert_from_event event d w)).
Proof.
  split; [|split; [|split]].
  - destruct (status_store_frame event d w) as [t ->].
    repeat split; intros; try reflexivity; congruence.
  - destruct (os_store_frame event d w) as [t ->].
    repeat split; intros; try reflexivity; congruence.
  - unfold device_storage_status_store.ensure_from_event.
    destruct (negb _); [apply unchanged_except_refl|].
    destruct (payload event) as [p|]; [|apply unchanged_except_refl].
    destruct (as_mapping _) as [storage_map|]; [|apply unchanged_except_refl].
    unfold mbind at 1.
    destruct (_event_timestamp_cases event w) as [[[e t] ->]|[ex ->]];
      [|apply unchanged_except_refl].
    apply upsert_drives_own_table.
  - unfold device_statistics_store.insert_from_event.
    destruct (negb _); [apply unchanged_except_refl|].
    destruct (payload event) as [p|]; [|apply unchanged_except_refl].
    destruct (as_mapping _) as [stats_map|]; [|apply unchanged_except_refl].
    cbv zeta. unfold mbind at 1.
    destruct (_event_timestamp_cases event w) as [[[e t] ->]|[ex ->]];
      [|apply unchanged_except_refl].
    rewrite !_safe_int_or_zero_value.
    unfold mbind, lift; simpl.
    repeat split; intros; try reflexivity; congruence.
Qed.
End OwnTable.

(* ------------------------------------------------------------------ *)
(** * The message handler, for every resolver outcome *)

Section HandlerRun.
Context {rt : Runtime} {S : Type}.

Lemma guarded_step {A} (wanted message : string)
    (device_result : option device_store.DeviceUpsertResult)
    (store : option (IngestEvent -> Z -> mqtt_client.store_op S A))
    (event : IngestEvent) (h0 : mqtt_client.handler_state S) :
  match device_result, store with
  | Some r, Some st =>
      if PyStr.eqb (subtype event) (u wanted)
      then mqtt_client.htry S
             (mqtt_client.hbind S
                (mqtt_client.call S (st event (device_store.device_id r)))
                (fun _ => mqtt_client.hret S tt))
             (fun e => mqtt_client.log S (mqtt_client.LogException message e))
      else mqtt_client.hret S tt
  | _, _ => mqtt_client.hret S tt
  end h0
  = (Ok tt,
     match device_result with
     | Some r =>
         attempt_if_applicable event (device_store.device_id r) wanted
           message store h0
     | None => h0
     end).
Proof.
  unfold attempt_if_applicable, applicable.
  destruct device_result as [r|]; [|reflexivity].
  destruct store as [st|];
    [|now destruct (PyStr.eqb (subtype event) (u wanted))].
  destruct (PyStr.eqb (subtype event) (u wanted)); [|reflexivity].
  apply guarded_call_attempt.
Qed.

(** The handler in three stages: the resolver (guarded), the signal
    stores when there is an identity, the log line. *)
Lemma on_event_run (self : mqtt_client.MQTTConnector S)
    (event : IngestEvent) (h : mqtt_client.handler_state S) :
  mqtt_client.on_event S self event h
  = let h' :=
      match fst (resolve_identity self event h) with
      | Some r =>
          attempt_signal_stores self event (device_store.device_id r)
            (snd (resolve_identity self event h))
      | None => snd (resolve_identity self event h)
      end in
    match to_log_line event with
    | Ok line =>
        (Ok tt,
         mqtt_client.mk_state S (mqtt_client.stores S h')
           (mqtt_client.logged S h' ++ [mqtt_client.LogInfo line]))
    | Raise e => (Raise e, h')
    end.
Proof.
  unfold mqtt_client.on_event, resolve_identity.
  destruct (mqtt_client._device_store S self) as [resolver|].
  - unfold mqtt_client.hbind at 1. unfold mqtt_client.hbind at 1.
    unfold mqtt_client.htry at 1, mqtt_client.call at 1.
    assert (Hres : exists dr h1,
              (let (r, h') :=
                 let '(r, s) := resolver event (mqtt_client.stores S h) in
                 (r, mqtt_client.mk_state S s (mqtt_client.logged S h)) in
               match r with
               | Ok a => (Ok a, h')
               | Raise e =>
                   mqtt_client.hbind S
                     (mqtt_client.log S
                        (mqtt_client.LogException "Device upsert failed" e))
                     (fun _ => mqtt_client.hret S None) h'
               end) = (Ok dr, h1)
              /\ (let (r, s) := resolver event (mqtt_client.stores S h) in
                  match r with
                  | Ok device_result =>
                      (device_result,
                       mqtt_client.mk_state S s (mqtt_client.logged S h))
                  | Raise e =>
                      (None,
                       mqtt_client.mk_state S s
                         (mqtt_client.logged S h
                          ++ [mqtt_client.LogException
                                "Device upsert failed" e]))
                  end) = (dr, h1)).
    { destruct (resolver event (mqtt_client.stores S h)) as [[dr|e] s];
        eexists; eexists; split; reflexivity. }
    destruct Hres as (dr & h1 & -> & ->). cbv beta iota. cbn [fst snd].
    rewrite (hbind_returns _ _ _ _ _
               (guarded_step "status" "Device status upsert failed" dr _ _ _)).
    rewrite (hbind_returns _ _ _ _ _
               (guarded_step "status" "Device OS status upsert failed"
                  dr _ _ _)).
    rewrite (hbind_returns _ _ _ _ _
               (guarded_step "storage" "Device storage upsert failed"
                  dr _ _ _)).
    rewrite (guarded_step "statistics" "Device statistics insert failed").
    unfold mqtt_client.hbind, mqtt_client.hlift, mqtt_client.log; cbn zeta.
    unfold attempt_signal_stores.
    destruct dr as [r|]; destruct (to_log_line event); reflexivity.
  - cbn [fst snd]. unfold mqtt_client.hbind, mqtt_client.hret,
      mqtt_client.hlift, mqtt_client.log.
    destruct (to_log_line event); reflexivity.
Qed.

Lemma to_log_line_returns (event : IngestEvent) :
  PyStr.eqb (subtype event) (u "storage") = false ->
  exists line, to_log_line event = Ok line.
Proof.
  intros Hsub. unfold to_log_line.
  assert (Hts : exists ts, ts_iso event = Ok ts).
  { unfold ts_iso. destruct (ts_ms event) as [ms|]; [|eauto].
    unfold try_except.
    destruct (x <- int_truediv_1000 ms ;; dt <- utc_fromtimestamp x ;;
              Ok (Some dt)); eauto. }
  destruct Hts as [ts ->]. cbn [bind].
  destruct (payload event) as [p|]; [|eauto].
  destruct (PyStr.eqb (subtype event) (u "status")).
  - destruct (_safe_str_total (dict_get (u "device_status") p)) as [a ->].
    destruct (_safe_str_total (dict_get (u "device_os_version") p)) as [b ->].
    cbn [bind]. eauto.
  - destruct (PyStr.eqb (subtype event) (u "statistics")).
    + destruct (as_mapping _) as [m|]; [|eauto].
      repeat match goal with
             | |- context [_safe_int ?v] =>
                 let r := fresh "r" in
                 destruct (_safe_int_total v) as [r ->]; cbn [bind]
             end.
      eauto.
    + rewrite Hsub. eauto.
Qed.

(** The handler, from the topic bytes: the topic is decoded first, and
    what the decoding raises leaves the handler before anything is
    written or logged. *)
Lemma _on_message_run (self : mqtt_client.MQTTConnector S)
    (msg : mqtt_client.MQTTMessage) (h : mqtt_client.handler_state S) :
  mqtt_client._on_message S self msg h
  = match mqtt_client.topic_of msg with
    | Raise e => (Raise e, h)
    | Ok topic =>
        match build_event topic (mqtt_client.msg_payload msg)
                (mqtt_client.msg_qos msg) (mqtt_client.msg_retain msg) with
        | Ok (Some event) => mqtt_client.on_event S self event h
        | Ok None =>
            (Ok tt,
             mqtt_client.mk_state S (mqtt_client.stores S h)
               (mqtt_client.logged S h
                ++ [mqtt_client.LogRejected topic
                      (mqtt_client.msg_retain msg)
                      (mqtt_client.msg_qos msg)
                      (List.length (mqtt_client.msg_payload msg))]))
        | Raise e => (Raise e, h)
        end
    end.
Proof.
  unfold mqtt_client._on_message, mqtt_client.hbind, mqtt_client.hlift,
    mqtt_client.log.
  destruct (mqtt_client.topic_of msg) as [topic|e]; [|reflexivity].
  destruct (build_event topic (mqtt_client.msg_payload msg)
              (mqtt_client.msg_qos msg) (mqtt_client.msg_retain msg))
    as [[event|]|e]; reflexivity.
Qed.

(** X8.  When the handler returns and when it raises, outside the
    storage subtype.  For every connector, whatever its stores do: a
    message whose topic bytes are not UTF-8 makes [_on_message] raise
    the decoding error at once, with nothing written and nothing
    logged; a message whose topic decodes, and is then refused or has a
    subtype other than [storage], makes [_on_message] return
    normally. *)
Theorem on_message_returns_outside_storage
    (self : mqtt_client.MQTTConnector S) (msg : mqtt_client.MQTTMessage)
    (h : mqtt_client.handler_state S) :
  (forall e,
      mqtt_client.topic_of msg = Raise e ->
      mqtt_client._on_message S self msg h = (Raise e, h))
  /\ (forall topic,
         mqtt_client.topic_of msg = Ok topic ->
         (forall event,
             build_event topic (mqtt_client.msg_payload msg)
               (mqtt_client.msg_qos msg) (mqtt_client.msg_retain msg)
             = Ok (Some event) ->
             PyStr.eqb (subtype event) (u "storage") = false) ->
         fst (mqtt_client._on_message S self msg h) = Ok tt).
Proof.
  rewrite _on_message_run. split.
  - intros e ->. reflexivity.
  - intros topic -> Hsub.
    destruct (build_event_cases topic (mqtt_client.msg_payload msg)
                (mqtt_client.msg_qos msg) (mqtt_client.msg_retain msg))
      as (p & serial & ts & _ & _ & Hbuild).
    rewrite Hbuild in *.
    destruct (parse_topic topic) as [info|]; [|reflexivity].
    rewrite on_event_run.
    destruct (to_log_line_returns _ (Hsub _ eq_refl)) as [line ->].
    reflexivity.
Qed.
End HandlerRun.

(* ------------------------------------------------------------------ *)
(** * The connector of [main]: what a message can change *)

Section MainConnector.
Context {rt : Runtime}.

Lemma attempt_on_signals {A} (event : IngestEvent) (d : Z)
    (wanted message : string) (f : IngestEvent -> Z -> M A)
    (h : mqtt_client.handler_state main.database) :
  let h' := attempt_if_applicable event d wanted message
              (Some (fun ev id => main.on_signals (f ev id))) h in
  main.devices_table (mqtt_client.stores _ h')
  = main.devices_table (mqtt_client.stores _ h)
  /\ main.signals (mqtt_client.stores _ h')
     = if PyStr.eqb (subtype event) (u wanted)
       then snd (f event d (main.signals (mqtt_client.stores _ h)))
       else main.signals (mqtt_client.stores _ h).
Proof.
  unfold attempt_if_applicable, applicable, attempt, main.on_signals.
  destruct (PyStr.eqb (subtype event) (u wanted)); [|split; reflexivity].
  destruct (f event d (main.signals (mqtt_client.stores _ h))) as [[a|e] w];
    split; reflexivity.
Qed.

Lemma resolve_identity_main (event : IngestEvent)
    (h : mqtt_client.handler_state main.database) :
  main.signals
    (mqtt_client.stores _ (snd (resolve_identity main.connector event h)))
  = main.signals (mqtt_client.stores _ h)
  /\ (event_serial event = None ->
      fst (resolve_identity main.connector event h) = None
      /\ mqtt_client.stores _ (snd (resolve_identity main.connector event h))
         = mqtt_client.stores _ h).
Proof.
  unfold resolve_identity; cbn [main.connector mqtt_client._device_store].
  unfold main.on_devices. split.
  - destruct (DeviceStore.ensure_from_event _ _ _ _) as [[dr|e] t];
      reflexivity.
  - intros Hs. rewrite (ensure_from_event_no_serial _ _ _ _ Hs). cbn.
    split; [reflexivity|]. now destruct (mqtt_client.stores _ h).
Qed.

(** X9.  What an event can change. Each signal store leaves the tables
    of the three others and the clock as they were, whether it returns
    or raises; and through the handler of the connector that [main]
    builds, an event changes the status and OS-version tables only when
    its subtype is [status], the storage table only when it is
    [storage], the statistics table only when it is [statistics], and
    never the clock. *)
Theorem event_changes_only_its_tables (event : IngestEvent) (d : Z)
    (w : world) (h : mqtt_client.handler_state main.database) :
  (unchanged_except StatusTable w
     (snd (device_status_store.ensure_from_event event d w))
   /\ unchanged_except OsTable w
        (snd (device_os_status_store.ensure_from_event event d w))
   /\ unchanged_except StorageTable w
        (snd (device_storage_status_store.ensure_from_event event d w))
   /\ unchanged_except StatisticsTable w
        (snd (device_statistics_store.insert_from_event event d w)))
  /\ let before := main.signals (mqtt_client.stores _ h) in
     let after :=
       main.signals
         (mqtt_client.stores _
            (snd (mqtt_client.on_event _ main.connector event h))) in
     now after = now before
     /\ (PyStr.eqb (subtype event) (u "status") = false ->
         device_status after = device_status before
         /\ device_os_status after = device_os_status before)
     /\ (PyStr.eqb (subtype event) (u "storage") = false ->
         device_storage_status after = device_storage_status before)
     /\ (PyStr.eqb (subtype event) (u "statistics") = false ->
         device_statistics after = device_statistics before).
Proof.
  split; [apply signal_stores_own_tables|].
  cbv zeta. rewrite on_event_run.
  assert (Hafter :
    main.signals
      (mqtt_client.stores _
         (snd (let h' :=
                 match fst (resolve_identity main.connector event h) with
                 | Some r =>
                     attempt_signal_stores main.connector event
                       (device_store.device_id r)
                       (snd (resolve_identity main.connector event h))
                 | None => snd (resolve_identity main.connector event h)
                 end in
               match to_log_line event with
               | Ok line =>
                   (Ok tt,
                    mqtt_client.mk_state _ (mqtt_client.stores _ h')
                      (mqtt_client.logged _ h' ++ [mqtt_client.LogInfo line]))
               | Raise e => (Raise e, h')
               end)))
    = main.signals
        (mqtt_client.stores _
           match fst (resolve_identity main.connector event h) with
           | Some r =>
               attempt_signal_stores main.connector event
                 (device_store.device_id r)
                 (snd (resolve_identity main.connector event h))
           | None => snd (resolve_identity main.connector event h)
           end)).
  { cbv zeta. destruct (to_log_line event); reflexivity. }
  rewrite Hafter; clear Hafter.
  destruct (resolve_identity_main event h) as [Hres _].
  destruct (fst (resolve_identity main.connector event h)) as [r|];
    [|rewrite Hres; repeat split; reflexivity].
  set (h0 := snd (resolve_identity main.connector event h)) in *.
  unfold attempt_signal_stores;
    cbn [main.connector mqtt_client._device_status_store
         mqtt_client._device_os_status_store
         mqtt_client._device_storage_status_store
         mqtt_client._device_statistics_store].
  set (id := device_store.device_id r).
  set (h1 := attempt_if_applicable event id "status" _ _ h0).
  set (h2 := attempt_if_applicable event id "status" _ _ h1).
  set (h3 := attempt_if_applicable event id "storage" _ _ h2).
  destruct (attempt_on_signals event id "status"
              "Device status upsert failed"
              device_status_store.ensure_from_event h0) as [_ H1].
  destruct (attempt_on_signals event id "status"
              "Device OS status upsert failed"
              device_os_status_store.ensure_from_event h1) as [_ H2].
  destruct (attempt_on_signals event id "storage"
              "Device storage upsert failed"
              device_storage_status_store.ensure_from_event h2) as [_ H3].
  destruct (attempt_on_signals event id "statistics"
              "Device statistics insert failed"
              device_statistics_store.insert_from_event h3) as [_ H4].
  cbv zeta in H1, H2, H3, H4. fold h1 in H1, H2. fold h2 in H2, H3.
  fold h3 in H3, H4.
  rewrite H4, H3, H2, H1, Hres.
  set (w0 := main.signals (mqtt_client.stores _ h)).
  destruct (signal_stores_own_tables event id w0)
    as ((_ & S2 & S3 & S4 & S5) & _).
  set (w1 := if PyStr.eqb (subtype event) (u "status")
             then snd (device_status_store.ensure_from_event event id w0)
             else w0) in *.
  assert (U1 : unchanged_except StatusTable w0 w1).
  { subst w1. destruct (PyStr.eqb (subtype event) (u "status"));
      [apply signal_stores_own_tables|apply unchanged_except_refl]. }
  set (w2 := if PyStr.eqb (subtype event) (u "status")
             then snd (device_os_status_store.ensure_from_event event id w1)
             else w1) in *.
  assert (U2 : unchanged_except OsTable w1 w2).
  { subst w2. destruct (PyStr.eqb (subtype event) (u "status"));
      [apply signal_stores_own_tables|apply unchanged_except_refl]. }
  set (w3 := if PyStr.eqb (subtype event) (u "storage")
             then snd (device_storage_status_store.ensure_from_event
                         event id w2)
             else w2) in *.
  assert (U3 : unchanged_except StorageTable w2 w3).
  { subst w3. destruct (PyStr.eqb (subtype event) (u "storage"));
      [apply signal_stores_own_tables|apply unchanged_except_refl]. }
  set (w4 := if PyStr.eqb (subtype event) (u "statistics")
             then snd (device_statistics_store.insert_from_event event id w3)
             else w3) in *.
  assert (U4 : unchanged_except StatisticsTable w3 w4).
  { subst w4. destruct (PyStr.eqb (subtype event) (u "statistics"));
      [apply signal_stores_own_tables|apply unchanged_except_refl]. }
  destruct U1 as (A1 & B1 & C1 & D1 & E1), U2 as (A2 & B2 & C2 & D2 & E2),
    U3 as (A3 & B3 & C3 & D3 & E3), U4 as (A4 & B4 & C4 & D4 & E4).
  split; [congruence|]. split; [|split].
  - intros Hs. subst w1 w2. rewrite Hs in *. split.
    + rewrite A4, A3 by discriminate. reflexivity.
    + rewrite B4, B3 by discriminate. reflexivity.
  - intros Hs. subst w3. rewrite Hs in *.
    rewrite C4, C2, C1 by discriminate. reflexivity.
  - intros Hs. subst w4. rewrite Hs in *.
    rewrite D3, D2, D1 by discriminate. reflexivity.
Qed.

(** X10.  A message without a usable serial number writes nothing. When
    the topic bytes are not UTF-8, the decoder refuses the topic, or the
    decoded event has no serial number left after trimming, the handler
    of the connector that [main] builds leaves the device table and the
    four signal tables as they were. *)
Theorem message_without_serial_writes_nothing
    (msg : mqtt_client.MQTTMessage)
    (h : mqtt_client.handler_state main.database) :
  (forall topic event,
      mqtt_client.topic_of msg = Ok topic ->
      build_event topic (mqtt_client.msg_payload msg)
        (mqtt_client.msg_qos msg) (mqtt_client.msg_retain msg)
      = Ok (Some event) ->
      event_serial event = None) ->
  mqtt_client.stores _ (snd (mqtt_client._on_message _ main.connector msg h))
  = mqtt_client.stores _ h.
Proof.
  intros Hserial. rewrite _on_message_run.
  destruct (mqtt_client.topic_of msg) as [topic|e] eqn:Htopic;
    [|reflexivity].
  assert (Hs : forall event,
             build_event topic (mqtt_client.msg_payload msg)
               (mqtt_client.msg_qos msg) (mqtt_client.msg_retain msg)
             = Ok (Some event) ->
             event_serial event = None).
  { intros event Hev. apply (Hserial topic event); [reflexivity|exact Hev]. }
  clear Hserial.
  destruct (build_event_cases topic (mqtt_client.msg_payload msg)
              (mqtt_client.msg_qos msg) (mqtt_client.msg_retain msg))
    as (p & serial & ts & _ & _ & Hbuild).
  rewrite Hbuild in *.
  destruct (parse_topic topic) as [info|]; [|reflexivity].
  rewrite on_event_run.
  match type of Hs with
  | forall event, Ok (Some ?ev) = _ -> _ =>
      destruct (resolve_identity_main ev h) as [_ Hnone];
      destruct (Hnone (Hs ev eq_refl)) as [-> Hsame]
  end.
  cbv zeta. destruct (to_log_line _); exact Hsame.
Qed.
End MainConnector.

(* ------------------------------------------------------------------ *)
(** * Upserts on keyed tables *)

Section UpsertFacts.
Context {R K : Type}.
Variable id : R -> Z.
Variable key : R -> K.

Lemma id_injective (l : list R) (a b : R) :
  NoDup (map id l) -> In a l -> In b l -> id a = id b -> a = b.
Proof.
  induction l as [|x l IH]; simpl; intros Hnd Ha Hb Heq; [contradiction|].
  inversion Hnd as [|? ? Hnotin Hnd']; subst.
  destruct Ha as [->|Ha], Hb as [->|Hb]; auto.
  - exfalso. apply Hnotin. rewrite Heq. now apply in_map.
  - exfalso. apply Hnotin. rewrite <- Heq. now apply in_map.
Qed.

Lemma find_snoc (q : R -> bool) (l : list R) (x : R) :
  find q (l ++ [x])
  = match find q l with
    | Some r => Some r
    | None => if q x then Some x else None
    end.
Proof.
  induction l as [|y l IH]; simpl; [reflexivity|].
  destruct (q y); [reflexivity|exact IH].
Qed.

Lemma keyed_update (t : table R) (row : R) (g : R -> R) :
  keyed_table id key t ->
  (forall r, id (g r) = id r) -> (forall r, key (g r) = key r) ->
  keyed_table id key (update (fun r => id r =? id row) g t).
Proof.
  intros (Hid & Hlt & Hkey) Hgid Hgkey. unfold keyed_table, update.
  cbn [rows next_id]. rewrite !map_map. repeat split.
  - erewrite map_ext; [exact Hid|].
    intros r. now destruct (id r =? id row).
  - apply Forall_forall. intros r Hr.
    apply in_map_iff in Hr as (r0 & <- & Hr0).
    rewrite Forall_forall in Hlt. specialize (Hlt _ Hr0).
    destruct (id r0 =? id row); [now rewrite Hgid|exact Hlt].
  - erewrite map_ext; [exact Hkey|].
    intros r. now destruct (id r =? id row).
Qed.

Lemma keyed_insert (t : table R) (r : R) :
  keyed_table id key t ->
  id r = next_id t ->
  ~ In (key r) (map key (rows t)) ->
  keyed_table id key (mk_table (rows t ++ [r]) (next_id t + 1)).
Proof.
  intros (Hid & Hlt & Hkey) Hmk Hfresh. unfold keyed_table.
  cbn [rows next_id]. rewrite !map_app. cbn [map]. repeat split.
  - apply NoDup_snoc; [exact Hid|]. rewrite Hmk.
    intros Hin. apply in_map_iff in Hin as (r0 & Hr & Hin).
    rewrite Forall_forall in Hlt. specialize (Hlt _ Hin). lia.
  - apply Forall_app; split.
    + eapply Forall_impl; [|exact Hlt]. intros r0 Hr. simpl in Hr. lia.
    + constructor; [lia|constructor].
  - apply NoDup_snoc; assumption.
Qed.

Lemma key_not_found (p : R -> bool) (k : K) (l : list R) :
  find p l = None -> (forall r, key r = k -> p r = true) ->
  ~ In k (map key l).
Proof.
  intros Hnone Hp Hin. apply in_map_iff in Hin as (r & Hr & Hin).
  apply (find_none _ _ Hnone) in Hin. rewrite (Hp r Hr) in Hin.
  discriminate.
Qed.

(** With an identity column, the update of the row found leaves what a
    selection by another key returns. *)
Lemma select_other_update (q : R -> bool) (t : table R) (row : R)
    (g : R -> R) :
  NoDup (map id (rows t)) -> In row (rows t) -> q row = false ->
  (forall r, q (g r) = q r) ->
  select_one q (update (fun r => id r =? id row) g t) = select_one q t.
Proof.
  intros Hid Hrow Hq Hg. unfold select_one, update. cbn [rows].
  rewrite find_map_keeping
    by (intros r; destruct (id r =? id row); [apply Hg|reflexivity]).
  destruct (find q (rows t)) as [r|] eqn:Hfind; [|reflexivity].
  apply find_some in Hfind as [Hin Hqr]. simpl.
  destruct (id r =? id row) eqn:Heq; [|reflexivity].
  apply Z.eqb_eq in Heq.
  rewrite (id_injective _ _ _ Hid Hin Hrow Heq) in Hqr. congruence.
Qed.

Lemma select_other_insert (q : R -> bool) (t : table R) (r : R) (n : Z) :
  q r = false ->
  select_one q (mk_table (rows t ++ [r]) n) = select_one q t.
Proof.
  intros Hq. unfold select_one. cbn [rows].
  rewrite find_snoc, Hq. now destruct (find q (rows t)).
Qed.
End UpsertFacts.

Section KeyedStores.
Context {rt : Runtime}.

Lemma upsert_status_table (d : Z) (status : pystr) (e : Z) (t : datetime)
    (w : world) :
  exists t',
    snd (device_status_store.upsert_status d status e t w)
    = with_device_status t' w
    /\ (keyed_table st_id st_device_id (device_status w) ->
        keyed_table st_id st_device_id t')
    /\ (NoDup (map st_id (rows (device_status w))) ->
        forall d', d' <> d ->
          select_one (fun r => st_device_id r =? d') t'
          = status_row_of d' w)
    /\ List.length (rows t')
       = (List.length (rows (device_status w))
          + match status_row_of d w with None => 1 | Some _ => 0 end)%nat.
Proof.
  unfold device_status_store.upsert_status, mbind,
    device_status_store._select_by_device_id, status_row_of.
  cbn beta iota.
  destruct (select_one _ (device_status w)) as [row|] eqn:Hsel.
  - eexists; split; [reflexivity|]. unfold select_one in Hsel.
    pose proof (find_some _ _ Hsel) as [Hin Hd]. apply Z.eqb_eq in Hd.
    split; [|split].
    + intros Hk. now apply keyed_update.
    + intros Hid d' Hne. apply select_other_update; auto.
      rewrite Hd. apply Z.eqb_neq. congruence.
    + cbn [update rows]. rewrite length_map. lia.
  - eexists; split; [reflexivity|]. unfold select_one in Hsel.
    split; [|split].
    + intros Hk. apply keyed_insert; auto; cbn.
      apply (key_not_found _ (fun r => st_device_id r =? d)); auto.
      intros r Hr. apply Z.eqb_eq. exact Hr.
    + intros _ d' Hne. apply select_other_insert. cbn.
      apply Z.eqb_neq. congruence.
    + cbn [insert snd rows]. rewrite length_app. reflexivity.
Qed.

Lemma upsert_os_version_table (d : Z) (v : pystr) (e : Z) (t : datetime)
    (w : world) :
  exists r t',
    device_os_status_store.upsert_os_version d v e t w
    = (Ok r, with_device_os_status t' w)
    /\ (keyed_table os_id os_device_id (device_os_status w) ->
        keyed_table os_id os_device_id t')
    /\ (NoDup (map os_id (rows (device_os_status w))) ->
        forall d', d' <> d ->
          select_one (fun r => os_device_id r =? d') t' = os_row_of d' w)
    /\ List.length (rows t')
       = (List.length (rows (device_os_status w))
          + match os_row_of d w with None => 1 | Some _ => 0 end)%nat
    /\ select_one (fun r => os_device_id r =? d) t'
       = Some {| os_id := device_os_status_store.device_os_status_id r;
                 os_device_id := d; os_version := v; os_ts_epoch := e;
                 os_ts_datetime := t |}
    /\ device_os_status_store.created r
       = match os_row_of d w with None => true | Some _ => false end.
Proof.
  unfold device_os_status_store.upsert_os_version, mbind,
    device_os_status_store._select_by_device_id, os_row_of.
  cbn beta iota.
  destruct (select_one _ (device_os_status w)) as [row|] eqn:Hsel.
  - eexists; eexists; split; [reflexivity|]. unfold select_one in Hsel.
    pose proof (find_some _ _ Hsel) as [Hin Hd]. apply Z.eqb_eq in Hd.
    split; [|split; [|split; [|split]]].
    + intros Hk. now apply keyed_update.
    + intros Hid d' Hne. apply select_other_update; auto.
      rewrite Hd. apply Z.eqb_neq. congruence.
    + cbn [update rows]. rewrite length_map. lia.
    + unfold select_one, update. cbn [rows].
      rewrite find_map_keeping
        by (intros r; destruct (os_id r =? os_id row); reflexivity).
      rewrite Hsel. cbn. rewrite Z.eqb_refl, Hd. reflexivity.
    + reflexivity.
  - eexists; eexists; split; [reflexivity|]. unfold select_one in Hsel.
    split; [|split; [|split; [|split]]].
    + intros Hk. apply keyed_insert; auto; cbn.
      apply (key_not_found _ (fun r => os_device_id r =? d)); auto.
      intros r Hr. apply Z.eqb_eq. exact Hr.
    + intros _ d' Hne. apply select_other_insert. cbn.
      apply Z.eqb_neq. congruence.
    + cbn [insert snd rows]. rewrite length_app. reflexivity.
    + unfold select_one, insert. cbn [snd rows].
      rewrite (find_snoc_fresh _ _ _ Hsel) by (cbn; apply Z.eqb_refl).
      reflexivity.
    + reflexivity.
Qed.

Lemma storage_key_eq (d : Z) (drive : pystr) (r : storage_row) :
  (sg_device_id r =? d) && PyStr.eqb (sg_drive r) drive = true
  <-> storage_key r = (d, drive).
Proof.
  unfold storage_key. rewrite andb_true_iff, Z.eqb_eq. split.
  - intros [-> Hd]. apply pystr_eqb_eq in Hd. now rewrite Hd.
  - intros [= -> ->]. split; [reflexivity|apply pystr_eqb_refl].
Qed.

Lemma upsert_drive_table (d : Z) (drive : pystr)
    (drive_type fmt : option pystr) (a b c p : option float) (e : Z)
    (t : datetime) (w : world) :
  exists r t',
    device_storage_status_store.upsert_drive d drive drive_type fmt a b c p
      e t w
    = (Ok r, with_device_storage_status t' w)
    /\ (keyed_table sg_id storage_key (device_storage_status w) ->
        keyed_table sg_id storage_key t')
    /\ (NoDup (map sg_id (rows (device_storage_status w))) ->
        forall d' drive', (d', drive') <> (d, drive) ->
          select_one (fun r => (sg_device_id r =? d')
                               && PyStr.eqb (sg_drive r) drive') t'
          = storage_row_of d' drive' w)
    /\ List.length (rows t')
       = (List.length (rows (device_storage_status w))
          + match storage_row_of d drive w with
            | None => 1
            | Some _ => 0
            end)%nat
    /\ select_one (fun r => (sg_device_id r =? d)
                            && PyStr.eqb (sg_drive r) drive) t'
       = Some {| sg_id := device_storage_status_store.device_storage_id r;
                 sg_device_id := d; sg_drive := drive;
                 sg_drive_type := drive_type; sg_format := fmt;
                 sg_total_gb := a; sg_free_gb := b; sg_used_gb := c;
                 sg_usage_percent := p; sg_ts_epoch := e;
                 sg_ts_datetime := t |}
    /\ device_storage_status_store.created r
       = match storage_row_of d drive w with
         | None => true
         | Some _ => false
         end
    /\ (Forall (fun r => drive_is_letter (sg_drive r))
               (rows (device_storage_status w)) ->
        drive_is_letter drive ->
        Forall (fun r => drive_is_letter (sg_drive r)) (rows t')).
Proof.
  unfold device_storage_status_store.upsert_drive, mbind,
    device_storage_status_store._select_by_device_and_drive, storage_row_of.
  cbn beta iota.
  destruct (select_one _ (device_storage_status w)) as [row|] eqn:Hsel.
  - eexists; eexists; split; [reflexivity|]. unfold select_one in Hsel.
    pose proof (find_some _ _ Hsel) as [Hin Hd].
    apply storage_key_eq in Hd.
    split; [|split; [|split; [|split; [|split]]]].
    + intros Hk. now apply keyed_update.
    + intros Hid d' drive' Hne. apply select_other_update; auto.
      destruct ((sg_device_id row =? d')
                && PyStr.eqb (sg_drive row) drive') eqn:Hq; [|reflexivity].
      apply storage_key_eq in Hq. congruence.
    + cbn [update rows]. rewrite length_map. lia.
    + unfold select_one, update. cbn [rows].
      rewrite find_map_keeping
        by (intros r; destruct (sg_id r =? sg_id row); reflexivity).
      rewrite Hsel. cbn. rewrite Z.eqb_refl.
      injection Hd as -> ->. reflexivity.
    + reflexivity.
    + intros Hall _. cbn [update rows]. apply Forall_forall. intros r Hr.
      apply in_map_iff in Hr as (r0 & <- & Hr0).
      rewrite Forall_forall in Hall. specialize (Hall _ Hr0).
      now destruct (sg_id r0 =? sg_id row).
  - eexists; eexists; split; [reflexivity|]. unfold select_one in Hsel.
    split; [|split; [|split; [|split; [|split]]]].
    + intros Hk. apply keyed_insert; auto; cbn.
      apply (key_not_found _
               (fun r => (sg_device_id r =? d)
                         && PyStr.eqb (sg_drive r) drive)); auto.
      intros r Hr. apply storage_key_eq. exact Hr.
    + intros _ d' drive' Hne. apply select_other_insert. cbn.
      destruct ((d =? d') && PyStr.eqb drive drive') eqn:Hq; [|reflexivity].
      apply andb_true_iff in Hq as [Hq1 Hq2]. apply Z.eqb_eq in Hq1.
      apply pystr_eqb_eq in Hq2. congruence.
    + cbn [insert snd rows]. rewrite length_app. reflexivity.
    + unfold select_one, insert. cbn [snd rows].
      rewrite (find_snoc_fresh _ _ _ Hsel)
        by (cbn; now rewrite Z.eqb_refl, pystr_eqb_refl).
      reflexivity.
    + reflexivity.
    + intros Hall Hletter. cbn [insert snd rows]. apply Forall_app.
      split; [exact Hall|]. constructor; [exact Hletter|constructor].
Qed.
End KeyedStores.

(* ------------------------------------------------------------------ *)
(** * What every message keeps *)

Section HandlerClosed.
Context {rt : Runtime} {S : Type}.
Variable P : S -> Prop.

Lemma attempt_closed {A} (message : string) (op : mqtt_client.store_op S A)
    (h : mqtt_client.handler_state S) :
  closed_under P op -> P (mqtt_client.stores S h) ->
  P (mqtt_client.stores S (attempt message op h)).
Proof.
  intros Hop Hh. unfold attempt. specialize (Hop _ Hh).
  destruct (op (mqtt_client.stores S h)) as [[a|e] s]; exact Hop.
Qed.

Lemma attempt_if_applicable_closed {A} (event : IngestEvent) (d : Z)
    (wanted message : string)
    (store : option (IngestEvent -> Z -> mqtt_client.store_op S A))
    (h : mqtt_client.handler_state S) :
  store_closed P store -> P (mqtt_client.stores S h) ->
  P (mqtt_client.stores S
       (attempt_if_applicable event d wanted message store h)).
Proof.
  intros Hstore Hh. unfold attempt_if_applicable, applicable.
  destruct (PyStr.eqb (subtype event) (u wanted)); [|exact Hh].
  destruct store as [st|]; [|exact Hh].
  apply attempt_closed; [|exact Hh]. now apply Hstore.
Qed.

(** A property of the database that every configured store keeps is
    kept by the handler, whatever the event and whether the handler
    returns or raises. *)
Lemma on_event_closed (self : mqtt_client.MQTTConnector S)
    (event : IngestEvent) (h : mqtt_client.handler_state S) :
  (forall resolver ev, mqtt_client._device_store S self = Some resolver ->
                       closed_under P (resolver ev)) ->
  store_closed P (mqtt_client._device_status_store S self) ->
  store_closed P (mqtt_client._device_os_status_store S self) ->
  store_closed P (mqtt_client._device_storage_status_store S self) ->
  store_closed P (mqtt_client._device_statistics_store S self) ->
  P (mqtt_client.stores S h) ->
  P (mqtt_client.stores S (snd (mqtt_client.on_event S self event h))).
Proof.
  intros Hres H1 H2 H3 H4 Hh. rewrite on_event_run.
  assert (Hid : P (mqtt_client.stores S
                     (snd (resolve_identity self event h)))).
  { unfold resolve_identity.
    destruct (mqtt_client._device_store S self) as [resolver|]; [|exact Hh].
    specialize (Hres resolver event eq_refl _ Hh).
    destruct (resolver event (mqtt_client.stores S h)) as [[r|e] s];
      exact Hres. }
  assert (Hstores :
    P (mqtt_client.stores S
         match fst (resolve_identity self event h) with
         | Some r =>
             attempt_signal_stores self event (device_store.device_id r)
               (snd (resolve_identity self event h))
         | None => snd (resolve_identity self event h)
         end)).
  { destruct (fst (resolve_identity self event h)) as [r|]; [|exact Hid].
    unfold attempt_signal_stores.
    repeat (apply attempt_if_applicable_closed; [assumption|]).
    exact Hid. }
  cbv zeta. destruct (to_log_line event); exact Hstores.
Qed.

Lemma _on_message_closed (self : mqtt_client.MQTTConnector S)
    (msg : mqtt_client.MQTTMessage) (h : mqtt_client.handler_state S) :
  (forall resolver ev, mqtt_client._device_store S self = Some resolver ->
                       closed_under P (resolver ev)) ->
  store_closed P (mqtt_client._device_status_store S self) ->
  store_closed P (mqtt_client._device_os_status_store S self) ->
  store_closed P (mqtt_client._device_storage_status_store S self) ->
  store_closed P (mqtt_client._device_statistics_store S self) ->
  P (mqtt_client.stores S h) ->
  P (mqtt_client.stores S (snd (mqtt_client._on_message S self msg h))).
Proof.
  intros Hres H1 H2 H3 H4 Hh. rewrite _on_message_run.
  destruct (mqtt_client.topic_of msg) as [topic|e]; [|exact Hh].
  destruct (build_event_cases topic (mqtt_client.msg_payload msg)
              (mqtt_client.msg_qos msg) (mqtt_client.msg_retain msg))
    as (p & serial & ts & _ & _ & ->).
  destruct (parse_topic topic) as [info|]; [|exact Hh].
  now apply on_event_closed.
Qed.
End HandlerClosed.

Section WellKeyed.
Context {rt : Runtime}.

Lemma os_store_event_step (event : IngestEvent) (d : Z) (w : world) :
  snd (device_os_status_store.ensure_from_event event d w) = w
  \/ exists v e t,
      snd (device_os_status_store.ensure_from_event event d w)
      = snd (device_os_status_store.upsert_os_version d v e t w).
Proof.
  set (w' := snd (device_os_status_store.ensure_from_event event d w)).
  assert (Hw' : w' = snd (device_os_status_store.ensure_from_event event d w))
    by reflexivity.
  clearbody w'. revert Hw'.
  unfold device_os_status_store.ensure_from_event.
  destruct (negb _); [now left|].
  destruct (payload event) as [p|]; [|now left].
  unfold mbind at 1, lift.
  destruct (_safe_str_total (dict_get (u "device_os_version") p)) as [o ->].
  destruct o as [s|]; [|now left].
  destruct (negb (truthy s)); [now left|].
  destruct (negb (truthy (strip s))); [now left|].
  unfold mbind at 1.
  destruct (_event_timestamp_cases event w) as [[[e t] ->]|[ex ->]];
    [|now left].
  intros ->. right. exists (strip s), e, t.
  destruct (upsert_os_version_table d (strip s) e t w) as (r & t' & Hup & _).
  unfold mbind. rewrite Hup. reflexivity.
Qed.

Lemma upsert_drives_closed (P : world -> Prop) (d ts : Z) (dt : datetime)
    (items : dict) (upserts : Z) (w : world) :
  (forall w0 drive drive_type fmt a b c p,
      drive_is_letter drive -> P w0 ->
      P (snd (device_storage_status_store.upsert_drive d drive drive_type
                fmt a b c p ts dt w0))) ->
  P w ->
  P (snd (device_storage_status_store.upsert_drives d ts dt items upserts w)).
Proof.
  intros Hstep. revert upserts w.
  induction items as [|[drive info] items IH]; intros upserts w Hw;
    [exact Hw|].
  cbn [device_storage_status_store.upsert_drives].
  destruct (device_storage_status_store._normalize_drive (JStr drive))
    as [drive_name|] eqn:Hname; [|now apply IH].
  destruct (as_mapping info) as [info_map|]; [|now apply IH].
  cbv zeta.
  repeat (rewrite mbind_lift;
          match goal with
          | |- context [match ?r with Ok _ => _ | Raise _ => _ end] =>
              destruct r; [|exact Hw]
          end).
  unfold mbind at 1.
  match goal with
  | |- context [device_storage_status_store.upsert_drive ?d ?n ?x ?y ?a ?b ?c
                  ?e ?ts ?dt w] =>
      pose proof (Hstep w n x y a b c e
                    (drive_letter_range _ _ Hname) Hw) as Hnext;
      destruct (upsert_drive_table d n x y a b c e ts dt w)
        as (r & t' & Hup & _);
      rewrite Hup in Hnext |- *
  end.
  apply IH. exact Hnext.
Qed.

Lemma storage_store_closed (P : world -> Prop) (event : IngestEvent)
    (d : Z) (w : world) :
  (forall w0 drive drive_type fmt a b c p ts dt,
      drive_is_letter drive -> P w0 ->
      P (snd (device_storage_status_store.upsert_drive d drive drive_type
                fmt a b c p ts dt w0))) ->
  P w ->
  P (snd (device_storage_status_store.ensure_from_event event d w)).
Proof.
  intros Hstep Hw. unfold device_storage_status_store.ensure_from_event.
  destruct (negb _); [exact Hw|].
  destruct (payload event) as [p|]; [|exact Hw].
  destruct (as_mapping _) as [storage_map|]; [|exact Hw].
  unfold mbind at 1.
  destruct (_event_timestamp_cases event w) as [[[e t] ->]|[ex ->]];
    [|exact Hw].
  apply upsert_drives_closed; [|exact Hw].
  intros; now apply Hstep.
Qed.

Lemma statistics_store_event_step (event : IngestEvent) (d : Z)
    (w : world) :
  snd (device_statistics_store.insert_from_event event d w) = w
  \/ exists row,
      sx_id row = next_id (device_statistics w)
      /\ snd (device_statistics_store.insert_from_event event d w)
         = with_device_statistics
             (mk_table (rows (device_statistics w) ++ [row])
                       (next_id (device_statistics w) + 1)) w.
Proof.
  set (w' := snd (device_statistics_store.insert_from_event event d w)).
  assert (Hw' : w' = snd (device_statistics_store.insert_from_event
                            event d w)) by reflexivity.
  clearbody w'. revert Hw'.
  unfold device_statistics_store.insert_from_event.
  destruct (negb _); [now left|].
  destruct (payload event) as [p|]; [|now left].
  destruct (as_mapping _) as [stats_map|]; [|now left].
  cbv zeta. unfold mbind at 1.
  destruct (_event_timestamp_cases event w) as [[[e t] ->]|[ex ->]];
    [|now left].
  rewrite !_safe_int_or_zero_value.
  unfold mbind, lift; simpl.
  intros ->. right. eexists; split; [|reflexivity]; reflexivity.
Qed.

Lemma status_store_keeps_keys (event : IngestEvent) (d : Z) (w : world) :
  signals_well_keyed w ->
  signals_well_keyed (snd (device_status_store.ensure_from_event event d w)).
Proof.
  intros Hw.
  destruct (status_store_event_step event d w) as [->|(op & _ & ->)];
    [exact Hw|].
  unfold apply_status.
  destruct (upsert_status_table d (op_status op) (op_ts_epoch op)
              (op_ts_datetime op) w) as (t' & -> & Hk & _).
  destruct Hw as (H1 & H2 & H3 & H4 & H5).
  repeat split; try (apply Hk, H1); try apply H2; try apply H3;
    try apply H5; exact H4.
Qed.

Lemma os_store_keeps_keys (event : IngestEvent) (d : Z) (w : world) :
  signals_well_keyed w ->
  signals_well_keyed
    (snd (device_os_status_store.ensure_from_event event d w)).
Proof.
  intros Hw.
  destruct (os_store_event_step event d w) as [->|(v & e & t & ->)];
    [exact Hw|].
  destruct (upsert_os_version_table d v e t w) as (r & t' & -> & Hk & _).
  destruct Hw as (H1 & H2 & H3 & H4 & H5).
  repeat split; try apply H1; try (apply Hk, H2); try apply H3;
    try apply H5; exact H4.
Qed.

Lemma storage_store_keeps_keys (event : IngestEvent) (d : Z) (w : world) :
  signals_well_keyed w ->
  signals_well_keyed
    (snd (device_storage_status_store.ensure_from_event event d w)).
Proof.
  apply storage_store_closed.
  intros w0 drive drive_type fmt a b c p ts dt Hletter Hw.
  destruct (upsert_drive_table d drive drive_type fmt a b c p ts dt w0)
    as (r & t' & -> & Hk & _ & _ & _ & _ & Hall).
  destruct Hw as (H1 & H2 & H3 & H4 & H5).
  repeat split; try apply H1; try apply H2; try (apply Hk, H3);
    try apply H5. now apply Hall.
Qed.

Lemma statistics_store_keeps_keys (event : IngestEvent) (d : Z)
    (w : world) :
  signals_well_keyed w ->
  signals_well_keyed
    (snd (device_statistics_store.insert_from_event event d w)).
Proof.
  intros Hw.
  destruct (statistics_store_event_step event d w) as [->|(row & Hid & ->)];
    [exact Hw|].
  destruct Hw as (H1 & H2 & H3 & H4 & H5).
  assert (Hk : keyed_table sx_id sx_id
                 (mk_table (rows (device_statistics w) ++ [row])
                           (next_id (device_statistics w) + 1))).
  { apply keyed_insert; auto. rewrite Hid. intros Hin.
    apply in_map_iff in Hin as (r0 & Hr & Hin).
    destruct H5 as (_ & Hlt & _). rewrite Forall_forall in Hlt.
    specialize (Hlt _ Hin). lia. }
  repeat split; try apply H1; try apply H2; try apply H3; try apply Hk.
  exact H4.
Qed.

(** X11.  Every message keeps the database well keyed. Through the
    handler of the connector that [main] builds, and whether the handler
    returns or raises: the device table keeps one row per serial number,
    the status and OS-version tables one row per device, the storage
    table one row per device and drive with every drive a single letter
    A to Z, and no identity value is handed out twice. *)
Theorem message_keeps_database_well_keyed (msg : mqtt_client.MQTTMessage)
    (h : mqtt_client.handler_state main.database) :
  database_well_keyed (mqtt_client.stores _ h) ->
  database_well_keyed
    (mqtt_client.stores _
       (snd (mqtt_client._on_message _ main.connector msg h))).
Proof.
  apply _on_message_closed.
  - intros resolver ev [= <-] db [Hd Hs]. unfold main.on_devices.
    pose proof (devices_well_formed_event ev _ Hd) as Hd'.
    destruct (DeviceStore.ensure_from_event _ _ _ _) as [r t].
    split; [exact Hd'|exact Hs].
  - intros st ev d [= <-] db [Hd Hs]. unfold main.on_signals.
    pose proof (status_store_keeps_keys ev d _ Hs) as Hs'.
    destruct (device_status_store.ensure_from_event _ _ _) as [r w].
    split; [exact Hd|exact Hs'].
  - intros st ev d [= <-] db [Hd Hs]. unfold main.on_signals.
    pose proof (os_store_keeps_keys ev d _ Hs) as Hs'.
    destruct (device_os_status_store.ensure_from_event _ _ _) as [r w].
    split; [exact Hd|exact Hs'].
  - intros st ev d [= <-] db [Hd Hs]. unfold main.on_signals.
    pose proof (storage_store_keeps_keys ev d _ Hs) as Hs'.
    destruct (device_storage_status_store.ensure_from_event _ _ _) as [r w].
    split; [exact Hd|exact Hs'].
  - intros st ev d [= <-] db [Hd Hs]. unfold main.on_signals.
    pose proof (statistics_store_keeps_keys ev d _ Hs) as Hs'.
    destruct (device_statistics_store.insert_from_event _ _ _) as [r w].
    split; [exact Hd|exact Hs'].
Qed.
End WellKeyed.

Section UpsertTheorems.
Context {rt : Runtime}.

(** X12.  The OS-Version Store keeps one row per device and the last
    write wins. On a well keyed table [upsert_os_version] returns; the
    row of the device then carries the version and timestamp just
    written, and the result says [created] exactly when the device had
    no row. A second write for the same device updates that row: it
    creates nothing, the row count stays, and the row carries the second
    version. The rows of all other devices read as before. *)
Theorem os_version_last_write_wins (d : Z) (v1 v2 : pystr) (e1 e2 : Z)
    (t1 t2 : datetime) (w : world) :
  keyed_table os_id os_device_id (device_os_status w) ->
  let w1 := snd (device_os_status_store.upsert_os_version d v1 e1 t1 w) in
  let w2 := snd (device_os_status_store.upsert_os_version d v2 e2 t2 w1) in
  (exists r,
      fst (device_os_status_store.upsert_os_version d v1 e1 t1 w) = Ok r
      /\ os_row_of d w1
         = Some {| os_id := device_os_status_store.device_os_status_id r;
                   os_device_id := d; os_version := v1; os_ts_epoch := e1;
                   os_ts_datetime := t1 |}
      /\ device_os_status_store.created r
         = match os_row_of d w with None => true | Some _ => false end)
  /\ (exists r,
         fst (device_os_status_store.upsert_os_version d v2 e2 t2 w1) = Ok r
         /\ device_os_status_store.created r = false
         /\ os_row_of d w2
            = Some {| os_id := device_os_status_store.device_os_status_id r;
                      os_device_id := d; os_version := v2; os_ts_epoch := e2;
                      os_ts_datetime := t2 |})
  /\ List.length (rows (device_os_status w2))
     = List.length (rows (device_os_status w1))
  /\ (forall d', d' <> d ->
        os_row_of d' w1 = os_row_of d' w /\ os_row_of d' w2 = os_row_of d' w)
  /\ keyed_table os_id os_device_id (device_os_status w2).
Proof.
  intros Hk. cbv zeta.
  destruct (upsert_os_version_table d v1 e1 t1 w)
    as (r1 & t1' & Hup1 & Hk1 & Hother1 & _ & Hrow1 & Hcreated1).
  rewrite Hup1. cbn [fst snd].
  destruct (upsert_os_version_table d v2 e2 t2 (with_device_os_status t1' w))
    as (r2 & t2' & Hup2 & Hk2 & Hother2 & Hlen2 & Hrow2 & Hcreated2).
  rewrite Hup2. cbn [fst snd].
  unfold os_row_of in *. cbn [device_os_status with_device_os_status] in *.
  rewrite Hrow1 in Hcreated2, Hlen2.
  specialize (Hk1 Hk). specialize (Hk2 Hk1).
  split; [exists r1; auto|].
  split; [exists r2; auto|].
  split; [lia|]. split; [|exact Hk2].
  intros d' Hne. rewrite (Hother2 (proj1 Hk1) d' Hne).
  rewrite (Hother1 (proj1 Hk) d' Hne). split; reflexivity.
Qed.

(** X13.  The Storage Store keeps one row per device and drive. On a
    well keyed table [upsert_drive] returns; the row of that device and
    drive then carries exactly the values written; the result says
    [created] exactly when there was no such row, and only then does the
    table grow, by one row; the row of every other device or drive reads
    as before; and the table stays well keyed. *)
Theorem upsert_drive_one_row_per_drive (d : Z) (drive : pystr)
    (drive_type fmt : option pystr) (a b c p : option float) (e : Z)
    (t : datetime) (w : world) :
  keyed_table sg_id storage_key (device_storage_status w) ->
  let w' := snd (device_storage_status_store.upsert_drive d drive drive_type
                   fmt a b c p e t w) in
  (exists r,
      fst (device_storage_status_store.upsert_drive d drive drive_type fmt
             a b c p e t w) = Ok r
      /\ storage_row_of d drive w'
         = Some {| sg_id := device_storage_status_store.device_storage_id r;
                   sg_device_id := d; sg_drive := drive;
                   sg_drive_type := drive_type; sg_format := fmt;
                   sg_total_gb := a; sg_free_gb := b; sg_used_gb := c;
                   sg_usage_percent := p; sg_ts_epoch := e;
                   sg_ts_datetime := t |}
      /\ device_storage_status_store.created r
         = match storage_row_of d drive w with
           | None => true
           | Some _ => false
           end)
  /\ List.length (rows (device_storage_status w'))
     = (List.length (rows (device_storage_status w))
        + match storage_row_of d drive w with None => 1 | Some _ => 0 end)%nat
  /\ (forall d' drive', (d', drive') <> (d, drive) ->
        storage_row_of d' drive' w' = storage_row_of d' drive' w)
  /\ keyed_table sg_id storage_key (device_storage_status w').
Proof.
  intros Hk. cbv zeta.
  destruct (upsert_drive_table d drive drive_type fmt a b c p e t w)
    as (r & t' & Hup & Hk' & Hother & Hlen & Hrow & Hcreated & _).
  rewrite Hup. cbn [fst snd].
  unfold storage_row_of in *.
  cbn [device_storage_status with_device_storage_status] in *.
  split; [exists r; auto|]. split; [exact Hlen|].
  split; [|exact (Hk' Hk)].
  intros d' drive' Hne. exact (Hother (proj1 Hk) d' drive' Hne).
Qed.

(** X14.  The Status Store touches the row of one device. On a well
    keyed table, an upsert for a device leaves the status row of every
    other device as it was, adds a row only when the device had none,
    and keeps the table well keyed. *)
Theorem upsert_status_one_device (d : Z) (status : pystr) (e : Z)
    (t : datetime) (w : world) :
  keyed_table st_id st_device_id (device_status w) ->
  let w' := snd (device_status_store.upsert_status d status e t w) in
  (forall d', d' <> d -> status_row_of d' w' = status_row_of d' w)
  /\ List.length (rows (device_status w'))
     = (List.length (rows (device_status w))
        + match status_row_of d w with None => 1 | Some _ => 0 end)%nat
  /\ keyed_table st_id st_device_id (device_status w').
Proof.
  intros Hk. cbv zeta.
  destruct (upsert_status_table d status e t w)
    as (t' & Hup & Hk' & Hother & Hlen).
  rewrite Hup. unfold status_row_of in *.
  cbn [device_status with_device_status] in *.
  split; [|split; [exact Hlen|exact (Hk' Hk)]].
  intros d' Hne. exact (Hother (proj1 Hk) d' Hne).
Qed.
End UpsertTheorems.

(* ------------------------------------------------------------------ *)
(** * Configuration and subscriptions *)

Lemma pystr_eqb_sym (a b : pystr) : PyStr.eqb a b = PyStr.eqb b a.
Proof.
  destruct (pystr_eqb_spec a b) as [->|Hne].
  - now rewrite pystr_eqb_refl.
  - destruct (pystr_eqb_spec b a) as [->|_]; [congruence|reflexivity].
Qed.

Lemma mem_In (x : pystr) (set : list pystr) : mem x set = true <-> In x set.
Proof.
  unfold mem. rewrite existsb_exists. split.
  - intros (y & Hy & Heq). apply pystr_eqb_eq in Heq. now subst.
  - intros Hin. exists x. split; [exact Hin|apply pystr_eqb_refl].
Qed.

Lemma strip_idempotent (s : pystr) : strip (strip s) = strip s.
Proof.
  unfold strip.
  destruct (strip_by_middle is_space s) as (pre & suf & _ & Hhd & Hlast).
  now apply strip_by_fixed.
Qed.

Lemma strip_In (c : N) (s : pystr) : In c (strip s) -> In c s.
Proof.
  unfold strip.
  destruct (strip_by_middle is_space s) as (pre & suf & Hs & _).
  intros Hin. rewrite Hs. apply in_or_app. right. apply in_or_app. now left.
Qed.

Lemma split_piece_chars (sep : N) (s piece : pystr) (c : N) :
  In piece (PyStr.split sep s) -> In c piece -> In c s /\ c <> sep.
Proof.
  revert piece. induction s as [|a s IH]; simpl; intros piece Hp Hc.
  - destruct Hp as [<-|[]]. destruct Hc.
  - destruct (N.eqb_spec a sep) as [->|Hne].
    + destruct Hp as [<-|Hp]; [destruct Hc|].
      destruct (IH _ Hp Hc). auto.
    + destruct (PyStr.split sep s) as [|p ps] eqn:Hsplit.
      * destruct Hp as [<-|[]]. destruct Hc as [<-|[]]. auto.
      * destruct Hp as [<-|Hp].
        -- destruct Hc as [<-|Hc]; [auto|].
           destruct (IH p (or_introl eq_refl) Hc). auto.
        -- destruct (IH piece (or_intror Hp) Hc). auto.
Qed.

Lemma stripped_topics_clean (topics : list pystr) :
  Forall clean_topic (mqtt_connection.stripped_topics topics).
Proof.
  unfold mqtt_connection.stripped_topics. apply Forall_forall.
  intros t Ht. apply in_map_iff in Ht as (t0 & <- & Ht0).
  apply filter_In in Ht0 as [_ Hb]. apply andb_true_iff in Hb as [_ Hb].
  split; [exact Hb|apply strip_idempotent].
Qed.

Lemma stripped_topics_source (topics : list pystr) (t : pystr) :
  In t (mqtt_connection.stripped_topics topics) ->
  exists t0, In t0 topics /\ t = strip t0.
Proof.
  unfold mqtt_connection.stripped_topics. intros Ht.
  apply in_map_iff in Ht as (t0 & <- & Ht0).
  apply filter_In in Ht0 as [Hin _]. eauto.
Qed.

Lemma stripped_topics_fixed (topics : list pystr) :
  Forall clean_topic topics ->
  mqtt_connection.stripped_topics topics = topics.
Proof.
  unfold mqtt_connection.stripped_topics.
  induction 1 as [|t ts [Ht Hs] _ IH]; [reflexivity|].
  cbn [filter]. rewrite Hs, Ht. cbn [andb map]. rewrite Hs.
  f_equal. exact IH.
Qed.

Lemma clamp_qos_range (q : Z) : 0 <= mqtt_connection.clamp_qos q <= 2.
Proof.
  unfold mqtt_connection.clamp_qos.
  destruct (Z.ltb_spec q 0); [lia|].
  destruct (q >? 2) eqn:Hgt; [lia|]. rewrite Z.gtb_ltb in Hgt.
  apply Z.ltb_ge in Hgt. lia.
Qed.

Lemma clamp_qos_fixed (q : Z) :
  0 <= q <= 2 -> mqtt_connection.clamp_qos q = q.
Proof.
  intros Hq. unfold mqtt_connection.clamp_qos.
  destruct (Z.ltb_spec q 0); [lia|].
  destruct (q >? 2) eqn:Hgt; [|reflexivity]. rewrite Z.gtb_ltb in Hgt.
  apply Z.ltb_lt in Hgt. lia.
Qed.

Section DesiredFacts.

Lemma desired_qos_set (k : pystr) (v : Z) (t : pystr)
    (d : list (pystr * Z)) :
  desired_qos t (mqtt_connection.dict_set k v d)
  = if PyStr.eqb k t then Some v else desired_qos t d.
Proof.
  induction d as [|[k0 v0] d IH]; simpl; [reflexivity|].
  destruct (pystr_eqb_spec k0 k) as [->|Hne]; simpl.
  - now destruct (PyStr.eqb k t).
  - rewrite IH. destruct (pystr_eqb_spec k0 t) as [->|Hne'];
      [|reflexivity].
    destruct (pystr_eqb_spec k t) as [->|_]; [congruence|reflexivity].
Qed.

Lemma dict_set_keys_in (k : pystr) (v : Z) (x : pystr)
    (d : list (pystr * Z)) :
  In x (map fst (mqtt_connection.dict_set k v d))
  <-> x = k \/ In x (map fst d).
Proof.
  induction d as [|[k0 v0] d IH]; simpl; [intuition|].
  destruct (pystr_eqb_spec k0 k) as [->|Hne]; simpl; [intuition|].
  rewrite IH. intuition.
Qed.

Lemma dict_set_NoDup (k : pystr) (v : Z) (d : list (pystr * Z)) :
  NoDup (map fst d) -> NoDup (map fst (mqtt_connection.dict_set k v d)).
Proof.
  induction d as [|[k0 v0] d IH]; simpl; intros Hnd.
  - constructor; [intros []|constructor].
  - inversion Hnd as [|? ? Hnotin Hnd']; subst.
    destruct (pystr_eqb_spec k0 k) as [->|Hne]; simpl;
      [now constructor|].
    constructor; [|auto].
    rewrite dict_set_keys_in. intros [->|Hin]; [congruence|auto].
Qed.

Lemma dict_set_Forall (P : pystr * Z -> Prop) (k : pystr) (v : Z)
    (d : list (pystr * Z)) :
  Forall P d -> P (k, v) -> Forall P (mqtt_connection.dict_set k v d).
Proof.
  intros Hd Hk. induction Hd as [|[k0 v0] d H0 Hd IH]; simpl.
  - constructor; [exact Hk|constructor].
  - destruct (pystr_eqb_spec k0 k) as [->|Hne]; constructor; auto.
Qed.

Lemma desired_qos_In (t : pystr) (q : Z) (d : list (pystr * Z)) :
  desired_qos t d = Some q -> In (t, q) d.
Proof.
  induction d as [|[k0 v0] d IH]; simpl; [discriminate|].
  destruct (pystr_eqb_spec k0 t) as [->|Hne].
  - intros [= ->]. now left.
  - intros H. right. auto.
Qed.

Lemma In_desired_qos (t : pystr) (q : Z) (d : list (pystr * Z)) :
  NoDup (map fst d) -> In (t, q) d -> desired_qos t d = Some q.
Proof.
  induction d as [|[k0 v0] d IH]; simpl; intros Hnd Hin; [destruct Hin|].
  inversion Hnd as [|? ? Hnotin Hnd']; subst.
  destruct Hin as [[= -> ->]|Hin]; [now rewrite pystr_eqb_refl|].
  destruct (pystr_eqb_spec k0 t) as [->|Hne]; [|auto].
  destruct Hnotin. change t with (fst (t, q)). now apply in_map.
Qed.

Lemma desired_qos_fold (q : Z) (t : pystr) (topics : list pystr)
    (d : list (pystr * Z)) :
  desired_qos t
    (fold_left (fun d topic => mqtt_connection.dict_set topic q d) topics d)
  = if mem t topics then Some q else desired_qos t d.
Proof.
  revert d. induction topics as [|a topics IH]; intros d; [reflexivity|].
  cbn [fold_left]. rewrite IH, desired_qos_set.
  unfold mem. cbn [existsb]. rewrite (pystr_eqb_sym t a).
  destruct (PyStr.eqb a t); simpl;
    now destruct (existsb (PyStr.eqb t) topics).
Qed.

Lemma fold_dict_set_invariant (q : Z) (topics : list pystr)
    (d : list (pystr * Z)) :
  Forall clean_topic topics -> 0 <= q <= 2 ->
  Forall valid_subscription d /\ NoDup (map fst d) ->
  Forall valid_subscription
    (fold_left (fun d topic => mqtt_connection.dict_set topic q d) topics d)
  /\ NoDup (map fst
              (fold_left (fun d topic => mqtt_connection.dict_set topic q d)
                         topics d)).
Proof.
  intros Htopics Hq. revert d.
  induction Htopics as [|a topics Ha _ IH]; intros d [Hd Hnd];
    [now split|].
  cbn [fold_left]. apply IH. split.
  - apply dict_set_Forall; [exact Hd|]. split; [exact Ha|exact Hq].
  - now apply dict_set_NoDup.
Qed.
End DesiredFacts.

Section ConnectionFacts.
Context {C : Type}.
Variable client_subscribe : pystr -> Z -> C -> result Z * C.

(** The loop changes the client and the log only, and what it logs is
    about the subscriptions it was given, whether it ends or raises. *)
Lemma subscribe_items_frame (items : list (pystr * Z))
    (self : mqtt_connection.connection C) :
  let self' :=
    snd (mqtt_connection.subscribe_items C client_subscribe items self) in
  mqtt_connection._desired_subscriptions C self'
  = mqtt_connection._desired_subscriptions C self
  /\ mqtt_connection._connected_event C self'
     = mqtt_connection._connected_event C self
  /\ mqtt_connection._connect_rc C self' = mqtt_connection._connect_rc C self
  /\ (Forall valid_subscription items ->
      Forall entry_valid (mqtt_connection.logged C self) ->
      Forall entry_valid (mqtt_connection.logged C self')).
Proof.
  revert self. induction items as [|[topic qos] items IH]; intros self;
    cbn [mqtt_connection.subscribe_items]; [cbn; auto|].
  destruct (client_subscribe topic qos (mqtt_connection._client C self))
    as [[result|e] c]; [|cbn; auto].
  match goal with
  | |- context [mqtt_connection.subscribe_items C client_subscribe items ?s] =>
      destruct (IH s) as (H1 & H2 & H3 & H4)
  end.
  cbv zeta in *. rewrite H1, H2, H3. cbn.
  repeat split; try reflexivity.
  intros Hitems Hlog. inversion Hitems as [|? ? [Htopic Hqos] Hrest]; subst.
  apply H4; [exact Hrest|]. cbn. apply Forall_app. split; [exact Hlog|].
  constructor; [|constructor].
  destruct (negb (result =? mqtt_connection.MQTT_ERR_SUCCESS)); cbn;
    [exact Htopic|split; [exact Htopic|exact Hqos]].
Qed.

(** With a client that raises for no subscription, the loop ends and
    logs one entry for each subscription, in their order. *)
Lemma subscribe_items_accepting (items : list (pystr * Z))
    (self : mqtt_connection.connection C) :
  accepting client_subscribe ->
  exists self' entries,
    mqtt_connection.subscribe_items C client_subscribe items self
    = (Ok tt, self')
    /\ mqtt_connection.logged C self'
       = mqtt_connection.logged C self ++ entries
    /\ Forall2 entry_for items entries.
Proof.
  intros Hacc. revert self.
  induction items as [|[topic qos] items IH]; intros self;
    cbn [mqtt_connection.subscribe_items].
  - exists self, []. rewrite app_nil_r. repeat split. constructor.
  - destruct (Hacc topic qos (mqtt_connection._client C self))
      as (result & c & ->).
    match goal with
    | |- context [mqtt_connection.subscribe_items C client_subscribe items
                    ?s] =>
        destruct (IH s) as (self' & entries & -> & Hlog & Hall)
    end.
    cbn in Hlog. rewrite <- app_assoc in Hlog.
    eexists; eexists; split; [reflexivity|]. split; [exact Hlog|].
    constructor; [|exact Hall].
    unfold mqtt_connection.MQTT_ERR_SUCCESS.
    destruct (Z.eqb_spec result 0) as [->|Hne]; cbn.
    + now left.
    + right. exists result. split; [exact Hne|reflexivity].
Qed.

(** With such a client the loop calls it once for each subscription,
    in order, and the log shows for each call what the client
    answered. *)
Lemma subscribe_items_answers (items : list (pystr * Z))
    (self : mqtt_connection.connection C) :
  accepting client_subscribe ->
  exists self' results,
    mqtt_connection.subscribe_items C client_subscribe items self
    = (Ok tt, self')
    /\ client_answers client_subscribe items
         (mqtt_connection._client C self) results
         (mqtt_connection._client C self')
    /\ mqtt_connection.logged C self'
       = mqtt_connection.logged C self ++ entries_of items results
    /\ List.length results = List.length items.
Proof.
  intros Hacc. revert self.
  induction items as [|[topic qos] items IH]; intros self;
    cbn [mqtt_connection.subscribe_items].
  - exists self, []. unfold entries_of. cbn. rewrite app_nil_r.
    repeat split. constructor.
  - destruct (Hacc topic qos (mqtt_connection._client C self))
      as (result & c & Hcall). rewrite Hcall.
    match goal with
    | |- context [mqtt_connection.subscribe_items C client_subscribe items
                    ?s] =>
        destruct (IH s) as (self' & results & -> & Hans & Hlog & Hlen)
    end.
    cbn [mqtt_connection._client mqtt_connection.logged] in Hans, Hlog.
    rewrite <- app_assoc in Hlog.
    exists self', (result :: results). split; [reflexivity|].
    split; [econstructor; eassumption|].
    split; [|cbn; now rewrite Hlen].
    rewrite Hlog. unfold entries_of, entry_of. cbn [combine map fst snd app].
    now destruct (result =? mqtt_connection.MQTT_ERR_SUCCESS).
Qed.

Lemma _subscribe_desired_subscriptions_items
    (self : mqtt_connection.connection C) :
  mqtt_connection._subscribe_desired_subscriptions C client_subscribe self
  = mqtt_connection.subscribe_items C client_subscribe
      (mqtt_connection._desired_subscriptions C self) self.
Proof.
  unfold mqtt_connection._subscribe_desired_subscriptions. cbv zeta.
  now destruct (mqtt_connection._desired_subscriptions C self).
Qed.

Lemma subscribe_keeps_invariant (topics : mqtt_connection.topics_arg)
    (qos : Z) (self : mqtt_connection.connection C) :
  subscription_invariant self ->
  subscription_invariant
    (snd (mqtt_connection.subscribe C client_subscribe topics qos self)).
Proof.
  intros (Hd & Hnd & Hlog). unfold mqtt_connection.subscribe. cbv zeta.
  pose proof (stripped_topics_clean
                match topics with
                | mqtt_connection.OneTopic t => [t]
                | mqtt_connection.ManyTopics ts => ts
                end) as Hclean.
  destruct (mqtt_connection.stripped_topics _) as [|t ts] eqn:Hts;
    [now repeat split|].
  destruct (fold_dict_set_invariant (mqtt_connection.clamp_qos qos)
              (t :: ts) (mqtt_connection._desired_subscriptions C self)
              Hclean (clamp_qos_range qos) (conj Hd Hnd)) as [Hd' Hnd'].
  cbn [mqtt_connection._connected_event mqtt_connection._connect_rc].
  destruct (_ && _); [|now repeat split].
  rewrite _subscribe_desired_subscriptions_items.
  match goal with
  | |- context [mqtt_connection.subscribe_items C client_subscribe ?i ?s] =>
      destruct (subscribe_items_frame i s) as (H1 & _ & _ & H4)
  end.
  cbv zeta in H1, H4. unfold subscription_invariant. rewrite H1.
  cbn [mqtt_connection._desired_subscriptions] in *.
  repeat split; auto.
Qed.

Lemma _on_connect_keeps_invariant (flags : dict) (rc : Z)
    (self : mqtt_connection.connection C) :
  subscription_invariant self ->
  subscription_invariant
    (snd (mqtt_connection._on_connect C client_subscribe flags rc self)).
Proof.
  intros (Hd & Hnd & Hlog). unfold mqtt_connection._on_connect. cbv zeta.
  assert (Hlog' :
    Forall entry_valid
      (mqtt_connection.logged C self
       ++ [mqtt_connection.LogOnConnect rc
             (mqtt_connection.json_truthy (dict_get (u "session present")
                                                    flags)
              || mqtt_connection.json_truthy
                   (dict_get (u "session_present") flags))])).
  { apply Forall_app. split; [exact Hlog|]. repeat constructor. }
  destruct (rc =? 0); [|now repeat split].
  rewrite _subscribe_desired_subscriptions_items.
  match goal with
  | |- context [mqtt_connection.subscribe_items C client_subscribe ?i ?s] =>
      destruct (subscribe_items_frame i s) as (H1 & _ & _ & H4)
  end.
  cbv zeta in H1, H4. unfold subscription_invariant. rewrite H1.
  cbn [mqtt_connection._desired_subscriptions mqtt_connection.logged] in *.
  repeat split; auto.
Qed.

Lemma perform_keeps_invariant (c : call)
    (self : mqtt_connection.connection C) :
  subscription_invariant self ->
  subscription_invariant (snd (perform client_subscribe c self)).
Proof.
  destruct c as [topics qos|flags rc|rc]; cbn [perform].
  - apply subscribe_keeps_invariant.
  - apply _on_connect_keeps_invariant.
  - intros (Hd & Hnd & Hlog). repeat split; auto. cbn.
    apply Forall_app. split; [exact Hlog|].
    constructor; [|constructor]. now destruct (negb (rc =? 0)).
Qed.

(** X15.  The connector keeps its subscriptions valid. After any
    sequence of [subscribe] calls and connection callbacks on a new
    connector, whatever the client answers and whether the calls return
    or raise: every desired subscription has a topic that is not blank
    and has no surrounding whitespace and a QoS from 0 to 2, no topic is
    desired twice, and every subscription the log shows as sent or
    refused was such a one. *)
Theorem subscriptions_always_valid (calls : list call) (client : C) :
  subscription_invariant
    (perform_all client_subscribe calls (mqtt_connection.created C client)).
Proof.
  unfold perform_all.
  assert (Hinit : subscription_invariant (mqtt_connection.created C client)).
  { repeat split; constructor. }
  revert Hinit. generalize (mqtt_connection.created C client).
  induction calls as [|c calls IH]; intros self Hself; [exact Hself|].
  cbn [fold_left]. apply IH. now apply perform_keeps_invariant.
Qed.

(** X16.  [subscribe] records the request, and the last QoS wins. After
    [subscribe(topics, qos)], whether it returns or raises, each topic
    of the request that is not blank is desired, trimmed, with the QoS
    of this request brought into the range 0 to 2, and every other topic
    is desired as before. While the connector is not connected the call
    returns without touching the client or the log. *)
Theorem subscribe_last_qos_wins (topics : mqtt_connection.topics_arg)
    (qos : Z) (self : mqtt_connection.connection C) :
  let wanted :=
    mqtt_connection.stripped_topics
      match topics with
      | mqtt_connection.OneTopic t => [t]
      | mqtt_connection.ManyTopics ts => ts
      end in
  let self' :=
    snd (mqtt_connection.subscribe C client_subscribe topics qos self) in
  (forall t,
      desired_qos t (mqtt_connection._desired_subscriptions C self')
      = if mem t wanted then Some (mqtt_connection.clamp_qos qos)
        else desired_qos t (mqtt_connection._desired_subscriptions C self))
  /\ (0 <= mqtt_connection.clamp_qos qos <= 2
      /\ (0 <= qos <= 2 -> mqtt_connection.clamp_qos qos = qos))
  /\ (connected self = false ->
      mqtt_connection.subscribe C client_subscribe topics qos self
      = (Ok tt, self')
      /\ mqtt_connection._client C self' = mqtt_connection._client C self
      /\ mqtt_connection.logged C self' = mqtt_connection.logged C self).
Proof.
  cbv zeta. split; [|split].
  - intros t. unfold mqtt_connection.subscribe. cbv zeta.
    destruct (mqtt_connection.stripped_topics _) as [|t0 ts] eqn:Hts;
      [reflexivity|].
    cbn [mqtt_connection._connected_event mqtt_connection._connect_rc].
    destruct (_ && _).
    + rewrite _subscribe_desired_subscriptions_items.
      match goal with
      | |- context [mqtt_connection.subscribe_items C client_subscribe ?i
                      ?s] =>
          destruct (subscribe_items_frame i s) as (H1 & _)
      end.
      cbv zeta in H1. rewrite H1.
      cbn [mqtt_connection._desired_subscriptions].
      apply desired_qos_fold.
    + cbn [snd mqtt_connection._desired_subscriptions].
      apply desired_qos_fold.
  - split; [apply clamp_qos_range|apply clamp_qos_fixed].
  - unfold connected, mqtt_connection.subscribe. cbv zeta. intros Hc.
    destruct (mqtt_connection.stripped_topics _) as [|t0 ts];
      [now repeat split|].
    cbn [mqtt_connection._connected_event mqtt_connection._connect_rc].
    rewrite Hc. now repeat split.
Qed.

(** X17.  A successful connection sends every desired subscription. With
    a client that raises for no subscription, [_on_connect] with return
    code 0 returns and marks the connector connected; the client has
    then been called exactly once for each desired subscription, in
    their order, with its topic and its QoS; and the log holds, after
    the line of the callback itself, one entry for each of these calls
    that says what the client answered: sent with the desired QoS when
    the client returned success, refused with the code the client
    returned otherwise. The desired subscriptions stay as they were, so
    that a reconnection sends them all again. With any other return
    code the call returns without touching the client, and a
    [subscribe] that follows it does not touch the client either. *)
Theorem on_connect_resubscribes (flags : dict)
    (self : mqtt_connection.connection C) :
  accepting client_subscribe ->
  (exists self' results,
      mqtt_connection._on_connect C client_subscribe flags 0 self
      = (Ok tt, self')
      /\ client_answers client_subscribe
           (mqtt_connection._desired_subscriptions C self)
           (mqtt_connection._client C self) results
           (mqtt_connection._client C self')
      /\ List.length results
         = List.length (mqtt_connection._desired_subscriptions C self)
      /\ mqtt_connection.logged C self'
         = mqtt_connection.logged C self
           ++ mqtt_connection.LogOnConnect 0
                (mqtt_connection.json_truthy
                   (dict_get (u "session present") flags)
                 || mqtt_connection.json_truthy
                      (dict_get (u "session_present") flags))
              :: entries_of (mqtt_connection._desired_subscriptions C self)
                   results
      /\ mqtt_connection._desired_subscriptions C self'
         = mqtt_connection._desired_subscriptions C self
      /\ connected self' = true)
  /\ (forall rc topics qos,
         rc <> 0 ->
         let refused :=
           snd (mqtt_connection._on_connect C client_subscribe flags rc
                  self) in
         fst (mqtt_connection._on_connect C client_subscribe flags rc self)
         = Ok tt
         /\ mqtt_connection._client C refused = mqtt_connection._client C self
         /\ connected refused = false
         /\ mqtt_connection._client C
              (snd (mqtt_connection.subscribe C client_subscribe topics qos
                      refused))
            = mqtt_connection._client C self).
Proof.
  intros Hacc. split.
  - unfold mqtt_connection._on_connect. cbv zeta. cbn [Z.eqb].
    rewrite _subscribe_desired_subscriptions_items.
    match goal with
    | |- context [mqtt_connection.subscribe_items C client_subscribe ?i ?s] =>
        destruct (subscribe_items_answers i s Hacc)
          as (self' & results & Hrun & Hans & Hlog & Hlen);
        destruct (subscribe_items_frame i s) as (H1 & H2 & H3 & _)
    end.
    cbv zeta in H1, H2, H3. rewrite Hrun in H1, H2, H3 |- *.
    cbn [snd mqtt_connection._desired_subscriptions
         mqtt_connection._connected_event mqtt_connection._connect_rc
         mqtt_connection.logged mqtt_connection._client] in *.
    exists self', results. split; [reflexivity|].
    split; [exact Hans|]. split; [exact Hlen|].
    rewrite <- app_assoc in Hlog. split; [exact Hlog|].
    split; [exact H1|].
    unfold connected. now rewrite H2, H3.
  - intros rc topics qos Hrc. cbv zeta.
    unfold mqtt_connection._on_connect. cbv zeta.
    destruct (Z.eqb_spec rc 0) as [->|_]; [congruence|].
    cbn [fst snd mqtt_connection._client].
    assert (Hnot : connected
                     (mqtt_connection.mk_connection C
                        (mqtt_connection._client C self) true (Some rc)
                        (mqtt_connection._desired_subscriptions C self)
                        (mqtt_connection.logged C self
                         ++ [mqtt_connection.LogOnConnect rc
                               (mqtt_connection.json_truthy
                                  (dict_get (u "session present") flags)
                                || mqtt_connection.json_truthy
                                     (dict_get (u "session_present")
                                               flags))]))
                   = false).
    { unfold connected. cbn. now apply Z.eqb_neq. }
    repeat split; [exact Hnot|].
    unfold connected in Hnot. unfold mqtt_connection.subscribe. cbv zeta.
    destruct (mqtt_connection.stripped_topics _); [reflexivity|].
    cbn [mqtt_connection._connected_event mqtt_connection._connect_rc] in *.
    rewrite Hnot. reflexivity.
Qed.
End ConnectionFacts.

Section ConfigurationFacts.
Context {rt : Runtime}.
Variable environ : string -> option pystr.

Lemma int_or_returns (raw : pystr) (default : Z) :
  int_raises_value_error ->
  exists n, int_or raw default = Ok n.
Proof.
  intros Hint. unfold int_or.
  destruct (int_of_str raw) as [n|e] eqn:Hraw; [eauto|].
  rewrite (Hint raw e Hraw). eauto.
Qed.

(** [params_from_env] returns, and what it returns for the ingest
    subscription. *)
Lemma params_from_env_returns :
  int_raises_value_error ->
  exists p qos,
    mqtt_connection.params_from_env environ = Ok p
    /\ mqtt_connection.ingest_qos p = mqtt_connection.clamp_qos qos
    /\ mqtt_connection.ingest_topics p
       = mqtt_connection.stripped_topics
           (PyStr.split comma
              (replace_char semicolon comma
                 (_get environ "INGEST_TOPICS" [])))
    /\ mqtt_connection.client_id p
       = or_default
           (_get environ "MQTT_CLIENT_ID" (u "mqtt_ingest"))
           (u "mqtt_ingest")
    /\ mqtt_connection.transport p
       = or_default
           (_get environ "MQTT_TRANSPORT" (u "tcp"))
           (u "tcp")
    /\ mqtt_connection.username p
       = or_none
           (_get environ "MQTT_USERNAME" [])
    /\ mqtt_connection.password p
       = or_none
           (_get environ "MQTT_PASSWORD" [])
    /\ mqtt_connection.ws_path p
       = or_none
           (_get environ "MQTT_WS_PATH" []).
Proof.
  intros Hint. unfold mqtt_connection.params_from_env. cbv zeta.
  destruct (int_or_returns
              (_get environ "MQTT_PORT" (u "1883")) 1883
              Hint) as [port ->].
  destruct (int_or_returns
              (_get environ "MQTT_KEEPALIVE" (u "60")) 60
              Hint) as [keepalive ->].
  destruct (int_or_returns
              (_get environ "INGEST_QOS" (u "0")) 0
              Hint) as [qos ->].
  cbn [bind]. eexists; exists qos. split; [reflexivity|].
  cbn. repeat split; reflexivity.
Qed.

Lemma or_none_not_empty (x : pystr) : or_none x <> Some [].
Proof. unfold or_none. destruct x; cbn; congruence. Qed.

Lemma or_default_truthy (x default : pystr) :
  truthy default = true ->
  truthy (or_default x default) = true.
Proof.
  intros Hd. unfold or_default.
  now destruct (truthy x) eqn:Hx.
Qed.

Lemma configured_topic_chars (raw t : pystr) :
  In t (mqtt_connection.stripped_topics
          (PyStr.split comma (replace_char semicolon comma raw))) ->
  ~ In comma t /\ ~ In semicolon t.
Proof.
  intros Ht. apply stripped_topics_source in Ht as (t0 & Ht0 & ->).
  split; intros Hin; apply strip_In in Hin;
    destruct (split_piece_chars _ _ _ _ Ht0 Hin) as [Hraw Hne];
    [congruence|].
  unfold replace_char in Hraw. apply in_map_iff in Hraw as (c & Hc & _).
  destruct (N.eqb_spec c semicolon); [discriminate|congruence].
Qed.

(** X18.  The MQTT configuration read from the environment is always
    usable. Provided [int] raises nothing but [ValueError] on a string,
    [params_from_env] returns for every environment; the QoS it returns
    is 0, 1 or 2; every ingest topic is not blank, has no surrounding
    whitespace and contains neither a comma nor a semicolon, so that the
    trimming of [subscribe] leaves the list as it is; the client id and
    the transport are not empty; and user name, password and WebSocket
    path are absent rather than empty. *)
Theorem params_from_env_usable :
  int_raises_value_error ->
  exists p,
    mqtt_connection.params_from_env environ = Ok p
    /\ 0 <= mqtt_connection.ingest_qos p <= 2
    /\ Forall (fun t => clean_topic t /\ ~ In comma t /\ ~ In semicolon t)
              (mqtt_connection.ingest_topics p)
    /\ mqtt_connection.stripped_topics (mqtt_connection.ingest_topics p)
       = mqtt_connection.ingest_topics p
    /\ truthy (mqtt_connection.client_id p) = true
    /\ truthy (mqtt_connection.transport p) = true
    /\ mqtt_connection.username p <> Some []
    /\ mqtt_connection.password p <> Some []
    /\ mqtt_connection.ws_path p <> Some [].
Proof.
  intros Hint.
  destruct (params_from_env_returns Hint)
    as (p & qos & Hp & Hqos & Htopics & Hid & Htr & Hu & Hpw & Hws).
  exists p. split; [exact Hp|].
  rewrite Hqos, Htopics, Hid, Htr, Hu, Hpw, Hws.
  split; [apply clamp_qos_range|]. split; [|split].
  - apply Forall_forall. intros t Ht. split.
    + pose proof (stripped_topics_clean
                    (PyStr.split comma
                       (replace_char semicolon comma
                          (_get environ "INGEST_TOPICS" []))))
        as Hclean.
      rewrite Forall_forall in Hclean. now apply Hclean.
    + now apply configured_topic_chars with
        (raw := _get environ "INGEST_TOPICS" []).
  - apply stripped_topics_fixed, stripped_topics_clean.
  - repeat split; try apply or_none_not_empty;
      now apply or_default_truthy.
Qed.
End ConfigurationFacts.

Section ConfiguredSubscriptions.
Context {rt : Runtime} {C : Type}.
Variable client_subscribe : pystr -> Z -> C -> result Z * C.
Variable environ : string -> option pystr.

(** X19.  What [main] subscribes to. Provided [int] raises nothing but
    [ValueError] and the client raises for no subscription: on a
    connected connector without subscriptions, reading the configuration
    and subscribing its topics returns; the desired subscriptions are
    then exactly the configured topics, each once and each with the
    configured QoS; and the log gains one entry for each of them, in
    their order, sent or refused. *)
Theorem configured_topics_subscribed
    (self : mqtt_connection.connection C) :
  int_raises_value_error ->
  accepting client_subscribe ->
  connected self = true ->
  mqtt_connection._desired_subscriptions C self = [] ->
  exists p self' entries,
    mqtt_connection.params_from_env environ = Ok p
    /\ main.subscribe_ingest_topics client_subscribe p self = (Ok tt, self')
    /\ mqtt_connection.logged C self'
       = mqtt_connection.logged C self ++ entries
    /\ Forall2 entry_for (mqtt_connection._desired_subscriptions C self')
               entries
    /\ NoDup (map fst (mqtt_connection._desired_subscriptions C self'))
    /\ (forall t q,
           In (t, q) (mqtt_connection._desired_subscriptions C self')
           <-> In t (mqtt_connection.ingest_topics p)
               /\ q = mqtt_connection.ingest_qos p).
Proof.
  intros Hint Hacc Hconn Hnone.
  destruct (params_from_env_returns environ Hint)
    as (p & qos & Hp & Hqos & Htopics & _).
  exists p.
  assert (Hclean : Forall clean_topic (mqtt_connection.ingest_topics p))
    by (rewrite Htopics; apply stripped_topics_clean).
  unfold main.subscribe_ingest_topics.
  destruct (mqtt_connection.ingest_topics p) as [|t0 ts] eqn:Hts.
  - exists self, []. rewrite app_nil_r, Hnone.
    repeat split; try constructor; cbn in *; intuition.
  - unfold mqtt_connection.subscribe. cbv zeta.
    rewrite (stripped_topics_fixed _ Hclean).
    assert (Hq : mqtt_connection.clamp_qos (mqtt_connection.ingest_qos p)
                 = mqtt_connection.ingest_qos p)
      by (rewrite Hqos; apply clamp_qos_fixed, clamp_qos_range).
    rewrite Hq, Hnone.
    cbn [mqtt_connection._connected_event mqtt_connection._connect_rc].
    unfold connected in Hconn. rewrite Hconn.
    rewrite _subscribe_desired_subscriptions_items.
    cbn [mqtt_connection._desired_subscriptions].
    match goal with
    | |- context [mqtt_connection.subscribe_items C client_subscribe ?i ?s] =>
        destruct (subscribe_items_accepting client_subscribe i s Hacc)
          as (self' & entries & Hrun & Hlog & Hall);
        destruct (subscribe_items_frame client_subscribe i s) as (H1 & _)
    end.
    cbv zeta in H1. rewrite Hrun in H1 |- *.
    cbn [snd mqtt_connection._desired_subscriptions
         mqtt_connection.logged] in *.
    exists self', entries. split; [exact Hp|]. split; [reflexivity|].
    split; [exact Hlog|]. rewrite H1. split; [exact Hall|].
    assert (Hrange : 0 <= mqtt_connection.ingest_qos p <= 2)
      by (rewrite Hqos; apply clamp_qos_range).
    destruct (fold_dict_set_invariant (mqtt_connection.ingest_qos p)
                (t0 :: ts) [] Hclean Hrange
                (conj (Forall_nil _) (NoDup_nil _))) as [_ Hnd].
    split; [exact Hnd|].
    intros t q. split.
    + intros Hin. apply (In_desired_qos _ _ _ Hnd) in Hin.
      rewrite desired_qos_fold in Hin.
      destruct (mem t (t0 :: ts)) eqn:Hmem; [|discriminate].
      apply mem_In in Hmem. injection Hin as <-. now split.
    + intros [Hin ->]. apply desired_qos_In.
      rewrite desired_qos_fold.
      apply mem_In in Hin. now rewrite Hin.
Qed.
End ConfiguredSubscriptions.

(* ------------------------------------------------------------------ *)
(** * The database connection string *)

Section JoinFacts.
Variable sep : N.

Lemma split_plain (p : pystr) : ~ In sep p -> PyStr.split sep p = [p].
Proof.
  induction p as [|c p IH]; simpl; intros Hp; [reflexivity|].
  destruct (N.eqb_spec c sep) as [->|_]; [destruct Hp; now left|].
  rewrite IH by (intros H; apply Hp; now right). reflexivity.
Qed.

Lemma split_app_sep (p rest : pystr) :
  ~ In sep p ->
  PyStr.split sep (p ++ sep :: rest) = p :: PyStr.split sep rest.
Proof.
  induction p as [|c p IH]; simpl; intros Hp.
  - now rewrite N.eqb_refl.
  - destruct (N.eqb_spec c sep) as [->|_]; [destruct Hp; now left|].
    rewrite IH by (intros H; apply Hp; now right). reflexivity.
Qed.

(** Splitting what was joined gives the parts back, when no part holds
    the separator. *)
Lemma split_join (parts : list pystr) :
  parts <> [] -> Forall (fun p => ~ In sep p) parts ->
  PyStr.split sep (join [sep] parts) = parts.
Proof.
  intros Hne Hparts. revert Hne.
  induction Hparts as [|p ps Hp Hps IH]; intros Hne; [now destruct Hne|].
  destruct ps as [|q ps].
  - cbn [join]. now apply split_plain.
  - change (join [sep] (p :: q :: ps))
      with (p ++ sep :: join [sep] (q :: ps)).
    rewrite split_app_sep by exact Hp. f_equal. apply IH. discriminate.
Qed.
End JoinFacts.

Lemma literal_without (c : N) (s : pystr) :
  forallb (fun x => negb (x =? c)%N) s = true -> ~ In c s.
Proof.
  intros Hall Hin. rewrite forallb_forall in Hall.
  specialize (Hall _ Hin). now rewrite N.eqb_refl in Hall.
Qed.

Lemma digits_pos_without (c : N) (fuel : nat) (n : N) (acc : pystr) :
  (c < 48 \/ 57 < c)%N -> ~ In c acc ->
  ~ In c (PyStr.digits_pos fuel n acc).
Proof.
  intros Hc. revert n acc. induction fuel as [|fuel IH]; intros n acc Hacc;
    cbn [PyStr.digits_pos]; [exact Hacc|].
  assert (Hacc' : ~ In c (PyStr.digit (n mod 10) :: acc)).
  { intros [Heq|Hin]; [|auto]. unfold PyStr.digit in Heq.
    assert (Hm : (n mod 10 < 10)%N) by (apply N.mod_upper_bound; lia).
    revert Heq Hm. generalize (n mod 10)%N. intros m Heq Hm. lia. }
  destruct (n <? 10)%N; [exact Hacc'|]. now apply IH.
Qed.

Lemma str_of_Z_without (c : N) (z : Z) :
  (c < 45 \/ 57 < c)%N -> ~ In c (PyStr.str_of_Z z).
Proof.
  intros Hc. destruct z as [|p|p]; cbn [PyStr.str_of_Z].
  - cbn. intros [Heq|[]]. lia.
  - apply digits_pos_without; [lia|intros []].
  - intros [Heq|Hin]; [lia|].
    revert Hin. apply digits_pos_without; [lia|intros []].
Qed.

Section ConnectionString.
Context {rt : Runtime}.

Lemma encrypt_and_trust_words (p : db_client.MSSQLConnectionParams) :
  (fst (db_client.encrypt_and_trust p) = u "yes"
   \/ fst (db_client.encrypt_and_trust p) = u "no")
  /\ (snd (db_client.encrypt_and_trust p) = u "yes"
      \/ snd (db_client.encrypt_and_trust p) = u "no").
Proof.
  unfold db_client.encrypt_and_trust.
  destruct (mem _ db_client.required_words);
    [|destruct (mem _ db_client.disabled_words)];
    destruct (db_client.trust_server_certificate p) as [[|]|]; cbn; auto.
Qed.

Lemma connection_parts_without (p : db_client.MSSQLConnectionParams) :
  ~ In semicolon (db_client.host p) ->
  ~ In semicolon (db_client.database p) ->
  ~ In semicolon (db_client.driver p) ->
  (forall v, db_client.user p = Some v -> ~ In semicolon v) ->
  (forall v, db_client.password p = Some v -> ~ In semicolon v) ->
  Forall (fun part => ~ In semicolon part) (db_client.connection_parts p).
Proof.
  intros Hhost Hdb Hdriver Huser Hpw.
  unfold db_client.connection_parts. cbv zeta.
  destruct (encrypt_and_trust_words p) as [He Ht].
  destruct (db_client.encrypt_and_trust p) as [e t]. cbn [fst snd] in He, Ht.
  assert (Hlit : forall s, forallb (fun x => negb (x =? semicolon)%N) s = true
                           -> ~ In semicolon s)
    by (intros s; apply literal_without).
  assert (Hwords : forall w, w = u "yes" \/ w = u "no" -> ~ In semicolon w).
  { intros w [->| ->]; apply Hlit; reflexivity. }
  assert (Happ : forall a b : pystr,
             ~ In semicolon a -> ~ In semicolon b -> ~ In semicolon (a ++ b)).
  { intros a b Ha Hb H. apply in_app_iff in H. tauto. }
  assert (Hserver :
    ~ In semicolon
        (if negb (db_client.port p =? 0)
         then db_client.host p ++ u "," ++ PyStr.str_of_Z (db_client.port p)
         else db_client.host p)).
  { destruct (negb _); [|exact Hhost].
    apply Happ; [exact Hhost|]. apply Happ; [apply Hlit; reflexivity|].
    apply str_of_Z_without. unfold semicolon. lia. }
  assert (Hcommon :
    Forall (fun part => ~ In semicolon part)
      [u "DRIVER={" ++ db_client.driver p ++ u "}";
       u "SERVER="
       ++ (if negb (db_client.port p =? 0)
           then db_client.host p ++ u ","
                ++ PyStr.str_of_Z (db_client.port p)
           else db_client.host p);
       u "DATABASE=" ++ db_client.database p;
       u "Encrypt=" ++ e;
       u "TrustServerCertificate=" ++ t]).
  { apply Forall_cons; [|apply Forall_cons; [|apply Forall_cons;
      [|apply Forall_cons; [|apply Forall_cons; [|apply Forall_nil]]]]];
      (apply Happ; [apply Hlit; reflexivity|]); auto. }
  destruct (db_client.user p) as [[|c name]|] eqn:Hu.
  - apply Forall_app. split; [exact Hcommon|].
    apply Forall_cons; [apply Hlit; reflexivity|apply Forall_nil].
  - apply Forall_app. split; [exact Hcommon|].
    apply Forall_cons; [|apply Forall_cons; [|apply Forall_nil]];
      (apply Happ; [apply Hlit; reflexivity|]).
    + now apply Huser.
    + destruct (db_client.password p) as [pw|] eqn:Hp; [|intros []].
      now apply Hpw.
  - apply Forall_app. split; [exact Hcommon|].
    apply Forall_cons; [apply Hlit; reflexivity|apply Forall_nil].
Qed.

(** X20.  The connection string can be read back. When neither host,
    database, driver, user nor password contains a semicolon, splitting
    the connection string at the semicolons gives back exactly the
    fields it was built from, followed by one empty piece for the final
    semicolon: no value can add or hide a field. *)
Theorem connection_string_fields (p : db_client.MSSQLConnectionParams) :
  ~ In semicolon (db_client.host p) ->
  ~ In semicolon (db_client.database p) ->
  ~ In semicolon (db_client.driver p) ->
  (forall v, db_client.user p = Some v -> ~ In semicolon v) ->
  (forall v, db_client.password p = Some v -> ~ In semicolon v) ->
  PyStr.split semicolon (db_client._build_connection_string p)
  = db_client.connection_parts p ++ [[]].
Proof.
  intros Hhost Hdb Hdriver Huser Hpw.
  unfold db_client._build_connection_string.
  change (u ";") with [semicolon].
  rewrite split_snoc_sep. f_equal. apply split_join.
  - unfold db_client.connection_parts. cbv zeta.
    destruct (db_client.encrypt_and_trust p) as [e t].
    destruct (db_client.user p) as [[|c name]|]; discriminate.
  - now apply connection_parts_without.
Qed.

Variable environ : string -> option pystr.

Lemma mssql_params_from_env_returns :
  int_raises_value_error ->
  exists port timeout,
    db_client.mssql_params_from_env environ
    = Ok {| db_client.host :=
              if negb (truthy (_get environ "DB_HOST" []))
              then u "localhost" else _get environ "DB_HOST" [];
            db_client.port := port;
            db_client.database :=
              or_default (_get environ "DB_NAME" (u "master")) (u "master");
            db_client.user := or_none (_get environ "DB_USER" []);
            db_client.password := or_none (_get environ "DB_PASSWORD" []);
            db_client.driver :=
              or_default
                (_get environ "DB_DRIVER" (u "ODBC Driver 18 for SQL Server"))
                (u "ODBC Driver 18 for SQL Server");
            db_client.encrypt :=
              or_default (_get environ "DB_ENCRYPT" (u "optional"))
                         (u "optional");
            db_client.trust_server_certificate :=
              if truthy (_get environ "DB_TRUST_SERVER_CERT" [])
              then Some (mem (str_lower
                                (_get environ "DB_TRUST_SERVER_CERT" []))
                             flag_words)
              else None;
            db_client.connect_timeout_seconds := timeout |}.
Proof.
  intros Hint. unfold db_client.mssql_params_from_env. cbv zeta.
  destruct (int_or_returns (_get environ "DB_PORT" (u "1433")) 1433 Hint)
    as [port ->].
  destruct (int_or_returns (_get environ "DB_CONNECT_TIMEOUT" (u "5")) 5
              Hint) as [timeout ->].
  cbn [bind]. eauto.
Qed.

Lemma _get_stripped (name : string) (default : pystr) :
  strip (_get environ name default) = _get environ name default.
Proof. unfold _get. apply strip_idempotent. Qed.

(** The mode of the configured connection: the trimmed, lower-cased
    [DB_ENCRYPT], and [optional] when that is blank. *)
Lemma configured_encrypt_mode (p : db_client.MSSQLConnectionParams) :
  db_client.encrypt p
  = or_default (_get environ "DB_ENCRYPT" (u "optional")) (u "optional") ->
  db_client.encrypt_mode p
  = if truthy (_get environ "DB_ENCRYPT" (u "optional"))
    then str_lower (_get environ "DB_ENCRYPT" (u "optional"))
    else u "optional".
Proof.
  intros Henc. unfold db_client.encrypt_mode. rewrite Henc.
  unfold or_default.
  destruct (truthy (_get environ "DB_ENCRYPT" (u "optional"))) eqn:Hraw.
  - rewrite Hraw. now rewrite _get_stripped.
  - reflexivity.
Qed.
Lemma required_not_disabled (m : pystr) :
  mem m db_client.required_words = true ->
  mem m db_client.disabled_words = false.
Proof.
  intros Hm. apply mem_In in Hm. unfold db_client.required_words in Hm.
  repeat (destruct Hm as [<-|Hm]; [reflexivity|]). destruct Hm.
Qed.

Lemma connection_parts_security (p : db_client.MSSQLConnectionParams) :
  nth_error (db_client.connection_parts p) 3
  = Some (u "Encrypt=" ++ fst (db_client.encrypt_and_trust p))
  /\ nth_error (db_client.connection_parts p) 4
     = Some (u "TrustServerCertificate="
             ++ snd (db_client.encrypt_and_trust p)).
Proof.
  unfold db_client.connection_parts. cbv zeta.
  destruct (db_client.encrypt_and_trust p) as [e t].
  destruct (db_client.user p) as [[|c name]|]; split; reflexivity.
Qed.

(** X21.  Encryption is on unless it is switched off by name. Provided
    [int] raises nothing but [ValueError], [mssql_params_from_env]
    returns for every environment, with a host, a database, a driver and
    an encryption mode that are not empty; and in the connection string
    built from what it returns, the field [Encrypt] is [no] exactly when
    [DB_ENCRYPT], trimmed and lower-cased, is one of the words that
    disable encryption, and [yes] for every other value, misspelt ones
    included; the field [TrustServerCertificate] follows
    [DB_TRUST_SERVER_CERT] when that is not blank, and is otherwise
    [yes] exactly when the mode is neither a requiring nor a disabling
    word. *)
Theorem encryption_on_unless_disabled :
  int_raises_value_error ->
  exists p,
    db_client.mssql_params_from_env environ = Ok p
    /\ truthy (db_client.host p) = true
    /\ truthy (db_client.database p) = true
    /\ truthy (db_client.driver p) = true
    /\ truthy (db_client.encrypt p) = true
    /\ let mode := str_lower (_get environ "DB_ENCRYPT" (u "optional")) in
       let trust_raw := _get environ "DB_TRUST_SERVER_CERT" [] in
       nth_error (db_client.connection_parts p) 3
       = Some (u "Encrypt="
               ++ db_client.yes_no
                    (negb (mem mode db_client.disabled_words)))
       /\ nth_error (db_client.connection_parts p) 4
          = Some (u "TrustServerCertificate="
                  ++ db_client.yes_no
                       (if truthy trust_raw
                        then mem (str_lower trust_raw) flag_words
                        else negb (mem mode db_client.required_words)
                             && negb (mem mode db_client.disabled_words))).
Proof.
  intros Hint.
  destruct (mssql_params_from_env_returns Hint) as (port & timeout & Hp).
  eexists. split; [exact Hp|].
  cbn [db_client.host db_client.database db_client.driver
       db_client.encrypt].
  split; [now destruct (truthy (_get environ "DB_HOST" [])) eqn:Hh|].
  split; [now apply or_default_truthy|].
  split; [now apply or_default_truthy|].
  split; [now apply or_default_truthy|].
  cbv zeta.
  match goal with
  | |- context [db_client.connection_parts ?q] =>
      destruct (connection_parts_security q) as [-> ->];
      pose proof (configured_encrypt_mode q eq_refl) as Hmode;
      unfold db_client.encrypt_and_trust; rewrite Hmode
  end.
  cbn [db_client.trust_server_certificate].
  destruct (truthy (_get environ "DB_ENCRYPT" (u "optional"))) eqn:Hraw.
  - destruct (mem (str_lower (_get environ "DB_ENCRYPT" (u "optional")))
                  db_client.required_words) eqn:Hreq.
    + rewrite (required_not_disabled _ Hreq).
      destruct (truthy (_get environ "DB_TRUST_SERVER_CERT" []));
        split; reflexivity.
    + destruct (mem (str_lower (_get environ "DB_ENCRYPT" (u "optional")))
                    db_client.disabled_words);
        destruct (truthy (_get environ "DB_TRUST_SERVER_CERT" []));
        split; reflexivity.
  - assert (Hblank : _get environ "DB_ENCRYPT" (u "optional") = []).
    { now destruct (_get environ "DB_ENCRYPT" (u "optional")). }
    rewrite Hblank.
    destruct (truthy (_get environ "DB_TRUST_SERVER_CERT" []));
      split; reflexivity.
Qed.
End ConnectionString.

(* ------------------------------------------------------------------ *)
(** * The theorems at concrete inputs *)

Lemma runtime_int_raises_value_error :
  int_raises_value_error (rt := Scenarios.runtime).
Proof.
  intros s e. cbn. destruct s as [|c s]; [now intros [= <-]|].
  destruct (Scenarios.int_of_digits 0 (c :: s)); [discriminate|].
  now intros [= <-].
Qed.

Lemma recording_client_accepting : accepting Scenarios.recording_client.
Proof. intros topic qos c. eexists; eexists; reflexivity. Qed.

Lemma empty_table_keyed {R K : Type} (id : R -> Z) (key : R -> K) :
  keyed_table id key Examples.empty_table.
Proof. repeat split; constructor. Qed.

Lemma empty_database_well_keyed : database_well_keyed Scenarios.empty_database.
Proof.
  split; [split; constructor|].
  repeat split; try apply empty_table_keyed; constructor.
Qed.

Lemma resolver_idempotent_witness :
  event_serial Examples.event_status_offline = Some (u "SN1")
  /\ event_serial (Examples.event_statistics None) = Some (u "SN1")
  /\ exists r1 r2 t1 t2,
      DeviceStore.ensure_from_event _ DeviceStore.sql
        Examples.event_status_offline Examples.empty_table
      = (Ok (Some r1), t1)
      /\ DeviceStore.ensure_from_event _ DeviceStore.sql
           (Examples.event_statistics None) t1
         = (Ok (Some r2), t2)
      /\ device_store.device_id r2 = device_store.device_id r1
      /\ device_store.created r2 = false
      /\ device_store.created r1 = true
      /\ List.length (rows t2) = List.length (rows t1)
      /\ device_row_of (u "SN1") t2
         = Some {| DeviceStore.dv_id := device_store.device_id r1;
                   DeviceStore.dv_serial_number := u "SN1";
                   DeviceStore.dv_customer := u "acme";
                   DeviceStore.dv_location := u "plant1";
                   DeviceStore.dv_machine_name := u "line3" |}.
Proof.
  split; [reflexivity|]. split; [reflexivity|].
  exact (resolver_idempotent Examples.event_status_offline
           (Examples.event_statistics None) (u "SN1") Examples.empty_table
           eq_refl eq_refl).
Defined.

Lemma resolver_one_row_per_serial_witness :
  devices_well_formed Examples.empty_table
  /\ (let t' :=
        fold_left
          (fun t event =>
             snd (DeviceStore.ensure_from_event _ DeviceStore.sql event t))
          [Examples.event_status_offline; Examples.event_statistics None;
           Examples.event_huge_storage]
          Examples.empty_table in
      devices_well_formed t'
      /\ forall serial,
          (List.length (filter (DeviceStore.has_serial serial) (rows t'))
           <= 1)%nat).
Proof.
  assert (H : devices_well_formed Examples.empty_table)
    by (split; constructor).
  split; [exact H|].
  exact (resolver_one_row_per_serial
           [Examples.event_status_offline; Examples.event_statistics None;
            Examples.event_huge_storage] Examples.empty_table H).
Defined.

Lemma resolver_recovers_from_race_witness :
  devices_well_formed Examples.empty_table
  /\ device_row_of (u "SN1") Examples.empty_table = None
  /\ DeviceStore.upsert_device _
       (DeviceStore.racing
          (fun t => snd (DeviceStore.sql_insert (u "SN1") (u "acme")
                           (u "plant9") (u "line1") t)))
       (u "SN1") (u "acme") (u "plant1") (u "line3") Examples.empty_table
     = (Ok {| device_store.device_id := 1;
              device_store.created := false |},
        mk_table
          [{| DeviceStore.dv_id := 1;
              DeviceStore.dv_serial_number := u "SN1";
              DeviceStore.dv_customer := u "acme";
              DeviceStore.dv_location := u "plant1";
              DeviceStore.dv_machine_name := u "line3" |}]
          2).
Proof.
  assert (H : devices_well_formed Examples.empty_table)
    by (split; constructor).
  split; [exact H|]. split; [reflexivity|].
  exact (resolver_recovers_from_race (u "SN1") (u "acme") (u "plant1")
           (u "line3") (u "acme") (u "plant9") (u "line1")
           Examples.empty_table H eq_refl).
Defined.

Lemma message_without_serial_writes_nothing_witness :
  (forall topic event,
      mqtt_client.topic_of (rt := Scenarios.runtime)
        Scenarios.msg_null_serial = Ok topic ->
      build_event (rt := Scenarios.runtime) topic
        (mqtt_client.msg_payload Scenarios.msg_null_serial)
        (mqtt_client.msg_qos Scenarios.msg_null_serial)
        (mqtt_client.msg_retain Scenarios.msg_null_serial)
      = Ok (Some event) ->
      event_serial event = None)
  /\ mqtt_client.stores _
       (snd (mqtt_client._on_message (rt := Scenarios.runtime) _
               Scenarios.connector Scenarios.msg_null_serial Scenarios.start))
     = Scenarios.empty_database.
Proof.
  assert (H : forall topic event,
             mqtt_client.topic_of (rt := Scenarios.runtime)
               Scenarios.msg_null_serial = Ok topic ->
             build_event (rt := Scenarios.runtime) topic
               (mqtt_client.msg_payload Scenarios.msg_null_serial)
               (mqtt_client.msg_qos Scenarios.msg_null_serial)
               (mqtt_client.msg_retain Scenarios.msg_null_serial)
             = Ok (Some event) ->
             event_serial event = None).
  { intros topic event Htopic Hev. vm_compute in Htopic.
    injection Htopic as <-. vm_compute in Hev. injection Hev as <-.
    reflexivity. }
  split; [exact H|].
  exact (message_without_serial_writes_nothing (rt := Scenarios.runtime)
           Scenarios.msg_null_serial Scenarios.start H).
Defined.

Lemma on_message_returns_outside_storage_witness :
  mqtt_client.topic_of (rt := Scenarios.runtime) Scenarios.msg_bad_topic
  = Raise UnicodeDecodeError
  /\ mqtt_client._on_message (rt := Scenarios.runtime) _
       Scenarios.connector Scenarios.msg_bad_topic Scenarios.start
     = (Raise UnicodeDecodeError, Scenarios.start)
  /\ mqtt_client.topic_of (rt := Scenarios.runtime) Scenarios.msg_int_serial
     = Ok Examples.status_topic
  /\ (forall event,
         build_event (rt := Scenarios.runtime) Examples.status_topic
           (mqtt_client.msg_payload Scenarios.msg_int_serial)
           (mqtt_client.msg_qos Scenarios.msg_int_serial)
           (mqtt_client.msg_retain Scenarios.msg_int_serial)
         = Ok (Some event) ->
         PyStr.eqb (subtype event) (u "storage") = false)
  /\ fst (mqtt_client._on_message (rt := Scenarios.runtime) _
            Scenarios.connector Scenarios.msg_int_serial Scenarios.start)
     = Ok tt.
Proof.
  assert (Hbad : mqtt_client.topic_of (rt := Scenarios.runtime)
                   Scenarios.msg_bad_topic = Raise UnicodeDecodeError)
    by reflexivity.
  assert (Hgood : mqtt_client.topic_of (rt := Scenarios.runtime)
                    Scenarios.msg_int_serial = Ok Examples.status_topic)
    by reflexivity.
  assert (H : forall event,
             build_event (rt := Scenarios.runtime) Examples.status_topic
               (mqtt_client.msg_payload Scenarios.msg_int_serial)
               (mqtt_client.msg_qos Scenarios.msg_int_serial)
               (mqtt_client.msg_retain Scenarios.msg_int_serial)
             = Ok (Some event) ->
             PyStr.eqb (subtype event) (u "storage") = false).
  { intros event Hev. vm_compute in Hev. injection Hev as <-. reflexivity. }
  split; [exact Hbad|].
  split; [exact (proj1 (on_message_returns_outside_storage
                          (rt := Scenarios.runtime) Scenarios.connector
                          Scenarios.msg_bad_topic Scenarios.start)
                   UnicodeDecodeError Hbad)|].
  split; [exact Hgood|]. split; [exact H|].
  exact (proj2 (on_message_returns_outside_storage
                  (rt := Scenarios.runtime) Scenarios.connector
                  Scenarios.msg_int_serial Scenarios.start)
           Examples.status_topic Hgood H).
Defined.

Lemma message_keeps_database_well_keyed_witness :
  database_well_keyed Scenarios.empty_database
  /\ database_well_keyed
       (mqtt_client.stores _
          (snd (mqtt_client._on_message (rt := Scenarios.runtime) _
                  Scenarios.connector Scenarios.msg_int_serial
                  Scenarios.start))).
Proof.
  split; [exact empty_database_well_keyed|].
  exact (message_keeps_database_well_keyed (rt := Scenarios.runtime)
           Scenarios.msg_int_serial Scenarios.start
           empty_database_well_keyed).
Defined.

Lemma os_version_last_write_wins_witness :
  keyed_table os_id os_device_id (device_os_status Examples.empty_world)
  /\ (let w1 :=
        snd (device_os_status_store.upsert_os_version 7 (u "Windows 10")
               100 (mk_datetime 100000000) Examples.empty_world) in
      let w2 :=
        snd (device_os_status_store.upsert_os_version 7 (u "Windows 11")
               200 (mk_datetime 200000000) w1) in
      (exists r,
          fst (device_os_status_store.upsert_os_version 7 (u "Windows 10")
                 100 (mk_datetime 100000000) Examples.empty_world) = Ok r
          /\ os_row_of 7 w1
             = Some {| os_id :=
                         device_os_status_store.device_os_status_id r;
                       os_device_id := 7; os_version := u "Windows 10";
                       os_ts_epoch := 100;
                       os_ts_datetime := mk_datetime 100000000 |}
          /\ device_os_status_store.created r = true)
      /\ (exists r,
             fst (device_os_status_store.upsert_os_version 7
                    (u "Windows 11") 200 (mk_datetime 200000000) w1) = Ok r
             /\ device_os_status_store.created r = false
             /\ os_row_of 7 w2
                = Some {| os_id :=
                            device_os_status_store.device_os_status_id r;
                          os_device_id := 7; os_version := u "Windows 11";
                          os_ts_epoch := 200;
                          os_ts_datetime := mk_datetime 200000000 |})
      /\ List.length (rows (device_os_status w2))
         = List.length (rows (device_os_status w1))
      /\ (forall d', d' <> 7 ->
            os_row_of d' w1 = os_row_of d' Examples.empty_world
            /\ os_row_of d' w2 = os_row_of d' Examples.empty_world)
      /\ keyed_table os_id os_device_id (device_os_status w2)).
Proof.
  split; [apply empty_table_keyed|].
  exact (os_version_last_write_wins 7 (u "Windows 10") (u "Windows 11")
           100 200 (mk_datetime 100000000) (mk_datetime 200000000)
           Examples.empty_world (empty_table_keyed os_id os_device_id)).
Defined.

Lemma upsert_drive_one_row_per_drive_witness :
  keyed_table sg_id storage_key (device_storage_status Examples.empty_world)
  /\ (let w' :=
        snd (device_storage_status_store.upsert_drive 7 (u "C")
               (Some (u "Fixed")) (Some (u "NTFS")) None None None None
               100 (mk_datetime 100000000) Examples.empty_world) in
      (exists r,
          fst (device_storage_status_store.upsert_drive 7 (u "C")
                 (Some (u "Fixed")) (Some (u "NTFS")) None None None None
                 100 (mk_datetime 100000000) Examples.empty_world) = Ok r
          /\ storage_row_of 7 (u "C") w'
             = Some {| sg_id :=
                         device_storage_status_store.device_storage_id r;
                       sg_device_id := 7; sg_drive := u "C";
                       sg_drive_type := Some (u "Fixed");
                       sg_format := Some (u "NTFS");
                       sg_total_gb := None; sg_free_gb := None;
                       sg_used_gb := None; sg_usage_percent := None;
                       sg_ts_epoch := 100;
                       sg_ts_datetime := mk_datetime 100000000 |}
          /\ device_storage_status_store.created r = true)
      /\ List.length (rows (device_storage_status w')) = 1%nat
      /\ (forall d' drive', (d', drive') <> (7, u "C") ->
            storage_row_of d' drive' w'
            = storage_row_of d' drive' Examples.empty_world)
      /\ keyed_table sg_id storage_key (device_storage_status w')).
Proof.
  split; [apply empty_table_keyed|].
  exact (upsert_drive_one_row_per_drive 7 (u "C") (Some (u "Fixed"))
           (Some (u "NTFS")) None None None None 100
           (mk_datetime 100000000) Examples.empty_world
           (empty_table_keyed sg_id storage_key)).
Defined.

Lemma upsert_status_one_device_witness :
  keyed_table st_id st_device_id (device_status Examples.empty_world)
  /\ (let w' :=
        snd (device_status_store.upsert_status 7 (u "offline") 100
               (mk_datetime 100000000) Examples.empty_world) in
      (forall d', d' <> 7 ->
          status_row_of d' w' = status_row_of d' Examples.empty_world)
      /\ List.length (rows (device_status w')) = 1%nat
      /\ keyed_table st_id st_device_id (device_status w')).
Proof.
  split; [apply empty_table_keyed|].
  exact (upsert_status_one_device 7 (u "offline") 100
           (mk_datetime 100000000) Examples.empty_world
           (empty_table_keyed st_id st_device_id)).
Defined.

Lemma on_connect_resubscribes_witness :
  accepting Scenarios.recording_client
  /\ (exists self' results,
         mqtt_connection._on_connect _ Scenarios.recording_client [] 0
           Scenarios.queued
         = (Ok tt, self')
         /\ client_answers Scenarios.recording_client
              (mqtt_connection._desired_subscriptions _ Scenarios.queued)
              (mqtt_connection._client _ Scenarios.queued) results
              (mqtt_connection._client _ self')
         /\ List.length results
            = List.length
                (mqtt_connection._desired_subscriptions _ Scenarios.queued)
         /\ mqtt_connection.logged _ self'
            = mqtt_connection.logged _ Scenarios.queued
              ++ mqtt_connection.LogOnConnect 0 false
                 :: entries_of
                      (mqtt_connection._desired_subscriptions _
                         Scenarios.queued)
                      results
         /\ mqtt_connection._desired_subscriptions _ self'
            = mqtt_connection._desired_subscriptions _ Scenarios.queued
         /\ connected self' = true)
  /\ (forall rc topics qos,
         rc <> 0 ->
         let refused :=
           snd (mqtt_connection._on_connect _ Scenarios.recording_client []
                  rc Scenarios.queued) in
         fst (mqtt_connection._on_connect _ Scenarios.recording_client []
                rc Scenarios.queued)
         = Ok tt
         /\ mqtt_connection._client _ refused
            = mqtt_connection._client _ Scenarios.queued
         /\ connected refused = false
         /\ mqtt_connection._client _
              (snd (mqtt_connection.subscribe _ Scenarios.recording_client
                      topics qos refused))
            = mqtt_connection._client _ Scenarios.queued).
Proof.
  split; [exact recording_client_accepting|].
  exact (on_connect_resubscribes Scenarios.recording_client []
           Scenarios.queued recording_client_accepting).
Defined.

Lemma params_from_env_usable_witness :
  int_raises_value_error (rt := Scenarios.runtime)
  /\ exists p,
      mqtt_connection.params_from_env (rt := Scenarios.runtime)
        Scenarios.environ
      = Ok p
      /\ 0 <= mqtt_connection.ingest_qos p <= 2
      /\ Forall (fun t => clean_topic t /\ ~ In comma t /\ ~ In semicolon t)
                (mqtt_connection.ingest_topics p)
      /\ mqtt_connection.stripped_topics (mqtt_connection.ingest_topics p)
         = mqtt_connection.ingest_topics p
      /\ truthy (mqtt_connection.client_id p) = true
      /\ truthy (mqtt_connection.transport p) = true
      /\ mqtt_connection.username p <> Some []
      /\ mqtt_connection.password p <> Some []
      /\ mqtt_connection.ws_path p <> Some [].
Proof.
  split; [exact runtime_int_raises_value_error|].
  exact (params_from_env_usable (rt := Scenarios.runtime) Scenarios.environ
           runtime_int_raises_value_error).
Defined.

Lemma configured_topics_subscribed_witness :
  int_raises_value_error (rt := Scenarios.runtime)
  /\ accepting Scenarios.recording_client
  /\ connected Scenarios.just_connected = true
  /\ mqtt_connection._desired_subscriptions _ Scenarios.just_connected = []
  /\ exists p self' entries,
      mqtt_connection.params_from_env (rt := Scenarios.runtime)
        Scenarios.environ
      = Ok p
      /\ main.subscribe_ingest_topics Scenarios.recording_client p
           Scenarios.just_connected
         = (Ok tt, self')
      /\ mqtt_connection.logged _ self'
         = mqtt_connection.logged _ Scenarios.just_connected ++ entries
      /\ Forall2 entry_for (mqtt_connection._desired_subscriptions _ self')
                 entries
      /\ NoDup (map fst (mqtt_connection._desired_subscriptions _ self'))
      /\ (forall t q,
             In (t, q) (mqtt_connection._desired_subscriptions _ self')
             <-> In t (mqtt_connection.ingest_topics p)
                 /\ q = mqtt_connection.ingest_qos p).
Proof.
  split; [exact runtime_int_raises_value_error|].
  split; [exact recording_client_accepting|].
  split; [reflexivity|]. split; [reflexivity|].
  exact (configured_topics_subscribed (rt := Scenarios.runtime)
           Scenarios.recording_client Scenarios.environ
           Scenarios.just_connected runtime_int_raises_value_error
           recording_client_accepting eq_refl eq_refl).
Defined.

Lemma connection_string_fields_witness :
  ~ In semicolon (db_client.host Scenarios.mssql_params)
  /\ ~ In semicolon (db_client.database Scenarios.mssql_params)
  /\ ~ In semicolon (db_client.driver Scenarios.mssql_params)
  /\ (forall v, db_client.user Scenarios.mssql_params = Some v ->
                ~ In semicolon v)
  /\ (forall v, db_client.password Scenarios.mssql_params = Some v ->
                ~ In semicolon v)
  /\ PyStr.split semicolon
       (db_client._build_connection_string (rt := Scenarios.runtime)
          Scenarios.mssql_params)
     = [u "DRIVER={ODBC Driver 18 for SQL Server}";
        u "SERVER=db.local,1433";
        u "DATABASE=systems_one";
        u "Encrypt=yes";
        u "TrustServerCertificate=no";
        u "UID=ingest";
        u "PWD=s3cret";
        []].
Proof.
  assert (H1 : ~ In semicolon (db_client.host Scenarios.mssql_params))
    by (apply literal_without; reflexivity).
  assert (H2 : ~ In semicolon (db_client.database Scenarios.mssql_params))
    by (apply literal_without; reflexivity).
  assert (H3 : ~ In semicolon (db_client.driver Scenarios.mssql_params))
    by (apply literal_without; reflexivity).
  assert (H4 : forall v, db_client.user Scenarios.mssql_params = Some v ->
                         ~ In semicolon v)
    by (intros v [= <-]; apply literal_without; reflexivity).
  assert (H5 : forall v, db_client.password Scenarios.mssql_params = Some v ->
                         ~ In semicolon v)
    by (intros v [= <-]; apply literal_without; reflexivity).
  repeat (split; [assumption|]).
  exact (connection_string_fields (rt := Scenarios.runtime)
           Scenarios.mssql_params H1 H2 H3 H4 H5).
Defined.

Lemma encryption_on_unless_disabled_witness :
  int_raises_value_error (rt := Scenarios.runtime)
  /\ exists p,
      db_client.mssql_params_from_env (rt := Scenarios.runtime)
        Scenarios.environ
      = Ok p
      /\ truthy (db_client.host p) = true
      /\ truthy (db_client.database p) = true
      /\ truthy (db_client.driver p) = true
      /\ truthy (db_client.encrypt p) = true
      /\ nth_error (db_client.connection_parts (rt := Scenarios.runtime) p) 3
         = Some (u "Encrypt=no")
      /\ nth_error (db_client.connection_parts (rt := Scenarios.runtime) p) 4
         = Some (u "TrustServerCertificate=no").
Proof.
  split; [exact runtime_int_raises_value_error|].
  exact (encryption_on_unless_disabled (rt := Scenarios.runtime)
           Scenarios.environ runtime_int_raises_value_error).
Defined.
